(** * Autoscheduler2: the scheduling scaffold, embedded and checked

    The repository is a command-line shell around two classes whose methods
    are mostly placeholders: [ScopeManager] (scope_manager.py), [Schedule]
    (schedule.py), the menu loop [CLI] (cli/__init__.py), the Docker
    bootstrap [check_docker_containers] (main.py) and the constructor of
    [LLMClient] (llm_client.py).

    Python code is embedded as functions in a small monad [M] that threads
    the state of the running process (what was printed, logged, slept and
    called) and carries Python's exceptions.  Everything outside the process
    (environment variables, the docker command line, the Neo4j and ChromaDB
    servers, the OpenAI library) is a [Host]: a record of answers, one per
    external call.  What the user types is a list of [keyboard] entries,
    one per call of [input()].  Writing to the standard output and
    sleeping are taken to go through: [print] and [time.sleep] return. *)

From Stdlib Require Import ZArith NArith Ascii String.
From stdpp Require Import base strings gmap list pretty.

Open Scope string_scope.

(** ** Python strings and built-ins

    A Python [str] is held as its UTF-8 encoding, so the strings of this
    file are sequences of bytes and a character takes one to four of
    them.  Only the built-ins that the sources call are written out. *)
Module Py.

Definition nl : string := String (Ascii.ascii_of_nat 10) "".

(** *** Characters *)

Definition continuation_byte (b : N) : bool := (0x80 <=? b)%N && (b <=? 0xBF)%N.

(** The characters of a text, each one as the bytes that encode it: a byte
    that is not a continuation byte starts a character. *)
Fixpoint chars (s : string) : list string :=
  match s with
  | "" => []
  | String c s' =>
      match chars s' with
      | String c' ch :: rest =>
          if continuation_byte (Ascii.N_of_ascii c')
          then String c (String c' ch) :: rest
          else String c "" :: String c' ch :: rest
      | rest => String c "" :: rest
      end
  end.

Definition bytes (s : string) : list N :=
  map Ascii.N_of_ascii (String.list_ascii_of_string s).

(** [ord(ch)]: the code point of a character, when its bytes are the UTF-8
    encoding of one (shortest form, no surrogate, at most U+10FFFF). *)
Definition ord (ch : string) : option N :=
  match bytes ch with
  | [a] => if (a <? 0x80)%N then Some a else None
  | [a; b] =>
      if (0xC2 <=? a)%N && (a <=? 0xDF)%N && continuation_byte b
      then Some ((a - 0xC0) * 64 + (b - 0x80))%N
      else None
  | [a; b; c] =>
      let n := ((a - 0xE0) * 4096 + (b - 0x80) * 64 + (c - 0x80))%N in
      if (0xE0 <=? a)%N && (a <=? 0xEF)%N && continuation_byte b && continuation_byte c
         && (0x800 <=? n)%N && negb ((0xD800 <=? n)%N && (n <=? 0xDFFF)%N)
      then Some n
      else None
  | [a; b; c; d] =>
      let n := ((a - 0xF0) * 262144 + (b - 0x80) * 4096 + (c - 0x80) * 64 + (d - 0x80))%N in
      if (0xF0 <=? a)%N && (a <=? 0xF4)%N
         && continuation_byte b && continuation_byte c && continuation_byte d
         && (0x10000 <=? n)%N && (n <=? 0x10FFFF)%N
      then Some n
      else None
  | _ => None
  end.

(** [ch.isspace()], by code point: the characters of bidirectional type
    WS, B or S and those of category Zs. *)
Definition isspace (n : N) : bool :=
  ((0x09 <=? n)%N && (n <=? 0x0D)%N) || ((0x1C <=? n)%N && (n <=? 0x20)%N)
  || (n =? 0x85)%N || (n =? 0xA0)%N || (n =? 0x1680)%N
  || ((0x2000 <=? n)%N && (n <=? 0x200A)%N)
  || (n =? 0x2028)%N || (n =? 0x2029)%N || (n =? 0x202F)%N || (n =? 0x205F)%N
  || (n =? 0x3000)%N.

Definition space (ch : string) : bool :=
  match ord ch with
  | Some n => isspace n
  | None => false
  end.

Fixpoint drop_while {A} (f : A -> bool) (l : list A) : list A :=
  match l with
  | [] => []
  | x :: l' => if f x then drop_while f l' else l
  end.

Definition lstrip (l : list string) : list string := drop_while space l.

Definition rstrip (l : list string) : list string := rev (drop_while space (rev l)).

(** [s.strip()] *)
Definition strip (s : string) : string := String.concat "" (rstrip (lstrip (chars s))).

(** [s[:n]] *)
Definition slice_to (s : string) (n : nat) : string := String.concat "" (take n (chars s)).

(** [s.split(sep)] for a one-byte separator: never an empty list. *)
Fixpoint split (sep : Ascii.ascii) (s : string) : list string :=
  match s with
  | "" => [""]
  | String c s' =>
      if Ascii.eqb c sep then "" :: split sep s'
      else match split sep s' with
           | h :: t => String c h :: t
           | [] => [String c ""]
           end
  end.

(** [sep.join(l)] *)
Fixpoint join (sep : string) (l : list string) : string :=
  match l with
  | [] => ""
  | [x] => x
  | x :: rest => x +:+ sep +:+ join sep rest
  end.

(** [s * n] *)
Fixpoint mul (s : string) (n : nat) : string :=
  match n with
  | 0 => ""
  | S n' => s +:+ mul s n'
  end.

(** Truth value of a string, and of an optional one ([None] is false). *)
Definition truthy (s : string) : bool := negb (String.eqb s "").

Definition truthy_opt (o : option string) : bool :=
  match o with
  | Some s => truthy s
  | None => false
  end.

(** [x in l] for a list of strings. *)
Definition contains (l : list string) (x : string) : bool :=
  existsb (String.eqb x) l.

(** [str(n)] for an integer. *)
Definition str_nat (n : nat) : string := pretty n.
Definition str_Z (z : Z) : string := pretty z.

(** *** [int(s)]

    The interpreter first replaces every character beyond ASCII by a blank
    when it is a space and by its digit when it has a decimal value, then
    reads the result as C does: blanks, a sign, digits with single
    underscores between them, blanks. *)

(** The code points of the digit zero of each script (Unicode 14.0); the
    nine that follow each are its digits 1 to 9. *)
Definition decimal_zeros : list N :=
  [ 0x30; 0x660; 0x6F0; 0x7C0; 0x966; 0x9E6; 0xA66; 0xAE6; 0xB66; 0xBE6; 0xC66;
    0xCE6; 0xD66; 0xDE6; 0xE50; 0xED0; 0xF20; 0x1040; 0x1090; 0x17E0; 0x1810;
    0x1946; 0x19D0; 0x1A80; 0x1A90; 0x1B50; 0x1BB0; 0x1C40; 0x1C50; 0xA620;
    0xA8D0; 0xA900; 0xA9D0; 0xA9F0; 0xAA50; 0xABF0; 0xFF10; 0x104A0; 0x10D30;
    0x11066; 0x110F0; 0x11136; 0x111D0; 0x112F0; 0x11450; 0x114D0; 0x11650;
    0x116C0; 0x11730; 0x118E0; 0x11950; 0x11C50; 0x11D50; 0x11DA0; 0x16A60;
    0x16AC0; 0x16B50; 0x1D7CE; 0x1D7D8; 0x1D7E2; 0x1D7EC; 0x1D7F6; 0x1E140;
    0x1E2F0; 0x1E950; 0x1FBF0 ]%N.

(** [unicodedata.decimal(ch)] *)
Definition decimal (n : N) : option N :=
  (fun zero => (n - zero)%N)
    <$> List.find (fun zero => (zero <=? n)%N && (n <=? zero + 9)%N) decimal_zeros.

(** The ASCII character that stands for a character of the literal; a
    question mark for one that is neither a space nor a digit. *)
Definition to_ascii (ch : string) : N :=
  match ord ch with
  | None => 0x3F%N
  | Some n =>
      if (n <? 0x80)%N then n
      else if isspace n then 0x20%N
      else match decimal n with
           | Some d => (0x30 + d)%N
           | None => 0x3F%N
           end
  end.

(** [isspace] of C: TAB..CR and the blank. *)
Definition c_isspace (n : N) : bool :=
  ((0x09 <=? n)%N && (n <=? 0x0D)%N) || (n =? 0x20)%N.

Definition is_digit (n : N) : bool := (0x30 <=? n)%N && (n <=? 0x39)%N.

(** The run of digits at the head of [l], with its value and the number
    of digits, and what follows it.  An underscore must stand between two
    digits; [None] when the run has no digit or an underscore out of place. *)
Fixpoint scan (value : Z) (count : nat) (after_digit : bool) (l : list N)
  : option (Z * nat * list N) :=
  match l with
  | c :: l' =>
      if (c =? 0x5F)%N
      then (if after_digit then scan value count false l' else None)
      else if is_digit c
      then scan (10 * value + Z.of_N (c - 0x30)) (S count) true l'
      else if after_digit then Some (value, count, l) else None
  | [] => if after_digit then Some (value, count, []) else None
  end.

(** [sys.get_int_max_str_digits()], at its default. *)
Definition int_max_str_digits : nat := 4300.

Definition signed (l : list N) : bool * list N :=
  match l with
  | 0x2D%N :: l' => (true, l')
  | 0x2B%N :: l' => (false, l')
  | _ => (false, l)
  end.

Inductive parsed : Type :=
| Int (z : Z)
| TooLong (digits : nat)
| Invalid.

Definition parse (s : string) : parsed :=
  let '(negative, l) := signed (drop_while c_isspace (map to_ascii (chars s))) in
  match scan 0 0 false l with
  | Some (value, count, rest) =>
      if (int_max_str_digits <? count)%nat then TooLong count
      else match drop_while c_isspace rest with
           | [] => Int (if negative : bool then - value else value)%Z
           | _ :: _ => Invalid
           end
  | None => Invalid
  end.

(** [int(s)] in base 10; [None] stands for the [ValueError]. *)
Definition int (s : string) : option Z :=
  match parse s with
  | Int z => Some z
  | TooLong _ | Invalid => None
  end.

(** *** [repr(s)] *)

Definition hex_digit (n : N) : string :=
  String (Ascii.ascii_of_N (if (n <? 10)%N then 0x30 + n else 0x57 + n)%N) "".

Fixpoint hex (width : nat) (n : N) : string :=
  match width with
  | 0 => ""
  | S w => hex w (n / 16) +:+ hex_digit (n mod 16)
  end.

Definition quote1 : string := "'".
Definition quote2 : string := String (Ascii.ascii_of_N 0x22) "".
Definition backslash : string := String (Ascii.ascii_of_N 0x5C) "".

(** A character as [repr] shows it inside the quotes [q].  Beyond Latin-1
    the spaces are escaped; the other characters there are taken to be
    printable. *)
Definition escaped (q : string) (ch : string) : string :=
  match ord ch with
  | None => ch
  | Some n =>
      if String.eqb ch backslash || String.eqb ch q then backslash +:+ ch
      else if (n =? 0x09)%N then backslash +:+ "t"
      else if (n =? 0x0A)%N then backslash +:+ "n"
      else if (n =? 0x0D)%N then backslash +:+ "r"
      else if (n <? 0x20)%N || ((0x7F <=? n)%N && (n <=? 0xA0)%N) || (n =? 0xAD)%N
      then backslash +:+ "x" +:+ hex 2 n
      else if ((0x100 <=? n)%N && isspace n)
      then backslash +:+ "u" +:+ hex 4 n
      else ch
  end.

Definition repr (s : string) : string :=
  let cs := chars s in
  let q := if existsb (String.eqb quote1) cs && negb (existsb (String.eqb quote2) cs)
           then quote2 else quote1 in
  q +:+ String.concat "" (map (escaped q) cs) +:+ q.

(** The message of the [ValueError] of [int(s)]. *)
Definition int_error (s : string) : string :=
  match parse s with
  | TooLong digits =>
      "Exceeds the limit (" +:+ str_nat int_max_str_digits
        +:+ " digits) for integer string conversion: value has " +:+ str_nat digits
        +:+ " digits; use sys.set_int_max_str_digits() to increase the limit"
  | _ => "invalid literal for int() with base 10: " +:+ slice_to (repr s) 200
  end.

(** *** Decoding

    What [bytes.decode('utf-8')] reports for the first sequence of [l] that
    is not well formed, [l] starting at offset [pos]: the offsets of the
    first and last byte it blames, and the reason. *)
Definition second_byte_ok (a b : N) : bool :=
  continuation_byte b
  && negb ((a =? 0xE0)%N && (b <? 0xA0)%N)
  && negb ((a =? 0xED)%N && (0xA0 <=? b)%N)
  && negb ((a =? 0xF0)%N && (b <? 0x90)%N)
  && negb ((a =? 0xF4)%N && (0x90 <=? b)%N).

(** The number of bytes that a character starting with [a] takes. *)
Definition width (a : N) : nat :=
  if (a <? 0x80)%N then 1
  else if (0xC2 <=? a)%N && (a <=? 0xDF)%N then 2
  else if (0xE0 <=? a)%N && (a <=? 0xEF)%N then 3
  else if (0xF0 <=? a)%N && (a <=? 0xF4)%N then 4
  else 0.

Definition invalid_start : string := "invalid start byte".
Definition invalid_continuation : string := "invalid continuation byte".
Definition unexpected_end : string := "unexpected end of data".

(** The fault of the character at the head of [l], as the number of bytes
    blamed and the reason; [None] when the character is well formed. *)
Definition fault (l : list N) : option (nat * string) :=
  match l with
  | [] => None
  | a :: l1 =>
      match width a with
      | 0 => Some (1, invalid_start)
      | 1 => None
      | _ =>
          match l1 with
          | [] => Some (1, unexpected_end)
          | b :: l2 =>
              if negb (second_byte_ok a b) then Some (1, invalid_continuation)
              else if (width a =? 2)%nat then None
              else
                match l2 with
                | [] => Some (2, unexpected_end)
                | c :: l3 =>
                    if negb (continuation_byte c) then Some (2, invalid_continuation)
                    else if (width a =? 3)%nat then None
                    else
                      match l3 with
                      | [] => Some (3, unexpected_end)
                      | d :: _ =>
                          if negb (continuation_byte d)
                          then Some (3, invalid_continuation)
                          else None
                      end
                end
          end
      end
  end.

(** The first fault of [l], which starts at offset [pos] after [skip]
    bytes that belong to a character already checked. *)
Fixpoint first_fault (pos skip : nat) (l : list N) : option (nat * nat * N * string) :=
  match l with
  | [] => None
  | a :: l' =>
      match skip with
      | S skip' => first_fault (S pos) skip' l'
      | 0 =>
          match fault l with
          | Some (n, reason) => Some (pos, n, a, reason)
          | None => first_fault (S pos) (width a - 1) l'
          end
      end
  end.

(** The message of the [UnicodeDecodeError] that decoding the bytes [s]
    raises; [None] when [s] is text. *)
Definition decode_error (s : string) : option string :=
  match first_fault 0 0 (bytes s) with
  | None => None
  | Some (pos, n, a, reason) =>
      Some ("'utf-8' codec can't decode "
              +:+ (if (n =? 1)%nat
                   then "byte 0x" +:+ hex 2 a +:+ " in position " +:+ str_nat pos
                   else "bytes in position " +:+ str_nat pos +:+ "-"
                          +:+ str_nat (pos + n - 1))
              +:+ ": " +:+ reason)
  end.

(** The values that callers pass to the placeholder methods: [None], a
    string, an integer, or an instance of some class together with the
    text its [__str__] gives. *)
Inductive value : Type :=
| NoneV
| StrV (s : string)
| IntV (z : Z)
| ObjectV (cls : string) (text : string).

(** [str(v)], which is what an f-string field [{v}] renders. *)
Definition str (v : value) : string :=
  match v with
  | NoneV => "None"
  | StrV s => s
  | IntV z => str_Z z
  | ObjectV _ text => text
  end.

End Py.

(** ** Exceptions

    [except Exception] catches the instances of classes derived from
    [Exception]; [KeyboardInterrupt] and [SystemExit] derive from
    [BaseException] only and pass through such a handler. *)
Inductive exn : Type :=
| Exc (cls : string) (msg : string)
| KeyboardInterrupt
| SystemExit (code : Z).

Definition isinstance_Exception (e : exn) : bool :=
  match e with
  | Exc _ _ => true
  | KeyboardInterrupt | SystemExit _ => false
  end.

(** [str(e)] as the f-strings of the handlers render it. *)
Definition str_exn (e : exn) : string :=
  match e with
  | Exc _ msg => msg
  | KeyboardInterrupt => ""
  | SystemExit code => Py.str_Z code
  end.

Inductive result (A : Type) : Type :=
| Ok (a : A)
| Raise (e : exn).
Arguments Ok {A} a.
Arguments Raise {A} e.

Definition is_Ok {A} (r : result A) : bool :=
  match r with Ok _ => true | Raise _ => false end.

(** An answer of the outside world that is not an interrupt. *)
Definition catchable {A} (r : result A) : bool :=
  match r with
  | Ok _ => true
  | Raise e => isinstance_Exception e
  end.

(** ** The running process *)

(** Levels of the [logging] module. *)
Definition DEBUG : nat := 10.
Definition INFO : nat := 20.
Definition WARNING : nat := 30.
Definition ERROR : nat := 40.

Inductive event : Type :=
| Print (text : string)
| Prompt (text : string)
| Log (logger : string) (level : nat) (msg : string)
| Sleep (secs : nat)
| Call (target : string) (args : list string).

(** A logger of the global registry of [logging]: its level and the number
    of handlers attached to it. *)
Record LoggerState : Type := mkLoggerState {
  level : nat;
  handlers : nat
}.

(** The state of the process: seconds slept so far, everything observable
    it did in order, and the registry of loggers. *)
Record Proc : Type := mkProc {
  clock : nat;
  events : list event;
  loggers : gmap string LoggerState
}.

Definition Proc0 : Proc := mkProc 0 [] ∅.

Definition emit (e : event) (p : Proc) : Proc :=
  mkProc (clock p) (events p ++ [e]) (loggers p).

Definition M (A : Type) : Type := Proc -> result A * Proc.

Definition ret {A} (a : A) : M A := fun p => (Ok a, p).

Definition bind {A B} (m : M A) (k : A -> M B) : M B :=
  fun p =>
    match m p with
    | (Ok a, p') => k a p'
    | (Raise e, p') => (Raise e, p')
    end.

Definition raise {A} (e : exn) : M A := fun p => (Raise e, p).

#[export] Instance M_ret : MRet M := @ret.
#[export] Instance M_bind : MBind M := fun A B k m => bind m k.

(** [try: body  except <class> as e: handler e], the class given by the
    test [caught]. *)
Definition try_catching {A} (caught : exn -> bool) (body : M A) (handler : exn -> M A) : M A :=
  fun p =>
    match body p with
    | (Ok a, p') => (Ok a, p')
    | (Raise e, p') => if caught e then handler e p' else (Raise e, p')
    end.

(** [try: body  except Exception as e: handler e] *)
Definition try_except {A} (body : M A) (handler : exn -> M A) : M A :=
  try_catching isinstance_Exception body handler.

(** A block that runs [cleanup] however [body] ends, as the [__exit__] of a
    context manager does; an exception raised by [cleanup] replaces the
    outcome of [body]. *)
Definition leaving {A} (body : M A) (cleanup : M unit) : M A :=
  fun p =>
    let '(r, p1) := body p in
    match cleanup p1 with
    | (Ok _, p2) => (r, p2)
    | (Raise e, p2) => (Raise e, p2)
    end.

(** [print(text)] *)
Definition print (text : string) : M unit :=
  fun p => (Ok tt, emit (Print text) p).

(** [time.sleep(secs)] *)
Definition sleep (secs : nat) : M unit :=
  fun p => (Ok tt, mkProc (clock p + secs) (events p ++ [Sleep secs]) (loggers p)).

(** An external call that the host answers with [r]. *)
Definition external {A} (target : string) (args : list string) (r : result A) : M A :=
  fun p => (r, emit (Call target args) p).

(** *** Logging *)

(** [logger = logging.getLogger(name); logger.setLevel(logging.INFO)];
    then a [StreamHandler] is added when the logger has none.  The value
    returned is the logger's name. *)
Definition setup_logger (name : string) : M string :=
  fun p =>
    let h := match loggers p !! name with
             | Some st => handlers st
             | None => 0
             end in
    let st := mkLoggerState INFO (if (h =? 0)%nat then 1 else h) in
    (Ok name, mkProc (clock p) (events p) (<[name := st]> (loggers p))).

(** [logger.log(lvl, msg)]: the record is handled when [lvl] reaches the
    level of the logger (a logger that was never set up inherits WARNING
    from the root).  [logged] is the process after the call. *)
Definition logged (lvl : nat) (logger : string) (msg : string) (p : Proc) : Proc :=
  let threshold := match loggers p !! logger with
                   | Some st => level st
                   | None => WARNING
                   end in
  if (threshold <=? lvl)%nat then emit (Log logger lvl msg) p else p.

Definition log (lvl : nat) (logger : string) (msg : string) : M unit :=
  fun p => (Ok tt, logged lvl logger msg p).

Definition stdout (p : Proc) : list string :=
  omap (fun e => match e with Print t => Some t | _ => None end) (events p).

Definition calls (p : Proc) : list (string * list string) :=
  omap (fun e => match e with Call t a => Some (t, a) | _ => None end) (events p).

(** ** The outside world *)

(** [subprocess.CompletedProcess] with captured text output. *)
Record CompletedProcess : Type := mkCompleted {
  returncode : Z;
  cp_stdout : string;
  cp_stderr : string
}.

(** A Neo4j driver is known by the address and credentials it was made
    with; a session by its driver. *)
Record Driver : Type := mkDriver {
  uri : string;
  auth : string * string
}.

Record Session : Type := mkSession {
  session_driver : Driver
}.

(** One record of a query result: column names to integers. *)
Abbreviation Row := (gmap string Z).

(** The two ChromaDB clients the code builds. *)
Inductive ChromaClient : Type :=
| HttpClient (host : string) (port : Z)
| PersistentClient (path : string).

Record Collection : Type := mkCollection {
  collection_client : ChromaClient;
  collection_name : string;
  collection_metadata : list (string * string)
}.

(** [networkx.DiGraph] *)
Record DiGraph : Type := mkDiGraph {
  nodes : list string;
  edges : list (string * string)
}.

Definition DiGraph_new : DiGraph := mkDiGraph [] [].

(** What the process finds outside itself.  Every field but [environ] is
    the answer to one kind of external call; [subprocess_run] also depends
    on the time (in seconds slept) at which the command is run, and
    [openai_AsyncOpenAI] is what building the client of the OpenAI library
    with a given key does. *)
Record Host : Type := mkHost {
  environ : gmap string string;
  subprocess_run : nat -> list string -> result CompletedProcess;
  neo4j_driver : Driver -> result unit;
  neo4j_session : Driver -> result unit;
  neo4j_run_single : Session -> string -> result (option Row);
  neo4j_session_exit : Session -> result unit;
  chroma_connect : ChromaClient -> result unit;
  chroma_heartbeat : ChromaClient -> result unit;
  chroma_get_or_create_collection :
    ChromaClient -> string -> list (string * string) -> result unit;
  openai_AsyncOpenAI : string -> result unit
}.

(** No command and no call to a database is interrupted: each one returns
    or raises an instance of [Exception]. *)
Record uninterrupted (h : Host) : Prop := mkUninterrupted {
  un_subprocess : forall t argv, catchable (subprocess_run h t argv) = true;
  un_driver : forall d, catchable (neo4j_driver h d) = true;
  un_session : forall d, catchable (neo4j_session h d) = true;
  un_run : forall s q, catchable (neo4j_run_single h s q) = true;
  un_exit : forall s, catchable (neo4j_session_exit h s) = true;
  un_connect : forall c, catchable (chroma_connect h c) = true;
  un_heartbeat : forall c, catchable (chroma_heartbeat h c) = true;
  un_collection : forall c n m, catchable (chroma_get_or_create_collection h c n m) = true
}.

(** ** schedule.py *)

Record Schedule : Type := mkSchedule {
  logger : string;
  neo4j_db : option Driver;
  chroma_client : option ChromaClient;
  graph : DiGraph;
  activities_embeddings : option Collection;
  relationships_embeddings : option Collection
}.

Section WithHost.

Context (host : Host).

(** [os.getenv(key)] and [os.getenv(key, default)] *)
Definition getenv (key : string) : option string := environ host !! key.

Definition getenv_default (key dflt : string) : string :=
  default dflt (environ host !! key).

(** [subprocess.run(argv, capture_output=True, text=True)]; the working
    directory that two of the calls pass is part of the host's answer. *)
Definition run (argv : list string) : M CompletedProcess :=
  fun p => external "subprocess.run" argv (subprocess_run host (clock p) argv) p.

(** *** Neo4j *)

(** [GraphDatabase.driver(uri, auth=(username, password))] *)
Definition GraphDatabase_driver (u : string) (a : string * string) : M Driver :=
  let d := mkDriver u a in
  external "GraphDatabase.driver" [u; a.1; a.2] (neo4j_driver host d);;
  mret d.

(** [session.run(query).single()] *)
Definition run_single (s : Session) (query : string) : M (option Row) :=
  external "session.run.single" [query] (neo4j_run_single host s query).

(** [with driver.session() as session: body session]: the session is
    closed however the body ends, and an exception raised while closing
    replaces the body's. *)
Definition with_session {A} (d : Driver) (body : Session -> M A) : M A :=
  external "driver.session" [uri d] (neo4j_session host d);;
  let s := mkSession d in
  leaving (body s)
    (external "session.__exit__" [uri d] (neo4j_session_exit host s)).

(** [row[key]] where [row] may be [None] *)
Definition getitem (row : option Row) (key : string) : M Z :=
  match row with
  | None => raise (Exc "TypeError" "'NoneType' object is not subscriptable")
  | Some r =>
      match r !! key with
      | Some v => mret v
      | None => raise (Exc "KeyError" (Py.repr key))
      end
  end.

(** [Schedule._initialize_neo4j].  The body of the [try] gives [Some
    driver] when it returns the driver and [None] when it falls through
    to the final [return None]. *)
Definition _initialize_neo4j (logger : string) : M (option Driver) :=
  try_except
    (let uri := getenv_default "NEO4J_URI" "bolt://localhost:7687" in
     let username := getenv_default "NEO4J_USERNAME" "neo4j" in
     let password := getenv_default "NEO4J_PASSWORD" "password" in
     log INFO logger ("Attempting to connect to Neo4j at " +:+ uri);;
     driver ← GraphDatabase_driver uri (username, password);
     with_session driver (fun session =>
       row ← run_single session "RETURN 1 as test";
       test_value ← getitem row "test";
       if (test_value =? 1)%Z
       then log INFO logger "Neo4j connection established successfully";;
            mret (Some driver)
       else mret None))
    (fun e =>
       log WARNING logger ("Failed to connect to Neo4j: " +:+ str_exn e);;
       log INFO logger
         "Continuing without Neo4j connection - will use in-memory graph only";;
       mret None).

(** *** ChromaDB *)

(** [int(text)], raising [ValueError] *)
Definition int (text : string) : M Z :=
  match Py.int text with
  | Some z => mret z
  | None => raise (Exc "ValueError" (Py.int_error text))
  end.

(** [chromadb.HttpClient(host=..., port=...)] *)
Definition chromadb_HttpClient (h : string) (port : Z) : M ChromaClient :=
  let c := HttpClient h port in
  external "chromadb.HttpClient" [h; Py.str_Z port] (chroma_connect host c);;
  mret c.

(** [chromadb.PersistentClient(path=...)] *)
Definition chromadb_PersistentClient (path : string) : M ChromaClient :=
  let c := PersistentClient path in
  external "chromadb.PersistentClient" [path] (chroma_connect host c);;
  mret c.

(** [client.heartbeat()] *)
Definition heartbeat (c : ChromaClient) : M unit :=
  external "client.heartbeat" [] (chroma_heartbeat host c).

(** [Schedule._initialize_chromadb].  The inner [try] gives [Some client]
    when it returns the server client and [None] when its handler ran.
    (The import of [chromadb.config] at the head of the inner [try] names a
    module of the package that the file has already imported.) *)
Definition _initialize_chromadb (logger : string) : M (option ChromaClient) :=
  try_except
    (let chroma_host := getenv_default "CHROMADB_HOST" "localhost" in
     chroma_port ← int (getenv_default "CHROMADB_PORT" "8000");
     served ← try_except
       (log INFO logger
          ("Attempting to connect to ChromaDB server at " +:+ chroma_host
             +:+ ":" +:+ Py.str_Z chroma_port);;
        client ← chromadb_HttpClient chroma_host chroma_port;
        heartbeat client;;
        log INFO logger "ChromaDB server connection established successfully";;
        mret (Some client))
       (fun server_error =>
          log INFO logger
            ("ChromaDB server not available: " +:+ str_exn server_error);;
          mret None);
     match served with
     | Some client => mret (Some client)
     | None =>
         log INFO logger "Falling back to ChromaDB persistent client";;
         let data_path := getenv_default "CHROMADB_DATA_PATH" "./chroma_data" in
         client ← chromadb_PersistentClient data_path;
         log INFO logger
           ("ChromaDB persistent client initialized at " +:+ data_path);;
         mret (Some client)
     end)
    (fun e =>
       log WARNING logger ("Failed to initialize ChromaDB: " +:+ str_exn e);;
       log INFO logger
         "Continuing without vector database - semantic search will be unavailable";;
       mret None).

(** [Schedule._get_or_create_collection], given the two attributes of
    [self] it reads. *)
Definition _get_or_create_collection
    (logger : string) (chroma_client : option ChromaClient)
    (collection_name : string) : M (option Collection) :=
  match chroma_client with
  | None =>
      log DEBUG logger
        ("ChromaDB not available, skipping collection creation for "
           +:+ collection_name);;
      mret None
  | Some client =>
      try_except
        (let name := "autoscheduler_" +:+ collection_name in
         let metadata :=
           [("description", "Autoscheduler " +:+ collection_name +:+ " embeddings")] in
         external "client.get_or_create_collection" [name]
           (chroma_get_or_create_collection host client name metadata);;
         log INFO logger ("ChromaDB collection '" +:+ collection_name +:+ "' ready");;
         mret (Some (mkCollection client name metadata)))
        (fun e =>
           log ERROR logger
             ("Failed to create ChromaDB collection '" +:+ collection_name
                +:+ "': " +:+ str_exn e);;
           mret None)
  end.

(** [Schedule.__init__] *)
Definition Schedule_init : M Schedule :=
  logger ← setup_logger "autoscheduler.core.schedule";
  log INFO logger "Starting Schedule initialization...";;
  neo4j_db ← _initialize_neo4j logger;
  chroma_client ← _initialize_chromadb logger;
  let graph := DiGraph_new in
  log INFO logger "NetworkX DiGraph initialized for critical path calculations";;
  activities_embeddings ← _get_or_create_collection logger chroma_client "activities";
  relationships_embeddings ←
    _get_or_create_collection logger chroma_client "relationships";
  log INFO logger "Schedule initialization completed successfully";;
  mret (mkSchedule logger neo4j_db chroma_client graph
          activities_embeddings relationships_embeddings).

(** The property [Schedule.is_neo4j_connected] *)
Definition is_neo4j_connected (self : Schedule) : M bool :=
  match neo4j_db self with
  | None => mret false
  | Some driver =>
      try_except
        (with_session driver (fun session =>
           run_single session "RETURN 1";;
           mret tt);;
         mret true)
        (fun _ => mret false)
  end.

(** The property [Schedule.is_chromadb_connected] *)
Definition is_chromadb_connected (self : Schedule) : M bool :=
  match chroma_client self with
  | None => mret false
  | Some client =>
      try_except
        (heartbeat client;;
         mret true)
        (fun _ => mret false)
  end.

End WithHost.

(** *** The placeholder methods of [Schedule]

    The docstrings describe these as operations on the receiver and on the
    two databases, so each one is given [self] and gives it back next to
    its return value: [self] after the call is part of the result. *)

Definition add_activity (activity : Py.value) (self : Schedule) : M (bool * Schedule) :=
  print ("Adding activity to schedule: " +:+ Py.str activity);;
  mret (false, self).

Definition remove_activity (activity_id : Py.value) (self : Schedule) : M (bool * Schedule) :=
  print ("Removing activity from schedule: " +:+ Py.str activity_id);;
  mret (false, self).

Definition add_relationship (relationship : Py.value) (self : Schedule) : M (bool * Schedule) :=
  print ("Adding relationship to schedule: " +:+ Py.str relationship);;
  mret (false, self).

Definition remove_relationship (relationship_id : Py.value) (self : Schedule)
  : M (bool * Schedule) :=
  print ("Removing relationship from schedule: " +:+ Py.str relationship_id);;
  mret (false, self).

Definition update_graph (self : Schedule) : M (bool * Schedule) :=
  print "Updating NetworkX graph from Neo4j database...";;
  mret (false, self).

Definition compute_critical_path (self : Schedule) : M (list Py.value * Schedule) :=
  print "Computing critical path...";;
  mret ([], self).

Definition get_activities (self : Schedule) : M (list Py.value * Schedule) :=
  mret ([], self).

Definition get_relationships (self : Schedule) : M (list Py.value * Schedule) :=
  mret ([], self).

Definition semantic_search_activities (query : Py.value) (self : Schedule)
  : M (list Py.value * Schedule) :=
  print ("Searching activities for: " +:+ Py.str query);;
  mret ([], self).

Definition semantic_search_relationships (query : Py.value) (self : Schedule)
  : M (list Py.value * Schedule) :=
  print ("Searching relationships for: " +:+ Py.str query);;
  mret ([], self).

(** ** scope_manager.py *)

Record ScopeManager : Type := mkScopeManager {
  sm_logger : string;
  sm_schedule : Schedule
}.

Section ScopeManagerInit.

Context (host : Host).

(** [ScopeManager.__init__].  [hasattr(schedule, name)] evaluates the
    property once, and the right operand of [and] evaluates it again. *)
Definition ScopeManager_init (schedule : Schedule) : M ScopeManager :=
  logger ← setup_logger "autoscheduler.core.scope_manager";
  log INFO logger "Initializing ScopeManager...";;
  log INFO logger "ScopeManager linked to Schedule instance successfully";;
  is_neo4j_connected host schedule;;
  neo4j ← is_neo4j_connected host schedule;
  (if neo4j : bool
   then log INFO logger "Neo4j database available for scope operations"
   else log WARNING logger
          "Neo4j database not available - operations will use in-memory graph only");;
  is_chromadb_connected host schedule;;
  chroma ← is_chromadb_connected host schedule;
  (if chroma : bool
   then log INFO logger "ChromaDB vector database available for semantic search"
   else log WARNING logger
          "ChromaDB not available - semantic search operations will be limited");;
  log INFO logger "ScopeManager initialization completed";;
  mret (mkScopeManager logger schedule).

End ScopeManagerInit.

Definition _dispatch (self : ScopeManager) : M bool :=
  log DEBUG (sm_logger self) "_dispatch called - entering natural language prompt mode";;
  print "Natural language prompt interface not implemented yet.";;
  print "This will allow users to enter commands like:";;
  print "- 'Add activities for excavation on floor 1'";;
  print "- 'Delete all activities on the second floor'";;
  mret false.

Definition _separate_prompt (self : ScopeManager) (prompt : Py.value) : M (string * string) :=
  mret ("", "").

Definition _read_scope (self : ScopeManager) (prompt : Py.value) (toolkit : list Py.value)
  : M string :=
  mret "".

Definition _remove_scope (self : ScopeManager) (removal_prompt : Py.value) : M bool :=
  mret false.

Definition _add_scope (self : ScopeManager) (additions_prompt : Py.value) : M bool :=
  mret false.

Definition _add_activity (self : ScopeManager) (prompt activity : Py.value) : M bool :=
  log DEBUG (sm_logger self)
    ("_add_activity called with prompt='" +:+ Py.str prompt +:+ "', activity='"
       +:+ Py.str activity +:+ "'");;
  print "Add activity functionality not implemented yet.";;
  print "This will allow adding activities with name, description, and duration.";;
  mret false.

Definition _add_relationship (self : ScopeManager) (prompt relationship : Py.value) : M bool :=
  print "Add relationship functionality not implemented yet.";;
  print "This will allow adding FS, SS, FF, SF relationships between activities.";;
  mret false.

Definition _delete_activity (self : ScopeManager) (prompt activity_id : Py.value) : M bool :=
  print "Delete activity functionality not implemented yet.";;
  print "This will allow removing activities by ID or description.";;
  mret false.

Definition _dissolve_activity (self : ScopeManager) (prompt activity_id : Py.value) : M bool :=
  print "Dissolve activity functionality not implemented yet.";;
  print "This will remove an activity while preserving its relationships.";;
  mret false.

Definition _delete_relationship (self : ScopeManager) (prompt relationship : Py.value)
  : M bool :=
  print "Delete relationship functionality not implemented yet.";;
  print "This will allow removing relationships by ID or description.";;
  mret false.

(** Calling a method without the positional argument it requires, or
    without the two it requires. *)
Definition missing_argument {A} (method argument : string) : M A :=
  raise (Exc "TypeError"
           ("ScopeManager." +:+ method +:+ "() missing 1 required positional argument: '"
              +:+ argument +:+ "'")).

Definition missing_arguments {A} (method first second : string) : M A :=
  raise (Exc "TypeError"
           ("ScopeManager." +:+ method +:+ "() missing 2 required positional arguments: '"
              +:+ first +:+ "' and '" +:+ second +:+ "'")).

(** The methods that class [ScopeManager] defines, each as a call with no
    argument: optional parameters take their default [None]. *)
Definition ScopeManager_methods : list (string * (ScopeManager -> M bool)) :=
  [ ("_dispatch", _dispatch);
    ("_separate_prompt", fun _ => missing_argument "_separate_prompt" "prompt");
    ("_read_scope", fun _ => missing_arguments "_read_scope" "prompt" "toolkit");
    ("_remove_scope", fun _ => missing_argument "_remove_scope" "removal_prompt");
    ("_add_scope", fun _ => missing_argument "_add_scope" "additions_prompt");
    ("_add_activity", fun self => _add_activity self Py.NoneV Py.NoneV);
    ("_add_relationship", fun self => _add_relationship self Py.NoneV Py.NoneV);
    ("_delete_activity", fun self => _delete_activity self Py.NoneV Py.NoneV);
    ("_dissolve_activity", fun self => _dissolve_activity self Py.NoneV Py.NoneV);
    ("_delete_relationship", fun self => _delete_relationship self Py.NoneV Py.NoneV) ].

Fixpoint assoc {A} (key : string) (table : list (string * A)) : option A :=
  match table with
  | [] => None
  | (k, v) :: rest => if String.eqb key k then Some v else assoc key rest
  end.

(** [self.scope_manager.<name>()]: attribute lookup, then the call. *)
Definition call_method (self : ScopeManager) (name : string) : M bool :=
  match assoc name ScopeManager_methods with
  | Some method => method self
  | None =>
      raise (Exc "AttributeError"
               ("'ScopeManager' object has no attribute '" +:+ name +:+ "'"))
  end.

(** ** cli/__init__.py *)

Record CLI : Type := mkCLI {
  schedule : Schedule;
  scope_manager : ScopeManager
}.

Definition _display_menu : M unit :=
  print (Py.nl +:+ Py.mul "=" 50);;
  print "AUTOSCHEDULER2 - MAIN MENU";;
  print (Py.mul "=" 50);;
  print "1. Add Activity";;
  print "2. Delete Activity";;
  print "3. Add Relationship";;
  print "4. Delete Relationship";;
  print "5. Dissolve Relationship";;
  print "6. Open Prompt (Natural Language)";;
  print "7. Run Schedule";;
  print "8. Quit";;
  print (Py.mul "=" 50).

Definition _show_result (success : bool) (operation : string) : M unit :=
  if success
  then print (Py.nl +:+ "✓ " +:+ operation +:+ " completed successfully!")
  else print (Py.nl +:+ "✗ " +:+ operation +:+ " failed or was cancelled.").

(** What a branch of the [if]/[elif] chain of [CLI.run] does:
    - [Invoke header method operation]: print the header, call the method
      of the scope manager, pass its result to [_show_result];
    - [Say lines]: print the lines and nothing else;
    - [Leave line]: print the line and [break]. *)
Inductive branch : Type :=
| Invoke (header method operation : string)
| Say (lines : list string)
| Leave (line : string).

(** The chain of comparisons on [choice]. *)
Definition branch_of (choice : string) : branch :=
  if String.eqb choice "1" then
    Invoke (Py.nl +:+ "--- Add Activity ---") "_add_activity" "Activity operation"
  else if String.eqb choice "2" then
    Invoke (Py.nl +:+ "--- Delete Activity ---") "_delete_activity"
      "Delete activity operation"
  else if String.eqb choice "3" then
    Invoke (Py.nl +:+ "--- Add Relationship ---") "_add_relationship"
      "Add relationship operation"
  else if String.eqb choice "4" then
    Invoke (Py.nl +:+ "--- Delete Relationship ---") "_delete_relationship"
      "Delete relationship operation"
  else if String.eqb choice "5" then
    Invoke (Py.nl +:+ "--- Dissolve Relationship ---") "_dissolve_relationship"
      "Dissolve relationship operation"
  else if String.eqb choice "6" then
    Invoke (Py.nl +:+ "--- Open Prompt ---") "_dispatch"
      "Natural language prompt operation"
  else if String.eqb choice "7" then
    Say [Py.nl +:+ "--- Run Schedule ---"; "Schedule execution not implemented yet."]
  else if String.eqb choice "8" then
    Leave (Py.nl +:+ "Goodbye!")
  else
    Say [Py.nl +:+ "Invalid choice. Please enter a number between 1 and 8."].

(** Running a branch; the result tells whether the loop is left. *)
Definition run_branch (self : CLI) (b : branch) : M bool :=
  match b with
  | Invoke header method operation =>
      print header;;
      success ← call_method (scope_manager self) method;
      _show_result success operation;;
      mret false
  | Say lines =>
      mapM print lines;;
      mret false
  | Leave line =>
      print line;;
      mret true
  end.

(** What the terminal has for one call of [input()]: the bytes of a line
    (without its end), or an exception raised while the call waits, as
    [KeyboardInterrupt] is when the user presses Ctrl-C. *)
Inductive keyboard : Type :=
| Line (bytes : string)
| Interrupted (e : exn).

(** What [input()] answers: the line decoded, [UnicodeDecodeError] when its
    bytes are not text, the exception that interrupted the call, and
    [EOFError] at the end of the input. *)
Definition read (next : option keyboard) : result string :=
  match next with
  | Some (Line bytes) =>
      match Py.decode_error bytes with
      | None => Ok bytes
      | Some msg => Raise (Exc "UnicodeDecodeError" msg)
      end
  | Some (Interrupted e) => Raise e
  | None => Raise (Exc "EOFError" "EOF when reading a line")
  end.

(** [input(prompt)] when the terminal has [next]. *)
Definition input (prompt : string) (next : option keyboard) : M string :=
  fun p => (read next, emit (Prompt prompt) p).

(** The [while True] loop of [CLI.run] over what the terminal has, call
    after call.  Each round reads the choice and, unless the loop is left,
    one more line for "Press Enter to continue". *)
Fixpoint run_loop (self : CLI) (stdin : list keyboard) : M unit :=
  _display_menu;;
  match stdin with
  | [] =>
      input (Py.nl +:+ "Enter your choice (1-8): ") None;;
      mret tt
  | line :: rest =>
      answer ← input (Py.nl +:+ "Enter your choice (1-8): ") (Some line);
      let choice := Py.strip answer in
      left ← run_branch self (branch_of choice);
      if left : bool then mret tt
      else
        match rest with
        | [] =>
            input (Py.nl +:+ "Press Enter to continue...") None;;
            mret tt
        | enter :: rest' =>
            input (Py.nl +:+ "Press Enter to continue...") (Some enter);;
            run_loop self rest'
        end
  end.

(** [CLI.run] *)
Definition CLI_run (self : CLI) (stdin : list keyboard) : M unit :=
  print "Welcome to Autoscheduler2";;
  print "LLM-driven project management scheduling tool";;
  print (Py.mul "-" 50);;
  run_loop self stdin.

(** ** llm_client.py *)

(** The client that [openai.AsyncOpenAI(api_key=...)] builds: the object
    keeps the key it was given. *)
Record AsyncOpenAI : Type := mkAsyncOpenAI {
  client_api_key : string
}.

Record LLMClient : Type := mkLLMClient {
  llm_logger : string;
  api_key : option string;
  default_model : string;
  client : AsyncOpenAI
}.

Section Programs.

Context (host : Host).

(** [AsyncOpenAI(api_key=key)]: the library sets up its HTTP client from
    the key and from what it finds on the host (base URL, proxies), and
    raises when it cannot. *)
Definition AsyncOpenAI_new (key : string) : M AsyncOpenAI :=
  external "AsyncOpenAI" [] (openai_AsyncOpenAI host key);;
  mret (mkAsyncOpenAI key).

(** [LLMClient.__init__] *)
Definition LLMClient_init : M LLMClient :=
  logger ← setup_logger "autoscheduler.llm.client";
  let api_key := getenv host "OPENAI_API_KEY" in
  if negb (Py.truthy_opt api_key)
  then raise (Exc "ValueError" "OPENAI_API_KEY not found in environment variables")
  else
    let default_model := getenv_default host "OPENAI_MODEL" "gpt-4o-mini" in
    (* here [api_key] holds a string that is not empty *)
    client ← AsyncOpenAI_new (default "" api_key);
    log INFO logger ("LLMClient initialized with model: " +:+ default_model);;
    mret (mkLLMClient logger api_key default_model client).

(** [CLI.__init__] *)
Definition CLI_init : M CLI :=
  schedule ← Schedule_init host;
  scope_manager ← ScopeManager_init host schedule;
  mret (mkCLI schedule scope_manager).

(** [main] of cli/__init__.py *)
Definition cli_main (stdin : list keyboard) : M unit :=
  cli ← CLI_init;
  CLI_run cli stdin.

(** *** main.py *)

Definition inspect_health : list string :=
  ["docker"; "inspect"; "--format"; "{{.State.Health.Status}}"; "autoscheduler-neo4j"].

(** The [while elapsed < max_wait] loop of [check_docker_containers].
    [Some true] is the [return True] inside the loop, [None] the end of
    the loop.  Each round adds 5 to [elapsed], so [max_wait - elapsed]
    rounds of [gas] are never used up. *)
Fixpoint wait_for_health (gas : nat) (max_wait elapsed : nat) : M (option bool) :=
  if negb (elapsed <? max_wait)%nat then mret None
  else
    match gas with
    | 0 => mret None
    | S gas' =>
        sleep 5;;
        let elapsed := elapsed + 5 in
        health_check ← run host inspect_health;
        if (returncode health_check =? 0)%Z
           && String.eqb (Py.strip (cp_stdout health_check)) "healthy"
        then
          print "Services are ready!";;
          mret (Some true)
        else
          print ("Still waiting for services... (" +:+ Py.str_nat elapsed +:+ "s/"
                   +:+ Py.str_nat max_wait +:+ "s)");;
          wait_for_health gas' max_wait elapsed
    end.

(** The services of [required_services] that [docker-compose ps] does not
    list as running. *)
Definition services_to_start (ps_stdout : string) : list string :=
  let running_services :=
    if Py.truthy (Py.strip ps_stdout)
    then Py.split (Ascii.ascii_of_nat 10) (Py.strip ps_stdout)
    else [] in
  let required_services := ["neo4j"; "chromadb"] in
  List.filter (fun s => negb (Py.contains running_services s)) required_services.

(** The body of the [try] of [check_docker_containers]. *)
Definition docker_steps : M bool :=
  result ← run host ["docker-compose"; "--version"];
  if negb (returncode result =? 0)%Z
  then
    print "Warning: docker-compose not found. Continuing without Docker services.";;
    mret false
  else
    print "Checking Docker containers...";;
    result ← run host ["docker-compose"; "ps"; "--services"; "--filter"; "status=running"];
    let to_start := services_to_start (cp_stdout result) in
    match to_start with
    | _ :: _ =>
        print ("Starting Docker services: " +:+ Py.join ", " to_start);;
        result ← run host (["docker-compose"; "up"; "-d"] ++ to_start);
        if negb (returncode result =? 0)%Z
        then
          print ("Warning: Failed to start Docker containers: " +:+ cp_stderr result);;
          mret false
        else
          print "Waiting for services to be ready...";;
          sleep 10;;
          let max_wait := 60 in
          let elapsed := 10 in
          returned ← wait_for_health (max_wait - elapsed) max_wait elapsed;
          match returned with
          | Some b => mret b
          | None =>
              print "Warning: Services may not be fully ready, but continuing anyway.";;
              mret true
          end
    | [] =>
        print "All required Docker services are already running.";;
        mret true
    end.

(** [check_docker_containers] *)
Definition check_docker_containers : M bool :=
  try_except docker_steps
    (fun e =>
       print ("Warning: Error checking Docker containers: " +:+ str_exn e);;
       print "Continuing without Docker services.";;
       mret false).

(** [sys.exit(code)] *)
Definition sys_exit {A} (code : Z) : M A := raise (SystemExit code).

Definition is_KeyboardInterrupt (e : exn) : bool :=
  match e with KeyboardInterrupt => true | _ => false end.

(** [main] of main.py: the first matching [except] clause handles. *)
Definition main (stdin : list keyboard) : M unit :=
  try_catching (fun e => is_KeyboardInterrupt e || isinstance_Exception e)
    (check_docker_containers;;
     cli_main stdin)
    (fun e =>
       if is_KeyboardInterrupt e
       then
         print (Py.nl +:+ "Program interrupted by user. Goodbye!");;
         sys_exit 0
       else
         print ("An unexpected error occurred: " +:+ str_exn e);;
         sys_exit 1).

End Programs.

(** ** Hosts to run the programs on *)

Definition unreachable {A} (what : string) : result A :=
  Raise (Exc "ConnectionError" what).

(** No environment variable is set, no command is installed and no
    database answers. *)
Definition bare_host : Host :=
  {| environ := ∅;
     subprocess_run := fun _ argv =>
       Raise (Exc "FileNotFoundError"
                ("[Errno 2] No such file or directory: '" +:+ default "" (head argv) +:+ "'"));
     neo4j_driver := fun _ => unreachable "neo4j";
     neo4j_session := fun _ => unreachable "neo4j";
     neo4j_run_single := fun _ _ => unreachable "neo4j";
     neo4j_session_exit := fun _ => Ok tt;
     chroma_connect := fun _ => unreachable "chromadb";
     chroma_heartbeat := fun _ => unreachable "chromadb";
     chroma_get_or_create_collection := fun _ _ _ => unreachable "chromadb";
     openai_AsyncOpenAI := fun _ => Ok tt |}.

(** Every service is up: commands succeed, both services are listed as
    running, the databases answer. *)
Definition healthy_host : Host :=
  {| environ := ∅;
     subprocess_run := fun _ argv =>
       Ok (mkCompleted 0
             (if String.eqb (default "" (head argv)) "docker"
              then "healthy" +:+ Py.nl
              else "neo4j" +:+ Py.nl +:+ "chromadb" +:+ Py.nl)
             "");
     neo4j_driver := fun _ => Ok tt;
     neo4j_session := fun _ => Ok tt;
     neo4j_run_single := fun _ _ => Ok (Some {["test" := 1%Z]});
     neo4j_session_exit := fun _ => Ok tt;
     chroma_connect := fun _ => Ok tt;
     chroma_heartbeat := fun _ => Ok tt;
     chroma_get_or_create_collection := fun _ _ _ => Ok tt;
     openai_AsyncOpenAI := fun _ => Ok tt |}.

Definition with_environ (env : gmap string string) (h : Host) : Host :=
  {| environ := env;
     subprocess_run := subprocess_run h;
     neo4j_driver := neo4j_driver h;
     neo4j_session := neo4j_session h;
     neo4j_run_single := neo4j_run_single h;
     neo4j_session_exit := neo4j_session_exit h;
     chroma_connect := chroma_connect h;
     chroma_heartbeat := chroma_heartbeat h;
     chroma_get_or_create_collection := chroma_get_or_create_collection h;
     openai_AsyncOpenAI := openai_AsyncOpenAI h |}.

Definition with_subprocess
    (answer : nat -> list string -> result CompletedProcess) (h : Host) : Host :=
  {| environ := environ h;
     subprocess_run := answer;
     neo4j_driver := neo4j_driver h;
     neo4j_session := neo4j_session h;
     neo4j_run_single := neo4j_run_single h;
     neo4j_session_exit := neo4j_session_exit h;
     chroma_connect := chroma_connect h;
     chroma_heartbeat := chroma_heartbeat h;
     chroma_get_or_create_collection := chroma_get_or_create_collection h;
     openai_AsyncOpenAI := openai_AsyncOpenAI h |}.

(** A key is set, and the OpenAI library cannot set up its HTTP client:
    [ALL_PROXY] names a proxy whose scheme it does not know. *)
Definition bad_proxy_host : Host :=
  {| environ := <["ALL_PROXY" := "ftp://x"]> {["OPENAI_API_KEY" := "sk-test"]};
     subprocess_run := subprocess_run bare_host;
     neo4j_driver := neo4j_driver bare_host;
     neo4j_session := neo4j_session bare_host;
     neo4j_run_single := neo4j_run_single bare_host;
     neo4j_session_exit := neo4j_session_exit bare_host;
     chroma_connect := chroma_connect bare_host;
     chroma_heartbeat := chroma_heartbeat bare_host;
     chroma_get_or_create_collection := chroma_get_or_create_collection bare_host;
     openai_AsyncOpenAI := fun _ =>
       Raise (Exc "ValueError" "Unknown scheme for proxy URL URL('ftp://x')") |}.

(** ** Notions that the statements below use *)

(** The error of [LLMClient()] for a missing key. *)
Definition no_key_error : exn :=
  Exc "ValueError" "OPENAI_API_KEY not found in environment variables".

(** What [LLMClient()] gives with the key [k]: the client of the library
    when that can be built, with the model of [OPENAI_MODEL] or
    ['gpt-4o-mini']; else the exception of the library. *)
Definition client_with_key (h : Host) (k : string) : result LLMClient :=
  match openai_AsyncOpenAI h k with
  | Ok _ =>
      Ok (mkLLMClient "autoscheduler.llm.client" (Some k)
            (default "gpt-4o-mini" (environ h !! "OPENAI_MODEL")) (mkAsyncOpenAI k))
  | Raise e => Raise e
  end.


(** [m] returns [a] after printing at least one line, whatever the state of
    the process it starts in. *)
Definition prints_and_returns {A} (m : M A) (a : A) : Prop :=
  forall p, exists p' line lines,
    m p = (Ok a, p') /\ stdout p' = (stdout p ++ line :: lines)%list.

(** [m] returns [a] without any external call: no query reaches a
    database, no command is run. *)
Definition returns_without_calls {A} (m : M A) (a : A) : Prop :=
  forall p, exists p', m p = (Ok a, p') /\ calls p' = calls p.

(** The fields of the receiver that a method of [Schedule] could write. *)
Definition same_fields (s s' : Schedule) : Prop :=
  neo4j_db s' = neo4j_db s
  /\ chroma_client s' = chroma_client s
  /\ graph s' = graph s
  /\ activities_embeddings s' = activities_embeddings s
  /\ relationships_embeddings s' = relationships_embeddings s.

(** A method that ends with the receiver's fields as they were and with no
    external call made. *)
Definition preserves_schedule {A} (method : Schedule -> M (A * Schedule)) : Prop :=
  forall self p, exists a self' p',
    method self p = (Ok (a, self'), p')
    /\ same_fields self self'
    /\ calls p' = calls p.

(** [sub in s] for strings. *)
Fixpoint in_str (sub s : string) : bool :=
  String.prefix sub s
  || match s with
     | "" => false
     | String _ s' => in_str sub s'
     end.

(** The numbers that [_display_menu] offers. *)
Definition menu_options : list string := ["1"; "2"; "3"; "4"; "5"; "6"; "7"; "8"].

(** The branch of a choice calls a method of the scope manager. *)
Definition invokes_method (choice : string) : bool :=
  match branch_of choice with
  | Invoke _ _ _ => true
  | Say _ | Leave _ => false
  end.

(** The branch of a choice calls a method that [ScopeManager] defines. *)
Definition calls_stub (choice : string) : bool :=
  match branch_of choice with
  | Invoke _ method _ =>
      match assoc method ScopeManager_methods with
      | Some _ => true
      | None => false
      end
  | Say _ | Leave _ => false
  end.

(** A placeholder: it returns [False] after printing a first line that
    says "not implemented yet". *)
Definition not_implemented_stub (stub : M bool) : Prop :=
  forall p, exists p' line lines,
    stub p = (Ok false, p')
    /\ stdout p' = (stdout p ++ line :: lines)%list
    /\ in_str "not implemented yet" line = true.

(** The driver that the environment configures. *)
Definition configured_driver (h : Host) : Driver :=
  mkDriver (getenv_default h "NEO4J_URI" "bolt://localhost:7687")
    (getenv_default h "NEO4J_USERNAME" "neo4j",
     getenv_default h "NEO4J_PASSWORD" "password").

(** Every step of the connection test returns. *)
Definition neo4j_answers (h : Host) : bool :=
  let d := configured_driver h in
  is_Ok (neo4j_driver h d)
  && is_Ok (neo4j_session h d)
  && is_Ok (neo4j_run_single h (mkSession d) "RETURN 1 as test")
  && is_Ok (neo4j_session_exit h (mkSession d)).

(** The port, the server client and the local client that the environment
    configures. *)
Definition configured_port (h : Host) : option Z :=
  Py.int (getenv_default h "CHROMADB_PORT" "8000").

Definition server_client (h : Host) (port : Z) : ChromaClient :=
  HttpClient (getenv_default h "CHROMADB_HOST" "localhost") port.

Definition local_client (h : Host) : ChromaClient :=
  PersistentClient (getenv_default h "CHROMADB_DATA_PATH" "./chroma_data").

(** The attempt on the server succeeds: the client is built and its
    heartbeat returns.  The local attempt succeeds: the client is built. *)
Definition server_answers (h : Host) (port : Z) : bool :=
  is_Ok (chroma_connect h (server_client h port))
  && is_Ok (chroma_heartbeat h (server_client h port)).

Definition local_answers (h : Host) : bool :=
  is_Ok (chroma_connect h (local_client h)).

(** What [_initialize_chromadb] returns, attempt by attempt. *)
Definition chroma_choice (h : Host) : option ChromaClient :=
  match configured_port h with
  | None => None
  | Some port =>
      if server_answers h port then Some (server_client h port)
      else if local_answers h then Some (local_client h)
      else None
  end.

(** A service that is up, except that [CHROMADB_PORT] is not a number. *)
Definition bad_port_host : Host :=
  with_environ {["CHROMADB_PORT" := "abc"]} healthy_host.

(** Without a ChromaDB client there is no collection. *)
Definition embeddings_need_client (s : Schedule) : Prop :=
  chroma_client s = None ->
  activities_embeddings s = None /\ relationships_embeddings s = None.

(** The connection check of [is_neo4j_connected] goes through on driver
    [d]: the session opens, the query returns, the session closes. *)
Definition session_works (h : Host) (d : Driver) : bool :=
  is_Ok (neo4j_session h d)
  && is_Ok (neo4j_run_single h (mkSession d) "RETURN 1")
  && is_Ok (neo4j_session_exit h (mkSession d)).

(** The answer of [docker inspect] says 'healthy'. *)
Definition reports_healthy (r : result CompletedProcess) : bool :=
  match r with
  | Ok cp => (returncode cp =? 0)%Z && String.eqb (Py.strip (cp_stdout cp)) "healthy"
  | Raise _ => false
  end.

(** [docker inspect] returned, and not with 'healthy'. *)
Definition still_waiting (r : result CompletedProcess) : bool :=
  is_Ok r && negb (reports_healthy r).

(** The health check made at time [t]. *)
Definition poll (h : Host) (t : nat) : result CompletedProcess :=
  subprocess_run h t inspect_health.

(** The seconds of each [time.sleep], in order. *)
Definition sleeps (p : Proc) : list nat :=
  omap (fun e => match e with Sleep n => Some n | _ => None end) (events p).

(** One health check, as [calls] lists it. *)
Definition inspect_call : string * list string := ("subprocess.run", inspect_health).

(** One round of the loop that does not see 'healthy'. *)
Definition waited (max_wait elapsed : nat) (p : Proc) : Proc :=
  emit (Print ("Still waiting for services... (" +:+ Py.str_nat (elapsed + 5) +:+ "s/"
                 +:+ Py.str_nat max_wait +:+ "s)"))
    (emit (Call "subprocess.run" inspect_health)
       (mkProc (clock p + 5) (events p ++ [Sleep 5]) (loggers p))).

(** The three [docker-compose] command lines. *)
Definition compose_version : list string := ["docker-compose"; "--version"].

Definition compose_ps : list string :=
  ["docker-compose"; "ps"; "--services"; "--filter"; "status=running"].

Definition compose_up (missing : list string) : list string :=
  (["docker-compose"; "up"; "-d"] ++ missing)%list.

(** The command returned with exit status 0. *)
Definition exits_0 (r : result CompletedProcess) : bool :=
  match r with
  | Ok cp => (returncode cp =? 0)%Z
  | Raise _ => false
  end.

(** The process once the missing services were started and the first ten
    seconds have passed. *)
Definition started (p : Proc) (missing : list string) : Proc :=
  let p1 := emit (Print "Checking Docker containers...")
              (emit (Call "subprocess.run" compose_version) p) in
  let p2 := emit (Print ("Starting Docker services: " +:+ Py.join ", " missing))
              (emit (Call "subprocess.run" compose_ps) p1) in
  let p3 := emit (Print "Waiting for services to be ready...")
              (emit (Call "subprocess.run" (compose_up missing)) p2) in
  mkProc (clock p3 + 10) (events p3 ++ [Sleep 10]) (loggers p3).

(** Docker Compose works, the services are not running yet, and Neo4j
    turns healthy thirty seconds after the start. *)
Definition slow_host : Host :=
  with_subprocess
    (fun t argv =>
       Ok (mkCompleted 0
             (if String.eqb (default "" (head argv)) "docker"
              then (if (t <? 30)%nat then "starting" else "healthy") +:+ Py.nl
              else "")
             ""))
    bare_host.

(** Docker Compose works, but there is no [docker] command to inspect the
    container with. *)
Definition no_docker_cli_host : Host :=
  with_subprocess
    (fun t argv =>
       if String.eqb (default "" (head argv)) "docker"
       then Raise (Exc "FileNotFoundError" "[Errno 2] No such file or directory: 'docker'")
       else Ok (mkCompleted 0 "" ""))
    bare_host.

(** The user presses Ctrl-C during the first health check. *)
Definition ctrl_c_host : Host :=
  with_subprocess
    (fun t argv =>
       if String.eqb (default "" (head argv)) "docker"
       then Raise KeyboardInterrupt
       else Ok (mkCompleted 0 "" ""))
    bare_host.

(** ** More notions, and the methods of the LLM client *)

Definition choice_prompt : string := Py.nl +:+ "Enter your choice (1-8): ".
Definition enter_prompt : string := Py.nl +:+ "Press Enter to continue...".

Definition menu_shown (p : Proc) : Proc :=
  emit (Print (Py.mul "=" 50))
    (emit (Print "8. Quit")
       (emit (Print "7. Run Schedule")
          (emit (Print "6. Open Prompt (Natural Language)")
             (emit (Print "5. Dissolve Relationship")
                (emit (Print "4. Delete Relationship")
                   (emit (Print "3. Add Relationship")
                      (emit (Print "2. Delete Activity")
                         (emit (Print "1. Add Activity")
                            (emit (Print (Py.mul "=" 50))
                               (emit (Print "AUTOSCHEDULER2 - MAIN MENU")
                                  (emit (Print (Py.nl +:+ Py.mul "=" 50)) p))))))))))).

Definition EOFError : exn := Exc "EOFError" "EOF when reading a line".
Definition missing_dissolve : exn :=
  Exc "AttributeError" "'ScopeManager' object has no attribute '_dissolve_relationship'".

(** The lines typed in rounds: a choice, then the line for "Press Enter". *)
Definition typed (rounds : list (string * string)) : list keyboard :=
  flat_map (fun round => [Line round.1; Line round.2]) rounds.

(** A line whose bytes are text, so that [input()] returns it. *)
Definition readable (line : string) : Prop := Py.decode_error line = None.

(** A choice after which the loop goes on. *)
Definition goes_on (choice : string) : Prop :=
  readable choice /\ Py.strip choice <> "5" /\ Py.strip choice <> "8".

(** A round after which the loop shows the menu again. *)
Definition round_goes_on (round : string * string) : Prop :=
  goes_on round.1 /\ readable round.2.

(** Something in [stdin], or its end, makes [input()] raise [e]. *)
Definition input_raises (stdin : list keyboard) (e : exn) : Prop :=
  read None = Raise e \/ exists key, In key stdin /\ read (Some key) = Raise e.

Definition UnicodeDecodeError (msg : string) : exn := Exc "UnicodeDecodeError" msg.

(** The lines of the output of [docker-compose ps] that name running
    services. *)
Definition running_services (ps_stdout : string) : list string :=
  if Py.truthy (Py.strip ps_stdout)
  then Py.split (Ascii.ascii_of_nat 10) (Py.strip ps_stdout)
  else [].

(** The row that the test query returned holds [test = 1]. *)
Definition test_is_1 (r : result (option Row)) : bool :=
  match r with
  | Ok (Some row) =>
      match row !! "test" with
      | Some v => (v =? 1)%Z
      | None => false
      end
  | _ => false
  end.

(** The connection test of [_initialize_neo4j] passes: the driver is made,
    the session opens, the row holds 1 and the session closes. *)
Definition neo4j_test_passes (h : Host) : bool :=
  let d := configured_driver h in
  is_Ok (neo4j_driver h d)
  && is_Ok (neo4j_session h d)
  && test_is_1 (neo4j_run_single h (mkSession d) "RETURN 1 as test")
  && is_Ok (neo4j_session_exit h (mkSession d)).

Definition neo4j_choice (h : Host) : option Driver :=
  if neo4j_test_passes h then Some (configured_driver h) else None.

(** The collection that [_get_or_create_collection] makes on a client. *)
Definition collection_on (c : ChromaClient) (name : string) : Collection :=
  mkCollection c ("autoscheduler_" +:+ name)
    [("description", "Autoscheduler " +:+ name +:+ " embeddings")].

(** What [_get_or_create_collection] returns. *)
Definition collection_choice (h : Host) (client : option ChromaClient) (name : string)
  : option Collection :=
  match client with
  | None => None
  | Some c =>
      if is_Ok (chroma_get_or_create_collection h c
                  (collection_name (collection_on c name))
                  (collection_metadata (collection_on c name)))
      then Some (collection_on c name)
      else None
  end.

(** The schedule that [Schedule()] builds on a host. *)
Definition schedule_on (h : Host) : Schedule :=
  mkSchedule "autoscheduler.core.schedule" (neo4j_choice h) (chroma_choice h) DiGraph_new
    (collection_choice h (chroma_choice h) "activities")
    (collection_choice h (chroma_choice h) "relationships").

(** The answer of [is_neo4j_connected] and of [is_chromadb_connected]. *)
Definition neo4j_connected (h : Host) (s : Schedule) : bool :=
  match neo4j_db s with
  | Some d => session_works h d
  | None => false
  end.

Definition chromadb_connected (h : Host) (s : Schedule) : bool :=
  match chroma_client s with
  | Some c => is_Ok (chroma_heartbeat h c)
  | None => false
  end.

(** The external calls of one evaluation of [is_neo4j_connected]: the
    query and the exit follow only when the session opened. *)
Definition neo4j_check_calls (h : Host) (s : Schedule) : list (string * list string) :=
  match neo4j_db s with
  | None => []
  | Some d =>
      ("driver.session", [uri d])
      :: (if is_Ok (neo4j_session h d)
          then [("session.run.single", ["RETURN 1"]); ("session.__exit__", [uri d])]
          else [])
  end.

(** The external calls of one evaluation of [is_chromadb_connected]. *)
Definition chromadb_check_calls (s : Schedule) : list (string * list string) :=
  match chroma_client s with
  | None => []
  | Some _ => [("client.heartbeat", [])]
  end.

(** A computation that leaves the registry of loggers as it found it,
    however it ends. *)
Definition keeps_loggers {A} (m : M A) : Prop :=
  forall p, loggers (m p).2 = loggers p.

(** The registry once a constructor has set up the logger [name]: the level
    is INFO, and there is one handler unless there were some already. *)
Definition configured (name : string) (registry : gmap string LoggerState)
  : gmap string LoggerState :=
  <[name := mkLoggerState INFO
              (match registry !! name with
               | Some st => if (handlers st =? 0)%nat then 1 else handlers st
               | None => 1
               end)]> registry.

(** *** The methods of [LLMClient]: each is a coroutine, and what is
    embedded is what awaiting it does.  The OpenAI service is a record of
    answers, as the host is. *)

(** One entry of [message.tool_calls]. *)
Record ToolCall : Type := mkToolCall {
  call_id : string;
  call_type : string;
  function_name : string;
  function_arguments : string
}.

(** [completion.choices[i].message]: the text, the tool calls and the
    parsed object, each possibly [None]. *)
Record ChatMessage : Type := mkChatMessage {
  content : option string;
  tool_calls : option (list ToolCall);
  parsed : option Py.value
}.

Record ChatCompletion : Type := mkChatCompletion {
  choices : list ChatMessage
}.

(** A tool of a request, as far as the code looks into it: the name under
    its ['function'] entry, when there is one. *)
Record Tool : Type := mkTool {
  tool_name : option string
}.

(** The dictionary that [prompt_with_tools] builds for a tool call. *)
Record FunctionDict : Type := mkFunctionDict {
  dict_name : string;
  dict_arguments : string
}.

Record ToolCallDict : Type := mkToolCallDict {
  dict_id : string;
  dict_type : string;
  dict_function : FunctionDict
}.

(** The service: [chat.completions.create] (with the tools, when given),
    [beta.chat.completions.parse] for a response format known by its class
    name, and [model_validate_json] of that class. *)
Record OpenAI : Type := mkOpenAI {
  chat_create :
    string -> list (string * string) -> option (list Tool) -> result ChatCompletion;
  chat_parse : string -> list (string * string) -> string -> result ChatCompletion;
  model_validate_json : string -> option string -> result Py.value
}.

(** [model or self.default_model] *)
Definition chosen_model (self : LLMClient) (model : option string) : string :=
  match model with
  | Some m => if Py.truthy m then m else default_model self
  | None => default_model self
  end.

(** [completion.choices[0].message] *)
Definition first_message (completion : ChatCompletion) : M ChatMessage :=
  match choices completion with
  | message :: _ => mret message
  | [] => raise (Exc "IndexError" "list index out of range")
  end.

(** [text[:n]] where [text] may be [None] *)
Definition slice_to (text : option string) (n : nat) : M string :=
  match text with
  | Some t => mret (Py.slice_to t n)
  | None => raise (Exc "TypeError" "'NoneType' object is not subscriptable")
  end.

(** [except Exception as e: self.logger.error(...); raise] *)
Definition logging_errors {A} (logger where_ : string) (body : M A) : M A :=
  try_except body
    (fun e =>
       log ERROR logger ("Error in " +:+ where_ +:+ ": " +:+ str_exn e);;
       raise e).

(** [LLMClient.prompt] *)
Definition prompt
    (api : OpenAI) (self : LLMClient) (messages : list (string * string))
    (model : option string) : M (option string) :=
  let model := chosen_model self model in
  logging_errors (llm_logger self) "prompt"
    (log DEBUG (llm_logger self)
       ("Sending prompt to " +:+ model +:+ " with "
          +:+ Py.str_nat (length messages) +:+ " messages");;
     completion ← external "chat.completions.create" [model]
                    (chat_create api model messages None);
     message ← first_message completion;
     let response := content message in
     shown ← slice_to response 100;
     log DEBUG (llm_logger self) ("Received response: " +:+ shown +:+ "...");;
     mret response).

(** [tool.get('function', {}).get('name', 'Unknown')] *)
Definition tool_label (tool : Tool) : string := default "Unknown" (tool_name tool).

(** [str] of a list of strings *)
Definition str_list (l : list string) : string :=
  "[" +:+ Py.join ", " (map Py.repr l) +:+ "]".

Definition tool_call_dict (call : ToolCall) : ToolCallDict :=
  mkToolCallDict (call_id call) (call_type call)
    (mkFunctionDict (function_name call) (function_arguments call)).

(** [LLMClient.prompt_with_tools] *)
Definition prompt_with_tools
    (api : OpenAI) (self : LLMClient) (messages : list (string * string))
    (tools : list Tool) (model : option string) : M (list ToolCallDict) :=
  let model := chosen_model self model in
  logging_errors (llm_logger self) "prompt_with_tools"
    (log DEBUG (llm_logger self) ("Sending prompt with tools to " +:+ model);;
     log DEBUG (llm_logger self)
       ("Tools available: " +:+ str_list (map tool_label tools));;
     completion ← external "chat.completions.create" [model; "tool_choice=auto"]
                    (chat_create api model messages (Some tools));
     message ← first_message completion;
     match tool_calls message with
     | Some (call :: calls) =>
         log DEBUG (llm_logger self)
           ("Model requested " +:+ Py.str_nat (length (call :: calls)) +:+ " tool calls");;
         mret (map tool_call_dict (call :: calls))
     | Some [] | None =>
         log DEBUG (llm_logger self) "No tool calls requested by model";;
         mret []
     end).

(** [LLMClient.parse_structured], for the response format named
    [response_format]; a parsed object counts as true. *)
Definition parse_structured
    (api : OpenAI) (self : LLMClient) (messages : list (string * string))
    (response_format : string) (model : option string) : M Py.value :=
  let model := chosen_model self model in
  logging_errors (llm_logger self) "parse_structured"
    (log DEBUG (llm_logger self) ("Sending structured prompt to " +:+ model);;
     log DEBUG (llm_logger self) ("Expected response format: " +:+ response_format);;
     completion ← external "beta.chat.completions.parse" [model; response_format]
                    (chat_parse api model messages response_format);
     message ← first_message completion;
     match parsed message with
     | Some parsed_response =>
         log DEBUG (llm_logger self)
           ("Successfully parsed response as " +:+ response_format);;
         mret parsed_response
     | None =>
         log WARNING (llm_logger self)
           "Structured output parsing failed, attempting manual parsing";;
         message ← first_message completion;
         external "model_validate_json" [response_format]
           (model_validate_json api response_format (content message))
     end).

(** A service that answers every request with one message. *)
Definition answering (message : ChatMessage) : OpenAI :=
  mkOpenAI (fun _ _ _ => Ok (mkChatCompletion [message]))
    (fun _ _ _ => Ok (mkChatCompletion [message]))
    (fun _ text => match text with
                   | Some t => Ok (Py.ObjectV "BaseModel" t)
                   | None => Raise (Exc "ValidationError" "Invalid JSON")
                   end).

Definition a_client : LLMClient :=
  mkLLMClient "autoscheduler.llm.client" (Some "sk-test") "gpt-4o-mini"
    (mkAsyncOpenAI "sk-test").

Definition IndexError : exn := Exc "IndexError" "list index out of range".
Definition not_subscriptable : exn :=
  Exc "TypeError" "'NoneType' object is not subscriptable".

(** [parse_structured] has to validate the text itself: the service
    answered with a first message that carries no parsed object. *)
Definition falls_back
    (api : OpenAI) (self : LLMClient) (messages : list (string * string))
    (response_format : string) (model : option string) : bool :=
  match chat_parse api (chosen_model self model) messages response_format with
  | Ok completion =>
      match choices completion with
      | message :: _ =>
          match parsed message with
          | Some _ => false
          | None => true
          end
      | [] => false
      end
  | Raise _ => false
  end.

(** A service whose every request fails with [e]. *)
Definition failing (e : exn) : OpenAI :=
  mkOpenAI (fun _ _ _ => Raise e) (fun _ _ _ => Raise e) (fun _ _ => Raise e).

(** The methods that some branch of the menu calls. *)
Definition menu_methods : list string :=
  ["_add_activity"; "_delete_activity"; "_add_relationship"; "_delete_relationship";
   "_dissolve_relationship"; "_dispatch"].

(** The line "8" followed by a no-break space (U+00A0), which
    [str.strip] removes. *)
Definition nbsp_8 : string :=
  "8" +:+ String (Ascii.ascii_of_N 0xC2) (String (Ascii.ascii_of_N 0xA0) "").

(** The CLI that [CLI()] builds when no database answers. *)
Definition offline_cli : CLI :=
  let s := mkSchedule "autoscheduler.core.schedule" None None DiGraph_new None None in
  mkCLI s (mkScopeManager "autoscheduler.core.scope_manager" s).

(** A schedule with both clients, as [Schedule()] builds it on
    [healthy_host]. *)
Definition online_schedule : Schedule := schedule_on healthy_host.

(** *** Interrupts

    [except Exception] lets [KeyboardInterrupt] and [SystemExit] through.
    The notions below say which exception, if any, gets out of a sequence
    of calls that is wrapped in such handlers. *)

(** The exception of an answer that [except Exception] does not catch. *)
Definition interrupt {A} (r : result A) : option exn :=
  match r with
  | Raise e => if isinstance_Exception e then None else Some e
  | Ok _ => None
  end.

(** The first interrupt of a list, in the order of the calls. *)
Definition first_of (l : list (option exn)) : option exn := head (omap id l).

(** What gets out of [with driver.session() as session:
    session.run(query)...]: the interrupt of opening the session; with
    the session open, the interrupt of the query unless closing the
    session raises, which replaces it. *)
Definition session_interrupted (h : Host) (d : Driver) (query : string) : option exn :=
  match neo4j_session h d with
  | Ok _ =>
      match neo4j_session_exit h (mkSession d) with
      | Ok _ => interrupt (neo4j_run_single h (mkSession d) query)
      | Raise e => interrupt (neo4j_session_exit h (mkSession d))
      end
  | Raise e => interrupt (neo4j_session h d)
  end.

(** What gets out of [_initialize_neo4j]. *)
Definition neo4j_interrupted (h : Host) : option exn :=
  match neo4j_driver h (configured_driver h) with
  | Ok _ => session_interrupted h (configured_driver h) "RETURN 1 as test"
  | Raise e => interrupt (neo4j_driver h (configured_driver h))
  end.

(** The attempt on the server: build the client, then its heartbeat. *)
Definition server_attempt (h : Host) (port : Z) : result unit :=
  match chroma_connect h (server_client h port) with
  | Ok _ => chroma_heartbeat h (server_client h port)
  | Raise e => Raise e
  end.

(** What gets out of [_initialize_chromadb] when the port is [port]: the
    interrupt of the attempt on the server, or, when that attempt failed,
    the interrupt of building the local client. *)
Definition chroma_interrupted (h : Host) (port : Z) : option exn :=
  match server_attempt h port with
  | Ok _ => None
  | Raise e =>
      if isinstance_Exception e then interrupt (chroma_connect h (local_client h))
      else Some e
  end.

(** The client that [_initialize_chromadb] returns when the port is
    [port]: the server when it answers, else the local client when that
    can be built. *)
Definition chroma_client_for (h : Host) (port : Z) : option ChromaClient :=
  if server_answers h port then Some (server_client h port)
  else if local_answers h then Some (local_client h)
  else None.

(** What gets out of [_get_or_create_collection]. *)
Definition collection_interrupted (h : Host) (client : option ChromaClient) (name : string)
  : option exn :=
  match client with
  | None => None
  | Some c =>
      interrupt (chroma_get_or_create_collection h c
                   (collection_name (collection_on c name))
                   (collection_metadata (collection_on c name)))
  end.

(** What gets out of [Schedule()]: the first interrupt that its four steps
    meet. *)
Definition schedule_interrupted (h : Host) : option exn :=
  first_of
    [ neo4j_interrupted h;
      match configured_port h with
      | Some port => chroma_interrupted h port
      | None => None
      end;
      collection_interrupted h (chroma_choice h) "activities";
      collection_interrupted h (chroma_choice h) "relationships" ].

(** *** The commands of a run

    The events of a process tell which commands it ran and when, and the
    host tells what each of them answered. *)

(** The seconds slept by the events [evs]. *)
Fixpoint slept (evs : list event) : nat :=
  match evs with
  | [] => 0
  | Sleep n :: rest => n + slept rest
  | _ :: rest => slept rest
  end.

(** The commands that the events [evs] run, each with the time at which it
    runs when the first event happens at time [t]. *)
Fixpoint commands (t : nat) (evs : list event) : list (nat * list string) :=
  match evs with
  | [] => []
  | Sleep n :: rest => commands (t + n) rest
  | Call target argv :: rest =>
      if String.eqb target "subprocess.run" then (t, argv) :: commands t rest
      else commands t rest
  | _ :: rest => commands t rest
  end.

(** The exception of the first answer that is not a return. *)
Fixpoint first_raise {A} (answers : list (result A)) : option exn :=
  match answers with
  | [] => None
  | Raise e :: _ => Some e
  | Ok _ :: rest => first_raise rest
  end.

(** What the host answers to the commands of [evs], in order. *)
Definition answers (h : Host) (t : nat) (evs : list event) : list (result CompletedProcess) :=
  map (fun c => subprocess_run h c.1 c.2) (commands t evs).

(** The exception of the first command of [evs] that raised on [h]. *)
Definition command_raised (h : Host) (t : nat) (evs : list event) : option exn :=
  first_raise (answers h t evs).

(** Every command of [evs] returned, the last one aside. *)
Definition raised_last_only (h : Host) (t : nat) (evs : list event) : Prop :=
  first_raise (removelast (answers h t evs)) = None.

(** The exception that ends a computation. *)
Definition raised {A} (r : result A) : option exn :=
  match r with
  | Raise e => Some e
  | Ok _ => None
  end.

(** A computation whose only source of exceptions is the commands that it
    runs: it raises exactly when a command does, it raises what that
    command raised, and it runs no command after that. *)
Definition stops_at_command {A} (h : Host) (m : M A) : Prop :=
  forall p, exists evs,
    events (m p).2 = (events p ++ evs)%list
    /\ clock (m p).2 = clock p + slept evs
    /\ command_raised h (clock p) evs = raised (m p).1
    /\ raised_last_only h (clock p) evs.

(** The two lines of the handler of [check_docker_containers]. *)
Definition docker_warning (e : exn) : list event :=
  [Print ("Warning: Error checking Docker containers: " +:+ str_exn e);
   Print "Continuing without Docker services."].

(** Docker Compose works; during the first health check a signal handler
    of the process calls [sys.exit(143)]. *)
Definition sys_exit_host : Host :=
  with_subprocess
    (fun t argv =>
       if String.eqb (default "" (head argv)) "docker"
       then Raise (SystemExit 143)
       else Ok (mkCompleted 0 "" ""))
    bare_host.

(** No database answers: ChromaDB cannot be reached, and Neo4j takes the
    connection but hangs on every query until the user presses Ctrl-C. *)
Definition interrupted_query_host : Host :=
  {| environ := ∅;
     subprocess_run := subprocess_run bare_host;
     neo4j_driver := fun _ => Ok tt;
     neo4j_session := fun _ => Ok tt;
     neo4j_run_single := fun _ _ => Raise KeyboardInterrupt;
     neo4j_session_exit := fun _ => Ok tt;
     chroma_connect := chroma_connect bare_host;
     chroma_heartbeat := chroma_heartbeat bare_host;
     chroma_get_or_create_collection := chroma_get_or_create_collection bare_host;
     openai_AsyncOpenAI := openai_AsyncOpenAI bare_host |}.

(** Neo4j is up; no ChromaDB server listens on the port that
    [CHROMADB_PORT] gives in Arabic-Indic digits between spaces, and the
    local client can be built. *)
Definition local_only_host : Host :=
  {| environ := {["CHROMADB_PORT" := " ٨٠٠١ "]};
     subprocess_run := subprocess_run healthy_host;
     neo4j_driver := neo4j_driver healthy_host;
     neo4j_session := neo4j_session healthy_host;
     neo4j_run_single := neo4j_run_single healthy_host;
     neo4j_session_exit := neo4j_session_exit healthy_host;
     chroma_connect := fun c =>
       match c with
       | HttpClient _ _ => unreachable "chromadb"
       | PersistentClient _ => Ok tt
       end;
     chroma_heartbeat := chroma_heartbeat healthy_host;
     chroma_get_or_create_collection := chroma_get_or_create_collection healthy_host;
     openai_AsyncOpenAI := openai_AsyncOpenAI healthy_host |}.

(** ** What an execution leaves behind *)

Lemma stdout_emit_Print (text : string) (p : Proc) :
  stdout (emit (Print text) p) = (stdout p ++ [text])%list.
Proof. unfold stdout, emit; cbn. by rewrite omap_app. Qed.

Lemma calls_emit_Print (text : string) (p : Proc) :
  calls (emit (Print text) p) = calls p.
Proof. unfold calls, emit; cbn. rewrite omap_app; cbn. by rewrite app_nil_r. Qed.

Lemma stdout_emit_Log (l : string) (lvl : nat) (msg : string) (p : Proc) :
  stdout (emit (Log l lvl msg) p) = stdout p.
Proof. unfold stdout, emit; cbn. rewrite omap_app; cbn. by rewrite app_nil_r. Qed.

Lemma calls_emit_Log (l : string) (lvl : nat) (msg : string) (p : Proc) :
  calls (emit (Log l lvl msg) p) = calls p.
Proof. unfold calls, emit; cbn. rewrite omap_app; cbn. by rewrite app_nil_r. Qed.

Lemma logged_quiet (lvl : nat) (l msg : string) (p : Proc) :
  stdout (logged lvl l msg p) = stdout p
  /\ calls (logged lvl l msg p) = calls p
  /\ clock (logged lvl l msg p) = clock p.
Proof.
  unfold logged. destruct (_ <=? _)%nat; [|done].
  by rewrite stdout_emit_Log, calls_emit_Log.
Qed.

(** A logging call returns, prints nothing and calls nothing. *)
Lemma log_quiet (lvl : nat) (l msg : string) (p : Proc) :
  exists p', log lvl l msg p = (Ok tt, p')
             /\ stdout p' = stdout p /\ calls p' = calls p /\ clock p' = clock p.
Proof. eexists. split; [reflexivity|]. apply logged_quiet. Qed.

Lemma bind_run {A B} (m : M A) (k : A -> M B) (p p' : Proc) (a : A) :
  m p = (Ok a, p') -> (m ≫= k) p = k a p'.
Proof. intros H. unfold mbind, M_bind, bind. by rewrite H. Qed.

Lemma calls_logged (lvl : nat) (l msg : string) (p : Proc) :
  calls (logged lvl l msg p) = calls p.
Proof. apply logged_quiet. Qed.

Lemma sleeps_emit (e : event) (p : Proc) :
  sleeps (emit e p)
  = (sleeps p ++ match e with Sleep n => [n] | _ => [] end)%list.
Proof. unfold sleeps, emit; cbn. rewrite omap_app. by destruct e. Qed.

Lemma calls_emit (e : event) (p : Proc) :
  calls (emit e p)
  = (calls p ++ match e with Call t a => [(t, a)] | _ => [] end)%list.
Proof. unfold calls, emit; cbn. rewrite omap_app. by destruct e. Qed.

Lemma clock_emit (e : event) (p : Proc) : clock (emit e p) = clock p.
Proof. reflexivity. Qed.

Lemma clock_logged (lvl : nat) (l msg : string) (p : Proc) :
  clock (logged lvl l msg p) = clock p.
Proof. apply logged_quiet. Qed.

Ltac after_log :=
  match goal with
  | |- context [ (log ?lvl ?l ?msg ≫= ?k) ?p ] =>
      let p' := fresh "p" in
      let E := fresh "E" in
      let Hout := fresh "Hout" in
      let Hcalls := fresh "Hcalls" in
      let Hclock := fresh "Hclock" in
      destruct (log_quiet lvl l msg p) as (p' & E & Hout & Hcalls & Hclock);
      rewrite (bind_run _ _ _ _ _ E)
  end.

Ltac stub_prints :=
  intros ?; repeat after_log;
  do 3 eexists; split; [reflexivity|];
  rewrite ?stdout_emit_Print, <- ?app_assoc; cbn [app];
  repeat match goal with H : stdout _ = stdout _ |- _ => rewrite H; clear H end;
  reflexivity.

(** ** The placeholders *)

(** C3. Every placeholder mutation returns [False] after printing, for
    every receiver and every argument: the six of [ScopeManager]
    ([_dispatch], [_add_activity], [_add_relationship], [_delete_activity],
    [_dissolve_activity], [_delete_relationship]) and the five of [Schedule]
    ([add_activity], [remove_activity], [add_relationship],
    [remove_relationship], [update_graph]). *)
Theorem stub_mutations_return_False
    (sm : ScopeManager) (s : Schedule) (x y : Py.value) :
  prints_and_returns (_dispatch sm) false
  /\ prints_and_returns (_add_activity sm x y) false
  /\ prints_and_returns (_add_relationship sm x y) false
  /\ prints_and_returns (_delete_activity sm x y) false
  /\ prints_and_returns (_dissolve_activity sm x y) false
  /\ prints_and_returns (_delete_relationship sm x y) false
  /\ prints_and_returns (add_activity x s) (false, s)
  /\ prints_and_returns (remove_activity x s) (false, s)
  /\ prints_and_returns (add_relationship x s) (false, s)
  /\ prints_and_returns (remove_relationship x s) (false, s)
  /\ prints_and_returns (update_graph s) (false, s).
Proof.
  repeat split.
  - unfold _dispatch. stub_prints.
  - unfold _add_activity. stub_prints.
  - stub_prints.
  - stub_prints.
  - stub_prints.
  - stub_prints.
  - stub_prints.
  - stub_prints.
  - stub_prints.
  - stub_prints.
  - stub_prints.
Qed.

Ltac stub_quiet :=
  intros ?; eexists; split; [reflexivity|];
  rewrite ?calls_emit_Print; reflexivity.

(** C4. For every schedule and every query, [compute_critical_path],
    [get_activities], [get_relationships], [semantic_search_activities] and
    [semantic_search_relationships] return the empty list, and they get
    there without a single external call: nothing is computed on the graph
    and nothing is searched. *)
Theorem queries_return_empty_list (s : Schedule) (query : Py.value) :
  returns_without_calls (compute_critical_path s) ([], s)
  /\ returns_without_calls (get_activities s) ([], s)
  /\ returns_without_calls (get_relationships s) ([], s)
  /\ returns_without_calls (semantic_search_activities query s) ([], s)
  /\ returns_without_calls (semantic_search_relationships query s) ([], s).
Proof. repeat split; stub_quiet. Qed.

Ltac stub_frame :=
  intros ? ?; do 3 eexists; split; [reflexivity|];
  split; [by repeat split|];
  rewrite ?calls_emit_Print; reflexivity.

(** C5. [add_activity], [remove_activity], [add_relationship],
    [remove_relationship] and [update_graph] leave [neo4j_db],
    [chroma_client], [graph], [activities_embeddings] and
    [relationships_embeddings] of the receiver unchanged and make no
    external call: no database is written and the in-memory graph is not
    touched. *)
Theorem mutations_preserve_schedule (x : Py.value) :
  preserves_schedule (add_activity x)
  /\ preserves_schedule (remove_activity x)
  /\ preserves_schedule (add_relationship x)
  /\ preserves_schedule (remove_relationship x)
  /\ preserves_schedule update_graph.
Proof. repeat split; stub_frame. Qed.

(** ** The constructor of the LLM client *)

Lemma truthy_opt_false (o : option string) :
  Py.truthy_opt o = false <-> o = None \/ o = Some "".
Proof.
  destruct o as [[|c k]|]; cbn; split; intros H; auto.
  - discriminate.
  - destruct H as [H|H]; discriminate.
Qed.

(** C8, as stated, fails: with a key in [OPENAI_API_KEY] the constructor
    can still raise [ValueError], and construction does not succeed.  The
    call [AsyncOpenAI(api_key=...)] stands outside any [try], so what the
    library raises while it sets up its HTTP client leaves
    [LLMClient.__init__]. *)
Lemma ValueError_with_key_present :
  environ bad_proxy_host !! "OPENAI_API_KEY" = Some "sk-test"
  /\ fst (LLMClient_init bad_proxy_host Proc0)
     = Raise (Exc "ValueError" "Unknown scheme for proxy URL URL('ftp://x')").
Proof. split; reflexivity. Qed.

(** C8, amended. [LLMClient.__init__] raises the [ValueError] that says
    "OPENAI_API_KEY not found in environment variables", before it builds
    any client, exactly when [OPENAI_API_KEY] is unset or empty.  With a
    key it calls [AsyncOpenAI(api_key=key)] once: when that returns,
    construction succeeds, the client holds the key and the model is the
    value of [OPENAI_MODEL] when that variable is set and ['gpt-4o-mini']
    when it is not; when it raises, the exception leaves the constructor
    as it is. *)
Theorem LLMClient_init_by_key (h : Host) (p : Proc) :
  let key := environ h !! "OPENAI_API_KEY" in
  ((exists p', LLMClient_init h p = (Raise no_key_error, p') /\ calls p' = calls p)
   <-> (key = None \/ key = Some ""))
  /\ (forall k, key = Some k -> k <> "" ->
        exists p',
          LLMClient_init h p = (client_with_key h k, p')
          /\ calls p' = (calls p ++ [("AsyncOpenAI", [])])%list).
Proof.
  intros key.
  assert (Hrun : forall k, key = Some k -> k <> "" ->
            exists p',
              LLMClient_init h p = (client_with_key h k, p')
              /\ calls p' = (calls p ++ [("AsyncOpenAI", [])])%list).
  { intros k Hk Hne. unfold LLMClient_init, client_with_key.
    erewrite bind_run by reflexivity.
    unfold getenv. fold key. rewrite Hk.
    destruct k as [|c k]; [done|].
    cbn [Py.truthy_opt Py.truthy String.eqb negb from_option id].
    unfold AsyncOpenAI_new, external, getenv_default.
    unfold mbind, M_bind, bind, mret, M_ret, ret, log. cbn [setup_logger].
    destruct (openai_AsyncOpenAI h (String c k)) as [[]|e];
      (eexists; split; [reflexivity|]);
      rewrite ?calls_logged, calls_emit; reflexivity. }
  split; [split|].
  - intros (p' & Hraise & Hcalls).
    apply truthy_opt_false.
    destruct (Py.truthy_opt key) eqn:Htruthy; [|done].
    destruct key as [k|] eqn:Hkey; [|done].
    destruct (Hrun k eq_refl) as (p'' & Hok & Hcalls').
    + intros ->. discriminate.
    + rewrite Hraise in Hok. injection Hok as _ <-.
      rewrite Hcalls in Hcalls'.
      apply (f_equal length) in Hcalls'. rewrite length_app in Hcalls'. cbn in Hcalls'. lia.
  - intros Hkey. apply truthy_opt_false in Hkey.
    unfold LLMClient_init.
    erewrite bind_run by reflexivity.
    unfold getenv. fold key. rewrite Hkey. cbn [negb].
    eexists. split; [reflexivity|]. reflexivity.
  - intros k Hk Hne. by apply Hrun.
Qed.

(** With a key and a library that builds its client, [LLMClient()]
    returns; without a key it raises before any call. *)
Lemma LLMClient_init_with_and_without_key :
  (exists p',
     LLMClient_init (with_environ {["OPENAI_API_KEY" := "sk-test"]} healthy_host) Proc0
     = (Ok (mkLLMClient "autoscheduler.llm.client" (Some "sk-test") "gpt-4o-mini"
              (mkAsyncOpenAI "sk-test")), p')
     /\ calls p' = [("AsyncOpenAI", [])])
  /\ (exists p', LLMClient_init bare_host Proc0 = (Raise no_key_error, p') /\ calls p' = []).
Proof.
  destruct (LLMClient_init_by_key
              (with_environ {["OPENAI_API_KEY" := "sk-test"]} healthy_host) Proc0)
    as [_ Hkey].
  destruct (LLMClient_init_by_key bare_host Proc0) as [Hnone _].
  split.
  - apply (Hkey "sk-test"); [reflexivity|discriminate].
  - apply Hnone. by left.
Defined.

(** ** The menu *)

Ltac stub_not_implemented :=
  intros ?; repeat after_log;
  do 3 eexists; split; [reflexivity|];
  rewrite ?stdout_emit_Print, <- ?app_assoc; cbn [app];
  repeat match goal with H : stdout _ = stdout _ |- _ => rewrite H; clear H end;
  split; [reflexivity | vm_compute; reflexivity].

Ltac each_of := repeat first [apply List.Forall_nil | apply List.Forall_cons].

(** The six methods of the class that can be called without argument. *)
Lemma ScopeManager_placeholders (self : ScopeManager) :
  Forall (fun name =>
            exists stub,
              assoc name ScopeManager_methods = Some stub
              /\ not_implemented_stub (stub self))
    ["_dispatch"; "_add_activity"; "_add_relationship"; "_delete_activity";
     "_dissolve_activity"; "_delete_relationship"].
Proof.
  each_of; (eexists; split; [reflexivity|]).
  - unfold _dispatch. stub_not_implemented.
  - unfold _add_activity. stub_not_implemented.
  - unfold _add_relationship. stub_not_implemented.
  - unfold _delete_activity. stub_not_implemented.
  - unfold _dissolve_activity. stub_not_implemented.
  - unfold _delete_relationship. stub_not_implemented.
Qed.

(** A branch that calls a placeholder reports the failure. *)
Lemma run_branch_placeholder
    (self : CLI) (header method operation : string) (stub : ScopeManager -> M bool)
    (p : Proc) :
  assoc method ScopeManager_methods = Some stub ->
  not_implemented_stub (stub (scope_manager self)) ->
  exists p',
    run_branch self (Invoke header method operation) p = (Ok false, p')
    /\ last (stdout p')
       = Some (Py.nl +:+ "✗ " +:+ operation +:+ " failed or was cancelled.").
Proof.
  intros Hfind Hstub.
  destruct (Hstub (emit (Print header) p)) as (p1 & line & lines & Hrun & _).
  cbn [run_branch].
  erewrite bind_run by reflexivity.
  unfold call_method. rewrite Hfind.
  erewrite bind_run by exact Hrun.
  eexists. split; [reflexivity|].
  cbn [_show_result]. rewrite stdout_emit_Print. apply last_snoc.
Qed.

(** The five selections whose method exists behave as placeholders: the
    method returns [False] and [_show_result] reports the failure. *)
Lemma run_branch_stub_reports_failure (self : CLI) (p : Proc) :
  Forall (fun choice =>
            exists operation p',
              run_branch self (branch_of choice) p = (Ok false, p')
              /\ last (stdout p')
                 = Some (Py.nl +:+ "✗ " +:+ operation +:+ " failed or was cancelled."))
    ["1"; "2"; "3"; "4"; "6"].
Proof.
  pose proof (ScopeManager_placeholders (scope_manager self)) as Hstubs.
  rewrite Forall_forall in Hstubs.
  each_of; eexists; (eapply run_branch_placeholder; [reflexivity|]).
  - destruct (Hstubs "_add_activity") as (stub & Hs & Hn); [repeat constructor|].
    injection Hs as <-. exact Hn.
  - destruct (Hstubs "_delete_activity") as (stub & Hs & Hn); [repeat constructor|].
    injection Hs as <-. exact Hn.
  - destruct (Hstubs "_add_relationship") as (stub & Hs & Hn); [repeat constructor|].
    injection Hs as <-. exact Hn.
  - destruct (Hstubs "_delete_relationship") as (stub & Hs & Hn); [repeat constructor|].
    injection Hs as <-. exact Hn.
  - destruct (Hstubs "_dispatch") as (stub & Hs & Hn); [repeat constructor|].
    injection Hs as <-. exact Hn.
Qed.

(** C1. Selection "5" does not reach a placeholder.  The branch calls
    [_dissolve_relationship], which [ScopeManager] does not define (the
    class has [_dissolve_activity]): the call raises [AttributeError] out of
    [CLI.run], and the last line printed is the header of the branch, so
    [_show_result] never runs. *)
Theorem CLI_run_dissolve_raises_AttributeError
    (self : CLI) (rest : list keyboard) (p : Proc) :
  exists p',
    CLI_run self (Line "5" :: rest) p
    = (Raise (Exc "AttributeError"
                "'ScopeManager' object has no attribute '_dissolve_relationship'"), p')
    /\ last (stdout p') = Some (Py.nl +:+ "--- Dissolve Relationship ---")
    /\ assoc "_dissolve_relationship" ScopeManager_methods = None
    /\ (exists stub, assoc "_dissolve_activity" ScopeManager_methods = Some stub).
Proof.
  eexists. split.
  { unfold CLI_run. do 3 (erewrite bind_run by reflexivity).
    cbn [run_loop]. reflexivity. }
  split; [|split; [reflexivity|by eexists]].
  rewrite stdout_emit_Print. apply last_snoc.
Qed.

(** Seen from [main]: the error ends the program with exit status 1. *)
Example main_dissolve_exits_1 :
  fst (main bare_host [Line "5"; Line ""] Proc0) = Raise (SystemExit 1)
  /\ last (stdout (snd (main bare_host [Line "5"; Line ""] Proc0)))
     = Some "An unexpected error occurred: 'ScopeManager' object has no attribute '_dissolve_relationship'".
Proof. split; vm_compute; reflexivity. Qed.

(** C2, as stated, fails: the branches that call a method of the scope
    manager are six, not seven, and only five of the methods exist.  Option
    "7" calls nothing. *)
Lemma seven_stub_options_refuted :
  length (List.filter calls_stub menu_options) <> 7
  /\ length (List.filter invokes_method menu_options) <> 7
  /\ invokes_method "7" = false.
Proof. vm_compute. repeat split; discriminate. Qed.

(** C2, amended. Of the eight menu options, "1", "2", "3", "4" and "6" call
    a method of [ScopeManager] that returns [False] after printing a "not
    implemented yet" message; "7" calls no method and prints "Schedule
    execution not implemented yet." itself; "8" leaves the loop. *)
Theorem menu_options_by_branch (self : ScopeManager) :
  Forall (fun choice =>
            exists header method operation stub,
              branch_of choice = Invoke header method operation
              /\ assoc method ScopeManager_methods = Some stub
              /\ not_implemented_stub (stub self))
    ["1"; "2"; "3"; "4"; "6"]
  /\ branch_of "7"
     = Say [Py.nl +:+ "--- Run Schedule ---"; "Schedule execution not implemented yet."]
  /\ branch_of "8" = Leave (Py.nl +:+ "Goodbye!")
  /\ length menu_options = 8.
Proof.
  split; [|by repeat split].
  pose proof (ScopeManager_placeholders self) as Hstubs.
  rewrite Forall_forall in Hstubs.
  each_of.
  - destruct (Hstubs "_add_activity") as (stub & Hs & Hn); [repeat constructor|].
    by exists (Py.nl +:+ "--- Add Activity ---"), "_add_activity", "Activity operation", stub.
  - destruct (Hstubs "_delete_activity") as (stub & Hs & Hn); [repeat constructor|].
    by exists (Py.nl +:+ "--- Delete Activity ---"), "_delete_activity",
         "Delete activity operation", stub.
  - destruct (Hstubs "_add_relationship") as (stub & Hs & Hn); [repeat constructor|].
    by exists (Py.nl +:+ "--- Add Relationship ---"), "_add_relationship",
         "Add relationship operation", stub.
  - destruct (Hstubs "_delete_relationship") as (stub & Hs & Hn); [repeat constructor|].
    by exists (Py.nl +:+ "--- Delete Relationship ---"), "_delete_relationship",
         "Delete relationship operation", stub.
  - destruct (Hstubs "_dispatch") as (stub & Hs & Hn); [repeat constructor|].
    by exists (Py.nl +:+ "--- Open Prompt ---"), "_dispatch",
         "Natural language prompt operation", stub.
Qed.

(** ** Building the database clients *)

Ltac unfold_M :=
  unfold try_except, try_catching, with_session, leaving,
    GraphDatabase_driver, run_single, chromadb_HttpClient, chromadb_PersistentClient,
    heartbeat, external, getitem, int, log, raise, print;
  unfold mbind, M_bind, bind, mret, M_ret, ret;
  cbn beta iota.

(** From [uninterrupted h]: an exception that a call raised is caught. *)
Ltac caught Hun :=
  repeat match goal with
  | E : ?call = Raise ?e |- _ =>
      lazymatch goal with
      | _ : isinstance_Exception e = true |- _ => fail
      | _ =>
          let X := fresh "Hcaught" in
          assert (X : catchable call = true)
            by first [ apply (un_subprocess _ Hun) | apply (un_driver _ Hun)
                     | apply (un_session _ Hun) | apply (un_run _ Hun)
                     | apply (un_exit _ Hun) | apply (un_connect _ Hun)
                     | apply (un_heartbeat _ Hun) | apply (un_collection _ Hun) ];
          rewrite E in X; cbn [catchable] in X
      end
  end.

(** Case analysis on the answers of the host, keeping what is caught. *)
Ltac by_answers Hun := repeat (case_match; simplify_eq; caught Hun).

Ltac answered :=
  repeat match goal with
  | E : ?c = _, H : context [?c] |- _ => rewrite E in H
  end;
  cbn in *; try discriminate.

Lemma _initialize_neo4j_returns (h : Host) (logger : string) (p : Proc) :
  uninterrupted h ->
  exists r p', _initialize_neo4j h logger p = (Ok r, p').
Proof.
  intros Hun.
  unfold _initialize_neo4j. unfold_M. fold (configured_driver h).
  by_answers Hun; by do 2 eexists.
Qed.

Lemma _initialize_chromadb_bad_port (h : Host) (logger : string) (p : Proc) :
  configured_port h = None ->
  exists p', _initialize_chromadb h logger p = (Ok None, p') /\ calls p' = calls p.
Proof.
  unfold configured_port. intros Hport.
  unfold _initialize_chromadb. unfold_M. rewrite Hport. cbn.
  eexists. split; [reflexivity|]. by rewrite !calls_logged.
Qed.

Lemma _initialize_chromadb_choice (h : Host) (logger : string) (p : Proc) :
  uninterrupted h ->
  exists p', _initialize_chromadb h logger p = (Ok (chroma_choice h), p').
Proof.
  intros Hun.
  destruct (configured_port h) as [port|] eqn:Hport.
  2:{ destruct (_initialize_chromadb_bad_port h logger p Hport) as (p' & E & _).
      exists p'. unfold chroma_choice. by rewrite Hport. }
  unfold chroma_choice. rewrite Hport.
  unfold server_answers, local_answers.
  unfold configured_port in Hport.
  unfold _initialize_chromadb. unfold_M. rewrite Hport. cbn beta iota.
  fold (server_client h port). fold (local_client h).
  by_answers Hun; cbn; try (by eexists); answered.
Qed.

(** With no variable set, the fixed defaults apply. *)
Lemma configured_defaults (h : Host) :
  environ h = ∅ ->
  configured_driver h = mkDriver "bolt://localhost:7687" ("neo4j", "password")
  /\ configured_port h = Some 8000%Z
  /\ server_client h 8000 = HttpClient "localhost" 8000
  /\ local_client h = PersistentClient "./chroma_data".
Proof.
  intros Hempty.
  unfold configured_driver, configured_port, server_client, local_client, getenv_default.
  rewrite Hempty, !lookup_empty. by cbn.
Qed.

(** Case analysis on the answers of the host, on both sides of an
    equation between the code and its outcome. *)
Ltac by_outcomes :=
  repeat (case_match; simplify_eq; cbn [is_Ok andb isinstance_Exception] in * );
  try discriminate; try (by eexists);
  try (exfalso; rewrite ?andb_true_r, ?andb_false_r in *; cbn in *; congruence).

(** What [_initialize_neo4j] does, on every host. *)
Lemma _initialize_neo4j_outcome (h : Host) (logger : string) (p : Proc) :
  exists p',
    _initialize_neo4j h logger p
    = (match neo4j_interrupted h with
       | Some e => Raise e
       | None => Ok (neo4j_choice h)
       end, p').
Proof.
  unfold neo4j_interrupted, session_interrupted, interrupt, neo4j_choice,
    neo4j_test_passes, test_is_1.
  unfold _initialize_neo4j. unfold_M. fold (configured_driver h).
  by_outcomes.
Qed.

(** What [_initialize_chromadb] does with a port that is an integer, on
    every host. *)
Lemma _initialize_chromadb_outcome (h : Host) (logger : string) (p : Proc) (port : Z) :
  configured_port h = Some port ->
  exists p',
    _initialize_chromadb h logger p
    = (match chroma_interrupted h port with
       | Some e => Raise e
       | None => Ok (chroma_client_for h port)
       end, p').
Proof.
  unfold configured_port. intros Hport.
  unfold chroma_interrupted, server_attempt, interrupt, chroma_client_for,
    server_answers, local_answers.
  unfold _initialize_chromadb. unfold_M. rewrite Hport. cbn beta iota.
  fold (server_client h port). fold (local_client h).
  by_outcomes.
Qed.

(** C6, as stated, fails, in two ways.  A [KeyboardInterrupt] raised while
    the test query runs is not turned into [None]: it leaves
    [_initialize_neo4j].  And with [CHROMADB_PORT=abc],
    [_initialize_chromadb] returns [None] although neither attempt failed:
    no client was tried at all (no external call was made), and both the
    server and the local client would have answered. *)
Lemma interrupt_escapes_and_None_without_attempt :
  fst (_initialize_neo4j interrupted_query_host "autoscheduler.core.schedule" Proc0)
  = Raise KeyboardInterrupt
  /\ fst (_initialize_chromadb bad_port_host "autoscheduler.core.schedule" Proc0) = Ok None
  /\ calls (snd (_initialize_chromadb bad_port_host "autoscheduler.core.schedule" Proc0)) = []
  /\ local_answers bad_port_host = true
  /\ (forall port, server_answers bad_port_host port = true).
Proof. by vm_compute. Qed.

(** C6, amended. The clients are built from the environment with fixed
    defaults.  [_initialize_neo4j] makes the driver from [NEO4J_URI],
    [NEO4J_USERNAME] and [NEO4J_PASSWORD]; it returns that driver exactly
    when the driver is made, the session opens, the test query gives a row
    with 1 and the session closes, and [None] otherwise, also when a step
    raises an exception derived from [Exception].  When [CHROMADB_PORT]
    reads as an integer, [_initialize_chromadb] returns the client of the
    server at [CHROMADB_HOST] and that port when it can be built and its
    heartbeat returns, else the [PersistentClient] at [CHROMADB_DATA_PATH]
    when that can be built, and [None] only when both attempts failed.  In
    both functions a [KeyboardInterrupt] or [SystemExit] raised by a call
    gets out to the caller. *)
Theorem database_clients_from_environment (h : Host) (logger : string) (p : Proc) :
  (exists p',
     _initialize_neo4j h logger p
     = (match neo4j_interrupted h with
        | Some e => Raise e
        | None => Ok (if neo4j_test_passes h then Some (configured_driver h) else None)
        end, p'))
  /\ (forall port,
        configured_port h = Some port ->
        exists p',
          _initialize_chromadb h logger p
          = (match chroma_interrupted h port with
             | Some e => Raise e
             | None =>
                 Ok (if server_answers h port then Some (server_client h port)
                     else if local_answers h then Some (local_client h)
                     else None)
             end, p'))
  /\ (environ h = ∅ ->
        configured_driver h = mkDriver "bolt://localhost:7687" ("neo4j", "password")
        /\ configured_port h = Some 8000%Z
        /\ server_client h 8000 = HttpClient "localhost" 8000
        /\ local_client h = PersistentClient "./chroma_data").
Proof.
  split; [|split].
  - apply _initialize_neo4j_outcome.
  - intros port Hport. by apply _initialize_chromadb_outcome.
  - apply configured_defaults.
Qed.

(** On [local_only_host] the driver is returned, the port is read from
    Arabic-Indic digits, the server fails and the local client is
    returned. *)
Lemma database_clients_on_local_only_host :
  (exists p',
     _initialize_neo4j local_only_host "autoscheduler.core.schedule" Proc0
     = (Ok (Some (mkDriver "bolt://localhost:7687" ("neo4j", "password"))), p'))
  /\ configured_port local_only_host = Some 8001%Z
  /\ (exists p',
        _initialize_chromadb local_only_host "autoscheduler.core.schedule" Proc0
        = (Ok (Some (PersistentClient "./chroma_data")), p')).
Proof.
  destruct (database_clients_from_environment local_only_host
              "autoscheduler.core.schedule" Proc0) as (Hneo4j & Hchroma & _).
  split; [exact Hneo4j|]. split; [reflexivity|].
  apply (Hchroma 8001%Z). reflexivity.
Defined.

(** ** Constructing a schedule *)

Lemma _get_or_create_collection_returns
    (h : Host) (logger : string) (c : option ChromaClient) (name : string) (p : Proc) :
  uninterrupted h ->
  exists r p',
    _get_or_create_collection h logger c name p = (Ok r, p')
    /\ (c = None -> r = None).
Proof.
  intros Hun. unfold _get_or_create_collection.
  destruct c as [client|]; [|by do 2 eexists].
  unfold_M. by_answers Hun; by do 2 eexists.
Qed.

Lemma Schedule_init_returns (h : Host) (p : Proc) :
  uninterrupted h ->
  exists s p', Schedule_init h p = (Ok s, p') /\ embeddings_need_client s.
Proof.
  intros Hun. unfold Schedule_init.
  erewrite bind_run by reflexivity.
  erewrite bind_run by reflexivity.
  match goal with |- context [ (_initialize_neo4j h ?l ≫= _) ?q ] =>
    destruct (_initialize_neo4j_returns h l q Hun) as (db & p1 & E1)
  end.
  erewrite bind_run by exact E1.
  destruct (_initialize_chromadb_choice h "autoscheduler.core.schedule" p1 Hun)
    as (p2 & E2).
  erewrite bind_run by exact E2.
  erewrite bind_run by reflexivity.
  match goal with |- context [ (_get_or_create_collection h ?l ?c ?n ≫= _) ?q ] =>
    destruct (_get_or_create_collection_returns h l c n q Hun) as (a & p3 & E3 & Ha)
  end.
  erewrite bind_run by exact E3.
  match goal with |- context [ (_get_or_create_collection h ?l ?c ?n ≫= _) ?q ] =>
    destruct (_get_or_create_collection_returns h l c n q Hun) as (r & p4 & E4 & Hr)
  end.
  erewrite bind_run by exact E4.
  erewrite bind_run by reflexivity.
  do 2 eexists. split; [reflexivity|].
  intros Hnone. cbn in Hnone. split; cbn; auto.
Qed.

Lemma is_neo4j_connected_returns (h : Host) (s : Schedule) (p : Proc) :
  uninterrupted h ->
  exists b p',
    is_neo4j_connected h s p = (Ok b, p')
    /\ (neo4j_db s = None -> b = false)
    /\ (forall d, neo4j_db s = Some d -> session_works h d = false -> b = false).
Proof.
  intros Hun. unfold is_neo4j_connected, session_works.
  destruct (neo4j_db s) as [d|].
  - unfold_M.
    by_answers Hun; do 2 eexists; (split; [reflexivity|]);
      (split; [done|]); intros ? [= <-] Hno; try done; answered.
  - do 2 eexists. split; [reflexivity|]. by split.
Qed.

Lemma is_chromadb_connected_returns (h : Host) (s : Schedule) (p : Proc) :
  uninterrupted h ->
  exists b p',
    is_chromadb_connected h s p = (Ok b, p')
    /\ (chroma_client s = None -> b = false)
    /\ (forall c, chroma_client s = Some c ->
          is_Ok (chroma_heartbeat h c) = false -> b = false).
Proof.
  intros Hun. unfold is_chromadb_connected.
  destruct (chroma_client s) as [c|].
  - unfold_M.
    by_answers Hun; do 2 eexists; (split; [reflexivity|]);
      (split; [done|]); intros ? [= <-] Hno; try done; answered.
  - do 2 eexists. split; [reflexivity|]. by split.
Qed.

(** What is caught is no interrupt. *)
Lemma interrupt_catchable {A} (r : result A) : catchable r = true -> interrupt r = None.
Proof. destruct r as [a|e]; cbn; [done|]. by intros ->. Qed.

Lemma session_uninterrupted (h : Host) (d : Driver) (query : string) :
  uninterrupted h -> session_interrupted h d query = None.
Proof.
  intros Hun. unfold session_interrupted.
  pose proof (interrupt_catchable _ (un_session _ Hun d)) as Hs.
  pose proof (interrupt_catchable _ (un_exit _ Hun (mkSession d))) as Hx.
  pose proof (interrupt_catchable _ (un_run _ Hun (mkSession d) query)) as Hr.
  repeat case_match; congruence.
Qed.

Lemma chroma_uninterrupted (h : Host) (port : Z) :
  uninterrupted h -> chroma_interrupted h port = None.
Proof.
  intros Hun. unfold chroma_interrupted, server_attempt.
  pose proof (un_connect _ Hun (server_client h port)) as Hc.
  pose proof (un_heartbeat _ Hun (server_client h port)) as Hb.
  pose proof (un_connect _ Hun (local_client h)) as Hl.
  repeat case_match; simplify_eq;
    repeat match goal with
    | E : ?c = _, H : context [?c] |- _ => rewrite E in H
    end;
    cbn in *; try done; try congruence;
    by apply interrupt_catchable.
Qed.

(** On a host whose calls are not interrupted, nothing gets out of
    [Schedule()]. *)
Lemma schedule_uninterrupted (h : Host) :
  uninterrupted h -> schedule_interrupted h = None.
Proof.
  intros Hun. unfold schedule_interrupted, first_of, neo4j_interrupted.
  rewrite session_uninterrupted by done.
  rewrite (interrupt_catchable _ (un_driver _ Hun (configured_driver h))).
  replace (match configured_port h with
           | Some port => chroma_interrupted h port
           | None => None
           end) with (@None exn)
    by (destruct (configured_port h); [by rewrite chroma_uninterrupted|done]).
  unfold collection_interrupted.
  destruct (neo4j_driver h _), (chroma_choice h) as [c|]; cbn; try done;
    by rewrite !(interrupt_catchable _ (un_collection _ Hun _ _ _)).
Qed.

(** What [_initialize_chromadb] does, on every host. *)
Lemma _initialize_chromadb_any (h : Host) (logger : string) (p : Proc) :
  exists p',
    _initialize_chromadb h logger p
    = (match match configured_port h with
             | Some port => chroma_interrupted h port
             | None => None
             end with
       | Some e => Raise e
       | None => Ok (chroma_choice h)
       end, p').
Proof.
  unfold chroma_choice.
  destruct (configured_port h) as [port|] eqn:Hport.
  - by apply _initialize_chromadb_outcome.
  - destruct (_initialize_chromadb_bad_port h logger p Hport) as (p' & E & _). by exists p'.
Qed.

(** What [_get_or_create_collection] does, on every host. *)
Lemma _get_or_create_collection_outcome
    (h : Host) (logger : string) (c : option ChromaClient) (name : string) (p : Proc) :
  exists p',
    _get_or_create_collection h logger c name p
    = (match collection_interrupted h c name with
       | Some e => Raise e
       | None => Ok (collection_choice h c name)
       end, p').
Proof.
  unfold collection_interrupted, collection_choice, collection_on, interrupt.
  unfold _get_or_create_collection. cbn [collection_name collection_metadata].
  destruct c as [client|]; [|by eexists].
  unfold_M. by_outcomes.
Qed.

(** What [Schedule()] does, on every host. *)
Lemma Schedule_init_outcome (h : Host) (p : Proc) :
  exists p',
    Schedule_init h p
    = (match schedule_interrupted h with
       | Some e => Raise e
       | None => Ok (schedule_on h)
       end, p').
Proof.
  unfold Schedule_init, schedule_interrupted, first_of, schedule_on.
  erewrite bind_run by reflexivity.
  erewrite bind_run by reflexivity.
  match goal with |- context [ (_initialize_neo4j h ?l ≫= _) ?q ] =>
    destruct (_initialize_neo4j_outcome h l q) as (p1 & E1)
  end.
  destruct (neo4j_interrupted h) as [e|].
  { unfold mbind, M_bind, bind. rewrite E1. by eexists. }
  erewrite bind_run by exact E1.
  destruct (_initialize_chromadb_any h "autoscheduler.core.schedule" p1) as (p2 & E2).
  destruct (match configured_port h with Some _ => _ | None => _ end) as [e|].
  { unfold mbind, M_bind, bind. rewrite E2. by eexists. }
  erewrite bind_run by exact E2.
  erewrite bind_run by reflexivity.
  match goal with |- context [ (_get_or_create_collection h ?l ?c ?n ≫= _) ?q ] =>
    destruct (_get_or_create_collection_outcome h l c n q) as (p3 & E3)
  end.
  destruct (collection_interrupted h (chroma_choice h) "activities") as [e|].
  { unfold mbind, M_bind, bind. rewrite E3. by eexists. }
  erewrite bind_run by exact E3.
  match goal with |- context [ (_get_or_create_collection h ?l ?c ?n ≫= _) ?q ] =>
    destruct (_get_or_create_collection_outcome h l c n q) as (p4 & E4)
  end.
  destruct (collection_interrupted h (chroma_choice h) "relationships") as [e|].
  { unfold mbind, M_bind, bind. rewrite E4. by eexists. }
  erewrite bind_run by exact E4.
  erewrite bind_run by reflexivity.
  by eexists.
Qed.

Lemma schedule_on_needs_client (h : Host) : embeddings_need_client (schedule_on h).
Proof. unfold embeddings_need_client, schedule_on. cbn. by intros ->. Qed.

(** What the two connection checks do, on every host. *)
Lemma is_neo4j_connected_outcome (h : Host) (s : Schedule) (p : Proc) :
  exists p',
    is_neo4j_connected h s p
    = (match neo4j_db s with
       | None => Ok false
       | Some d =>
           match session_interrupted h d "RETURN 1" with
           | Some e => Raise e
           | None => Ok (session_works h d)
           end
       end, p').
Proof.
  unfold is_neo4j_connected, session_interrupted, session_works, interrupt.
  destruct (neo4j_db s) as [d|]; [|by eexists].
  unfold_M. by_outcomes.
Qed.

Lemma is_chromadb_connected_outcome (h : Host) (s : Schedule) (p : Proc) :
  exists p',
    is_chromadb_connected h s p
    = (match chroma_client s with
       | None => Ok false
       | Some c =>
           match interrupt (chroma_heartbeat h c) with
           | Some e => Raise e
           | None => Ok (is_Ok (chroma_heartbeat h c))
           end
       end, p').
Proof.
  unfold is_chromadb_connected, interrupt.
  destruct (chroma_client s) as [c|]; [|by eexists].
  unfold_M. by_outcomes.
Qed.

(** C10, as stated, fails: no database answers on
    [interrupted_query_host], and [Schedule()] does not succeed there; on
    a schedule that has a driver, [is_neo4j_connected] raises instead of
    returning [False].  The [KeyboardInterrupt] of the user who stops
    waiting for Neo4j passes the handlers, which catch [Exception]. *)
Lemma Schedule_init_interrupted :
  fst (Schedule_init interrupted_query_host Proc0) = Raise KeyboardInterrupt
  /\ neo4j_db online_schedule = Some (mkDriver "bolt://localhost:7687" ("neo4j", "password"))
  /\ fst (is_neo4j_connected interrupted_query_host online_schedule Proc0)
     = Raise KeyboardInterrupt.
Proof. by vm_compute. Qed.

(** C10, amended. [Schedule()] returns an instance unless a call that it
    makes is interrupted by [KeyboardInterrupt] or [SystemExit], which gets
    out to the caller; so it returns even when neither database can be
    reached, as long as what their calls raise derives from [Exception].
    On that instance a missing [chroma_client] means that both
    [activities_embeddings] and [relationships_embeddings] are missing, and
    the methods of [Schedule] keep it so.  On any schedule,
    [is_neo4j_connected] and [is_chromadb_connected] return [False] when
    the client is [None]; with a client they return whether the check went
    through, [False] when a step of it raised an exception derived from
    [Exception], and only an interrupt of the check gets out. *)
Theorem Schedule_init_survives_unreachable (h : Host) (p : Proc) :
  (exists p',
     Schedule_init h p
     = (match schedule_interrupted h with
        | Some e => Raise e
        | None => Ok (schedule_on h)
        end, p'))
  /\ embeddings_need_client (schedule_on h)
  /\ (uninterrupted h -> schedule_interrupted h = None)
  /\ (forall (s : Schedule) (x : Py.value),
        embeddings_need_client s ->
        Forall (fun method : Schedule -> M (bool * Schedule) =>
                  forall q, exists b s' q',
                    method s q = (Ok (b, s'), q') /\ embeddings_need_client s')
          [add_activity x; remove_activity x; add_relationship x;
           remove_relationship x; update_graph]
        /\ Forall (fun method : Schedule -> M (list Py.value * Schedule) =>
                     forall q, exists l s' q',
                       method s q = (Ok (l, s'), q') /\ embeddings_need_client s')
             [compute_critical_path; get_activities; get_relationships;
              semantic_search_activities x; semantic_search_relationships x])
  /\ (forall (s : Schedule) (q : Proc),
        (exists q',
           is_neo4j_connected h s q
           = (match neo4j_db s with
              | None => Ok false
              | Some d =>
                  match session_interrupted h d "RETURN 1" with
                  | Some e => Raise e
                  | None => Ok (session_works h d)
                  end
              end, q'))
        /\ (exists q',
              is_chromadb_connected h s q
              = (match chroma_client s with
                 | None => Ok false
                 | Some c =>
                     match interrupt (chroma_heartbeat h c) with
                     | Some e => Raise e
                     | None => Ok (is_Ok (chroma_heartbeat h c))
                     end
                 end, q'))).
Proof.
  split; [|split; [|split; [|split]]].
  - apply Schedule_init_outcome.
  - apply schedule_on_needs_client.
  - apply schedule_uninterrupted.
  - intros s x Hinv.
    split; each_of; intros q; do 3 eexists; (split; [reflexivity|exact Hinv]).
  - intros s q. split.
    + apply is_neo4j_connected_outcome.
    + apply is_chromadb_connected_outcome.
Qed.

(** On [bare_host] neither database answers, nothing is interrupted, and
    [Schedule()] returns an instance without clients. *)
Lemma Schedule_init_on_bare_host :
  neo4j_answers bare_host = false
  /\ chroma_choice bare_host = None
  /\ exists p',
       Schedule_init bare_host Proc0
       = (Ok (mkSchedule "autoscheduler.core.schedule" None None DiGraph_new None None), p').
Proof.
  split; [reflexivity|]. split; [reflexivity|].
  destruct (Schedule_init_survives_unreachable bare_host Proc0) as (Hinit & _).
  exact Hinit.
Defined.

(** What [Schedule()] gives on the two hosts. *)
Example Schedule_init_bare :
  fst (Schedule_init bare_host Proc0)
  = Ok (mkSchedule "autoscheduler.core.schedule" None None DiGraph_new None None).
Proof. reflexivity. Qed.

Example Schedule_init_healthy :
  chroma_client <$> (match fst (Schedule_init healthy_host Proc0) with
                     | Ok s => Some s
                     | Raise _ => None
                     end)
  = Some (Some (HttpClient "localhost" 8000)).
Proof. reflexivity. Qed.

(** ** Starting the containers *)

Lemma wait_for_health_round (h : Host) (gas max_wait elapsed : nat) (p : Proc) :
  elapsed < max_wait ->
  still_waiting (poll h (clock p + 5)) = true ->
  wait_for_health h (S gas) max_wait elapsed p
  = wait_for_health h gas max_wait (elapsed + 5) (waited max_wait elapsed p).
Proof.
  intros Hlt Hwait. cbn [wait_for_health].
  apply Nat.ltb_lt in Hlt. rewrite Hlt. cbn [negb].
  unfold still_waiting, poll in Hwait.
  unfold mbind, M_bind, bind, sleep, run, external. cbn [clock].
  destruct (subprocess_run h (clock p + 5) inspect_health) as [cp|e]; [|done].
  cbn in Hwait. apply negb_true_iff in Hwait. rewrite Hwait.
  reflexivity.
Qed.

Lemma wait_for_health_ready_now (h : Host) (gas max_wait elapsed : nat) (p : Proc) :
  elapsed < max_wait ->
  reports_healthy (poll h (clock p + 5)) = true ->
  wait_for_health h (S gas) max_wait elapsed p
  = (Ok (Some true),
     emit (Print "Services are ready!")
       (emit (Call "subprocess.run" inspect_health)
          (mkProc (clock p + 5) (events p ++ [Sleep 5]) (loggers p)))).
Proof.
  intros Hlt Hready. cbn [wait_for_health].
  apply Nat.ltb_lt in Hlt. rewrite Hlt. cbn [negb].
  unfold poll in Hready.
  unfold mbind, M_bind, bind, sleep, run, external. cbn [clock].
  destruct (subprocess_run h (clock p + 5) inspect_health) as [cp|e]; [|done].
  cbn in Hready. rewrite Hready.
  reflexivity.
Qed.

Lemma waited_facts (max_wait elapsed : nat) (p : Proc) :
  clock (waited max_wait elapsed p) = clock p + 5
  /\ sleeps (waited max_wait elapsed p) = (sleeps p ++ [5])%list
  /\ calls (waited max_wait elapsed p) = (calls p ++ [inspect_call])%list.
Proof.
  unfold waited. rewrite !sleeps_emit, !calls_emit. cbn [clock emit].
  rewrite !app_nil_r. split; [done|].
  unfold sleeps, calls. cbn [events]. rewrite !omap_app. cbn.
  by rewrite !app_nil_r.
Qed.

(** After [n] rounds of waiting, the round that sees 'healthy' returns
    [True]. *)
Lemma wait_for_health_ready (h : Host) (n : nat) :
  forall (gas max_wait elapsed : nat) (p : Proc),
    (forall j, j < n -> still_waiting (poll h (clock p + 5 + 5 * j)) = true) ->
    reports_healthy (poll h (clock p + 5 + 5 * n)) = true ->
    elapsed + 5 * n < max_wait ->
    n < gas ->
    exists p',
      wait_for_health h gas max_wait elapsed p = (Ok (Some true), p')
      /\ clock p' = clock p + 5 + 5 * n
      /\ sleeps p' = (sleeps p ++ replicate (S n) 5)%list
      /\ calls p' = (calls p ++ replicate (S n) inspect_call)%list
      /\ last (stdout p') = Some "Services are ready!".
Proof.
  induction n as [|n IH]; intros gas max_wait elapsed p Hwait Hready Hlt Hgas.
  - destruct gas as [|gas]; [lia|].
    rewrite Nat.add_0_r in Hready.
    rewrite wait_for_health_ready_now by (done || lia).
    eexists. split; [reflexivity|].
    rewrite sleeps_emit, calls_emit, sleeps_emit, calls_emit, stdout_emit_Print.
    cbn [clock emit]. rewrite !app_nil_r.
    split; [lia|].
    unfold sleeps, calls. cbn [events]. rewrite !omap_app. cbn.
    rewrite !app_nil_r. repeat split. apply last_snoc.
  - destruct gas as [|gas]; [lia|].
    rewrite wait_for_health_round; [|lia|].
    2:{ specialize (Hwait 0). rewrite Nat.add_0_r in Hwait. apply Hwait. lia. }
    destruct (waited_facts max_wait elapsed p) as (Hclock & Hsleeps & Hcalls).
    destruct (IH gas max_wait (elapsed + 5) (waited max_wait elapsed p))
      as (p' & Hrun & Hc & Hs & Hk & Hout).
    + intros j Hj. rewrite Hclock.
      replace (clock p + 5 + 5 + 5 * j) with (clock p + 5 + 5 * S j) by lia.
      apply Hwait. lia.
    + rewrite Hclock.
      replace (clock p + 5 + 5 + 5 * n) with (clock p + 5 + 5 * S n) by lia.
      exact Hready.
    + lia.
    + lia.
    + exists p'. split; [done|].
      rewrite Hc, Hs, Hk, Hclock, Hsleeps, Hcalls.
      split; [lia|]. cbn [replicate]. rewrite <- !app_assoc. by cbn.
Qed.

(** Rounds that all wait until [max_wait] is reached end the loop. *)
Lemma wait_for_health_timeout (h : Host) (n : nat) :
  forall (gas max_wait elapsed : nat) (p : Proc),
    (forall j, j < n -> still_waiting (poll h (clock p + 5 + 5 * j)) = true) ->
    max_wait <= elapsed + 5 * n ->
    (forall j, j < n -> elapsed + 5 * j < max_wait) ->
    n <= gas ->
    exists p',
      wait_for_health h gas max_wait elapsed p = (Ok None, p')
      /\ clock p' = clock p + 5 * n
      /\ sleeps p' = (sleeps p ++ replicate n 5)%list
      /\ calls p' = (calls p ++ replicate n inspect_call)%list.
Proof.
  induction n as [|n IH]; intros gas max_wait elapsed p Hwait Hend Hin Hgas.
  - exists p. rewrite !app_nil_r, Nat.add_0_r. split; [|done].
    assert (Hge : (elapsed <? max_wait)%nat = false) by (apply Nat.ltb_ge; lia).
    destruct gas; cbn [wait_for_health]; by rewrite Hge.
  - destruct gas as [|gas]; [lia|].
    rewrite wait_for_health_round.
    2:{ specialize (Hin 0). lia. }
    2:{ specialize (Hwait 0). rewrite Nat.add_0_r in Hwait. apply Hwait. lia. }
    destruct (waited_facts max_wait elapsed p) as (Hclock & Hsleeps & Hcalls).
    destruct (IH gas max_wait (elapsed + 5) (waited max_wait elapsed p))
      as (p' & Hrun & Hc & Hs & Hk).
    + intros j Hj. rewrite Hclock.
      replace (clock p + 5 + 5 + 5 * j) with (clock p + 5 + 5 * S j) by lia.
      apply Hwait. lia.
    + lia.
    + intros j Hj. specialize (Hin (S j)). lia.
    + lia.
    + exists p'. split; [done|].
      rewrite Hc, Hs, Hk, Hclock, Hsleeps, Hcalls.
      split; [lia|]. cbn [replicate]. rewrite <- !app_assoc. by cbn.
Qed.

(** One round, whatever the answer. *)
Lemma wait_for_health_unfold (h : Host) (gas max_wait elapsed : nat) (p : Proc) :
  elapsed < max_wait ->
  wait_for_health h (S gas) max_wait elapsed p
  = match poll h (clock p + 5) with
    | Ok cp =>
        if reports_healthy (Ok cp)
        then (Ok (Some true),
              emit (Print "Services are ready!")
                (emit (Call "subprocess.run" inspect_health)
                   (mkProc (clock p + 5) (events p ++ [Sleep 5]) (loggers p))))
        else wait_for_health h gas max_wait (elapsed + 5) (waited max_wait elapsed p)
    | Raise e =>
        (Raise e,
         emit (Call "subprocess.run" inspect_health)
           (mkProc (clock p + 5) (events p ++ [Sleep 5]) (loggers p)))
    end.
Proof.
  intros Hlt. cbn [wait_for_health].
  apply Nat.ltb_lt in Hlt. rewrite Hlt. cbn [negb].
  unfold poll, mbind, M_bind, bind, sleep, run, external. cbn [clock].
  destruct (subprocess_run h (clock p + 5) inspect_health) as [cp|e]; [|done].
  cbn [reports_healthy]. by destruct (_ && _).
Qed.

(** The loop never returns [False]. *)
Lemma wait_for_health_not_False (h : Host) (gas : nat) :
  forall (max_wait elapsed : nat) (p p' : Proc) (b : bool),
    wait_for_health h gas max_wait elapsed p = (Ok (Some b), p') -> b = true.
Proof.
  induction gas as [|gas IH]; intros max_wait elapsed p p' b.
  - cbn [wait_for_health]. by destruct (negb _).
  - destruct (Nat.ltb_spec elapsed max_wait) as [Hlt|Hge].
    + rewrite wait_for_health_unfold by done.
      destruct (poll h _) as [cp|e]; [|done].
      destruct (reports_healthy _); [by intros [= <-]|]. apply IH.
    + cbn [wait_for_health].
      assert (Hf : (elapsed <? max_wait)%nat = false) by (by apply Nat.ltb_ge).
      by rewrite Hf.
Qed.

(** An exception that leaves the loop was raised by a health check made
    while [elapsed < max_wait]. *)
Lemma wait_for_health_raises (h : Host) (gas : nat) :
  forall (max_wait elapsed : nat) (p p' : Proc) (e : exn),
    wait_for_health h gas max_wait elapsed p = (Raise e, p') ->
    exists k, poll h (clock p + 5 + 5 * k) = Raise e /\ elapsed + 5 * k < max_wait.
Proof.
  induction gas as [|gas IH]; intros max_wait elapsed p p' e.
  - cbn [wait_for_health]. by destruct (negb _).
  - destruct (Nat.ltb_spec elapsed max_wait) as [Hlt|Hge].
    + rewrite wait_for_health_unfold by done.
      destruct (poll h (clock p + 5)) as [cp|e'] eqn:Hpoll.
      * destruct (reports_healthy _); [done|].
        intros Hrun. apply IH in Hrun as (k & Hk & Hlt').
        destruct (waited_facts max_wait elapsed p) as (Hclock & _).
        rewrite Hclock in Hk.
        exists (S k). split; [|lia].
        by replace (clock p + 5 + 5 * S k) with (clock p + 5 + 5 + 5 * k) by lia.
      * intros [= <- <-]. exists 0. rewrite Nat.add_0_r. split; [done|lia].
    + cbn [wait_for_health].
      assert (Hf : (elapsed <? max_wait)%nat = false) by (by apply Nat.ltb_ge).
      by rewrite Hf.
Qed.

(** The loop ends by its own test: gas beyond [max_wait - elapsed] changes
    nothing. *)
Lemma wait_for_health_gas (h : Host) (gas : nat) :
  forall (gas' max_wait elapsed : nat) (p : Proc),
    max_wait - elapsed <= gas ->
    max_wait - elapsed <= gas' ->
    wait_for_health h gas max_wait elapsed p = wait_for_health h gas' max_wait elapsed p.
Proof.
  induction gas as [|gas IH]; intros gas' max_wait elapsed p Hgas Hgas'.
  - assert (Hf : (elapsed <? max_wait)%nat = false) by (apply Nat.ltb_ge; lia).
    destruct gas'; cbn [wait_for_health]; by rewrite Hf.
  - destruct (Nat.ltb_spec elapsed max_wait) as [Hlt|Hge].
    + destruct gas' as [|gas']; [lia|].
      rewrite !wait_for_health_unfold by done.
      destruct (poll h _); [|done].
      destruct (reports_healthy _); [done|].
      apply IH; lia.
    + assert (Hf : (elapsed <? max_wait)%nat = false) by (by apply Nat.ltb_ge).
      destruct gas'; cbn [wait_for_health]; by rewrite Hf.
Qed.

Lemma started_facts (p : Proc) (missing : list string) :
  clock (started p missing) = clock p + 10
  /\ sleeps (started p missing) = (sleeps p ++ [10])%list
  /\ calls (started p missing)
     = (calls p ++ [("subprocess.run", compose_version); ("subprocess.run", compose_ps);
                    ("subprocess.run", compose_up missing)])%list.
Proof.
  unfold started. split; [done|].
  unfold sleeps, calls, emit. cbn [events].
  rewrite !omap_app. cbn. rewrite !app_nil_r, <- !app_assoc. by cbn.
Qed.

Ltac run_steps :=
  cbv [docker_steps mbind M_bind bind run external print sleep mret M_ret ret];
  cbn [clock emit].

Lemma docker_steps_started
    (h : Host) (p : Proc) (v r u : CompletedProcess) (missing : list string) :
  subprocess_run h (clock p) compose_version = Ok v ->
  returncode v = 0%Z ->
  subprocess_run h (clock p) compose_ps = Ok r ->
  services_to_start (cp_stdout r) = missing ->
  missing <> [] ->
  subprocess_run h (clock p) (compose_up missing) = Ok u ->
  returncode u = 0%Z ->
  docker_steps h p
  = match wait_for_health h (60 - 10) 60 10 (started p missing) with
    | (Ok (Some b), p') => (Ok b, p')
    | (Ok None, p') =>
        (Ok true,
         emit (Print "Warning: Services may not be fully ready, but continuing anyway.") p')
    | (Raise e, p') => (Raise e, p')
    end.
Proof.
  intros Hv Hv0 Hps Hmissing Hsome Hup Hu0.
  unfold compose_version, compose_ps, compose_up in *.
  run_steps.
  rewrite Hv. cbv beta iota. rewrite Hv0. cbn [Z.eqb negb].
  rewrite !clock_emit, Hps. cbv beta iota. rewrite Hmissing.
  destruct missing as [|m ms]; [done|].
  rewrite !clock_emit, Hup. cbv beta iota. rewrite Hu0. cbn [Z.eqb negb].
  unfold started, compose_version, compose_ps, compose_up. cbn [clock emit events loggers].
  by repeat case_match.
Qed.

(** An exception that leaves the steps was raised by a command. *)
Ltac on_answer H :=
  rewrite ?clock_emit;
  match goal with
  | |- context [match subprocess_run ?h ?t ?a with _ => _ end] =>
      destruct (subprocess_run h t a) as [?cp|?e] eqn:H; cbv beta iota
  end.

Lemma docker_steps_raises (h : Host) (p p' : Proc) (e : exn) :
  docker_steps h p = (Raise e, p') ->
  exists t argv, subprocess_run h t argv = Raise e.
Proof.
  run_steps.
  on_answer Hv; [|intros ?; simplify_eq; eauto].
  destruct (negb _); [done|].
  on_answer Hps; [|intros ?; simplify_eq; eauto].
  destruct (services_to_start _) as [|m ms]; [done|].
  on_answer Hup; [|intros ?; simplify_eq; eauto].
  destruct (negb _); [done|].
  match goal with |- context [wait_for_health h ?g ?m ?el ?q] =>
    destruct (wait_for_health h g m el q) as [[[b|]|e4] q'] eqn:Hwait
  end; cbv beta iota; try done.
  intros ?; simplify_eq.
  apply wait_for_health_raises in Hwait as (k & Hk & _). unfold poll in Hk. eauto.
Qed.

(** [False] comes from [docker-compose --version] or the start-up not
    returning 0, or from an exception raised by [docker-compose ps] or by
    one of the ten health checks. *)
Lemma check_docker_containers_False (h : Host) (p p' : Proc) :
  check_docker_containers h p = (Ok false, p') ->
  exits_0 (subprocess_run h (clock p) compose_version) = false
  \/ is_Ok (subprocess_run h (clock p) compose_ps) = false
  \/ (exists r,
        subprocess_run h (clock p) compose_ps = Ok r
        /\ exits_0 (subprocess_run h (clock p)
                      (compose_up (services_to_start (cp_stdout r)))) = false)
  \/ (exists k, k < 10 /\ is_Ok (poll h (clock p + 10 + 5 * S k)) = false).
Proof.
  unfold check_docker_containers, try_except, try_catching.
  unfold compose_version, compose_ps, compose_up, exits_0.
  run_steps.
  on_answer Hv; [|by left].
  destruct (returncode cp =? 0)%Z eqn:Hv0; cbn [negb]; [|by left].
  on_answer Hps; [|by right; left].
  destruct (services_to_start _) as [|m ms] eqn:Hmissing; [done|].
  on_answer Hup.
  2:{ intros _. right. right. left. exists cp0. split; [done|]. by rewrite Hmissing, Hup. }
  destruct (returncode cp1 =? 0)%Z eqn:Hu0; cbn [negb].
  2:{ intros _. right. right. left. exists cp0. split; [done|]. by rewrite Hmissing, Hup. }
  match goal with |- context [wait_for_health h ?g ?m ?el ?q] =>
    destruct (wait_for_health h g m el q) as [[[b|]|e4] q'] eqn:Hwait
  end; cbv beta iota; try done.
  - intros ?; simplify_eq. by apply wait_for_health_not_False in Hwait.
  - intros _. right. right. right.
    apply wait_for_health_raises in Hwait as (k & Hk & Hlt).
    cbn [clock] in Hk. rewrite !clock_emit in Hk.
    exists k. split; [lia|].
    replace (clock p + 10 + 5 * S k) with (clock p + 10 + 5 + 5 * k) by lia.
    by rewrite Hk.
Qed.

(** C7, as stated, fails: [docker-compose] is there and the start-up
    command succeeds, yet the function returns [False], because
    [docker inspect] raised and the handler turned that into [False]. *)
Lemma False_with_compose_and_startup_fine :
  fst (check_docker_containers no_docker_cli_host Proc0) = Ok false
  /\ exits_0 (subprocess_run no_docker_cli_host 0 compose_version) = true
  /\ exits_0 (subprocess_run no_docker_cli_host 0 (compose_up ["neo4j"; "chromadb"])) = true.
Proof. by vm_compute. Qed.

(** C7, amended. When [docker-compose --version] returns 0 and some
    required service is not listed as running, the missing services are
    started with [docker-compose up -d]; when that returns 0 the function
    waits 10 seconds and then checks the health of [autoscheduler-neo4j]
    with [docker inspect] every 5 seconds.  It returns [True] at the first
    check that says 'healthy', and after ten checks that do not (60 seconds)
    it prints a warning and returns [True] all the same.  For every host,
    it returns [False] only when [docker-compose --version] or the start-up
    command does not return 0, or when [docker-compose ps] or a health
    check raises an exception. *)
Theorem check_docker_containers_starts_and_polls
    (h : Host) (p : Proc) (v r u : CompletedProcess) (missing : list string) :
  subprocess_run h (clock p) compose_version = Ok v ->
  returncode v = 0%Z ->
  subprocess_run h (clock p) compose_ps = Ok r ->
  services_to_start (cp_stdout r) = missing ->
  missing <> [] ->
  subprocess_run h (clock p) (compose_up missing) = Ok u ->
  returncode u = 0%Z ->
  (forall n, n < 10 ->
     (forall j, j < n -> still_waiting (poll h (clock p + 10 + 5 * S j)) = true) ->
     reports_healthy (poll h (clock p + 10 + 5 * S n)) = true ->
     exists p',
       check_docker_containers h p = (Ok true, p')
       /\ clock p' = clock p + 10 + 5 * S n
       /\ sleeps p' = (sleeps p ++ 10 :: replicate (S n) 5)%list
       /\ calls p'
          = (calls p
             ++ [("subprocess.run", compose_version); ("subprocess.run", compose_ps);
                 ("subprocess.run", compose_up missing)]
             ++ replicate (S n) inspect_call)%list
       /\ last (stdout p') = Some "Services are ready!")
  /\ ((forall j, j < 10 -> still_waiting (poll h (clock p + 10 + 5 * S j)) = true) ->
      exists p',
        check_docker_containers h p = (Ok true, p')
        /\ clock p' = clock p + 60
        /\ sleeps p' = (sleeps p ++ 10 :: replicate 10 5)%list
        /\ calls p'
           = (calls p
              ++ [("subprocess.run", compose_version); ("subprocess.run", compose_ps);
                  ("subprocess.run", compose_up missing)]
              ++ replicate 10 inspect_call)%list
        /\ last (stdout p')
           = Some "Warning: Services may not be fully ready, but continuing anyway.")
  /\ (forall (h' : Host) (q q' : Proc),
        check_docker_containers h' q = (Ok false, q') ->
        exits_0 (subprocess_run h' (clock q) compose_version) = false
        \/ is_Ok (subprocess_run h' (clock q) compose_ps) = false
        \/ (exists r',
              subprocess_run h' (clock q) compose_ps = Ok r'
              /\ exits_0 (subprocess_run h' (clock q)
                            (compose_up (services_to_start (cp_stdout r')))) = false)
        \/ (exists k, k < 10 /\ is_Ok (poll h' (clock q + 10 + 5 * S k)) = false)).
Proof.
  intros Hv Hv0 Hps Hmissing Hsome Hup Hu0.
  pose proof (docker_steps_started h p v r u missing Hv Hv0 Hps Hmissing Hsome Hup Hu0)
    as Hsteps.
  destruct (started_facts p missing) as (Hclock & Hsleeps & Hcalls).
  split; [|split].
  - intros n Hn Hwait Hready.
    destruct (wait_for_health_ready h n (60 - 10) 60 10 (started p missing))
      as (p' & Hrun & Hc & Hs & Hk & Hout).
    + intros j Hj. rewrite Hclock.
      replace (clock p + 10 + 5 + 5 * j) with (clock p + 10 + 5 * S j) by lia.
      by apply Hwait.
    + rewrite Hclock.
      by replace (clock p + 10 + 5 + 5 * n) with (clock p + 10 + 5 * S n) by lia.
    + lia.
    + cbn. lia.
    + exists p'. rewrite Hrun in Hsteps.
      unfold check_docker_containers, try_except, try_catching. rewrite Hsteps.
      split; [done|].
      rewrite Hc, Hs, Hk, Hclock, Hsleeps, Hcalls, Hout, <- !app_assoc.
      repeat split. lia.
  - intros Hwait.
    destruct (wait_for_health_timeout h 10 (60 - 10) 60 10 (started p missing))
      as (p' & Hrun & Hc & Hs & Hk).
    + intros j Hj. rewrite Hclock.
      replace (clock p + 10 + 5 + 5 * j) with (clock p + 10 + 5 * S j) by lia.
      by apply Hwait.
    + lia.
    + intros j Hj. lia.
    + cbn. lia.
    + eexists. rewrite Hrun in Hsteps.
      unfold check_docker_containers, try_except, try_catching. rewrite Hsteps.
      split; [done|].
      rewrite stdout_emit_Print, sleeps_emit, calls_emit, app_nil_r, app_nil_r.
      cbn [clock emit].
      rewrite Hc, Hs, Hk, Hclock, Hsleeps, Hcalls, <- !app_assoc.
      repeat split; [lia|]. apply last_snoc.
  - intros h' q q'. apply check_docker_containers_False.
Qed.

(** On [slow_host] the fourth health check, thirty seconds after the
    start, is the first that says 'healthy'. *)
Lemma check_docker_containers_on_slow_host :
  exists p',
    check_docker_containers slow_host Proc0 = (Ok true, p')
    /\ clock p' = 30
    /\ sleeps p' = [10; 5; 5; 5; 5]
    /\ calls p'
       = [("subprocess.run", compose_version); ("subprocess.run", compose_ps);
          ("subprocess.run", compose_up ["neo4j"; "chromadb"]);
          inspect_call; inspect_call; inspect_call; inspect_call]
    /\ last (stdout p') = Some "Services are ready!".
Proof.
  destruct (check_docker_containers_starts_and_polls slow_host Proc0
              (mkCompleted 0 "" "") (mkCompleted 0 "" "") (mkCompleted 0 "" "")
              ["neo4j"; "chromadb"])
    as (Hready & _); try reflexivity; try discriminate.
  apply (Hready 3); [lia| |reflexivity].
  intros j Hj.
  destruct j as [|[|[|j]]]; try reflexivity. lia.
Defined.

Lemma slept_app (evs1 evs2 : list event) :
  slept (evs1 ++ evs2) = slept evs1 + slept evs2.
Proof.
  induction evs1 as [|[] evs1 IH]; cbn [slept app]; rewrite ?IH; lia.
Qed.

Lemma commands_app (evs1 evs2 : list event) :
  forall t,
    commands t (evs1 ++ evs2)
    = (commands t evs1 ++ commands (t + slept evs1) evs2)%list.
Proof.
  induction evs1 as [|ev evs1 IH]; intros t; cbn [commands slept app].
  - by rewrite Nat.add_0_r.
  - destruct ev; rewrite ?IH; try reflexivity.
    + by rewrite Nat.add_assoc.
    + by destruct (String.eqb _ _).
Qed.

Lemma first_raise_app {A} (l1 l2 : list (result A)) :
  first_raise (l1 ++ l2)
  = match first_raise l1 with
    | Some e => Some e
    | None => first_raise l2
    end.
Proof. induction l1 as [|[a|e] l1 IH]; cbn; auto. Qed.

Lemma answers_app (h : Host) (t : nat) (evs1 evs2 : list event) :
  answers h t (evs1 ++ evs2)
  = (answers h t evs1 ++ answers h (t + slept evs1) evs2)%list.
Proof. unfold answers. by rewrite commands_app, map_app. Qed.

Lemma command_raised_app (h : Host) (t : nat) (evs1 evs2 : list event) :
  command_raised h t (evs1 ++ evs2)
  = match command_raised h t evs1 with
    | Some e => Some e
    | None => command_raised h (t + slept evs1) evs2
    end.
Proof. unfold command_raised. by rewrite answers_app, first_raise_app. Qed.

(** After commands that all returned, the last of what follows is the
    only one that can have raised. *)
Lemma raised_last_only_app (h : Host) (t : nat) (evs1 evs2 : list event) :
  command_raised h t evs1 = None ->
  raised_last_only h t evs1 ->
  raised_last_only h (t + slept evs1) evs2 ->
  raised_last_only h t (evs1 ++ evs2).
Proof.
  unfold raised_last_only, command_raised. intros Hnone Hlast1 Hlast2.
  rewrite answers_app.
  destruct (answers h (t + slept evs1) evs2) as [|a l] eqn:Hanswers.
  - by rewrite app_nil_r.
  - rewrite removelast_app by done. by rewrite first_raise_app, Hnone.
Qed.

(** Events that run no command change nothing to what raised. *)
Lemma raised_last_only_quiet (h : Host) (t : nat) (evs1 evs2 : list event) :
  commands (t + slept evs1) evs2 = [] ->
  raised_last_only h t evs1 ->
  raised_last_only h t (evs1 ++ evs2).
Proof.
  unfold raised_last_only. intros Hquiet Hlast.
  rewrite answers_app. unfold answers at 2. by rewrite Hquiet, app_nil_r.
Qed.

Lemma stops_ret {A} (h : Host) (a : A) : stops_at_command h (mret a).
Proof. intros p. exists []. cbn. by rewrite app_nil_r, Nat.add_0_r. Qed.

Lemma stops_print (h : Host) (text : string) : stops_at_command h (print text).
Proof. intros p. exists [Print text]. cbn. by rewrite Nat.add_0_r. Qed.

Lemma stops_sleep (h : Host) (secs : nat) : stops_at_command h (sleep secs).
Proof. intros p. exists [Sleep secs]. cbn. by rewrite Nat.add_0_r. Qed.

Lemma stops_run (h : Host) (argv : list string) : stops_at_command h (run h argv).
Proof.
  intros p. exists [Call "subprocess.run" argv].
  unfold command_raised, raised_last_only, answers. cbn.
  rewrite Nat.add_0_r. by repeat split.
Qed.

Lemma stops_bind {A B} (h : Host) (m : M A) (k : A -> M B) :
  stops_at_command h m ->
  (forall a, stops_at_command h (k a)) ->
  stops_at_command h (m ≫= k).
Proof.
  intros Hm Hk p. unfold mbind, M_bind, bind.
  destruct (Hm p) as (evs1 & Hev1 & Hclock1 & Hraise1 & Hlast1).
  destruct (m p) as [[a|e] p1]; cbn [fst snd raised] in *.
  - destruct (Hk a p1) as (evs2 & Hev2 & Hclock2 & Hraise2 & Hlast2).
    exists (evs1 ++ evs2)%list.
    rewrite Hev2, Hev1, Hclock2, Hclock1, slept_app, command_raised_app, Hraise1.
    rewrite <- Hclock1, app_assoc. repeat split; [lia|done|].
    apply raised_last_only_app; [done..|]. by rewrite <- Hclock1.
  - by exists evs1.
Qed.

Ltac stops :=
  repeat first
    [ apply stops_ret | apply stops_print | apply stops_sleep | apply stops_run
    | apply stops_bind; [|intros ?]
    | case_match ].

Lemma stops_wait_for_health (h : Host) (gas : nat) :
  forall max_wait elapsed, stops_at_command h (wait_for_health h gas max_wait elapsed).
Proof.
  induction gas as [|gas IH]; intros max_wait elapsed; cbn [wait_for_health].
  - stops.
  - destruct (negb _); [apply stops_ret|].
    apply stops_bind; [apply stops_sleep|intros _].
    apply stops_bind; [apply stops_run|intros health_check].
    destruct (_ && _); [stops|].
    apply stops_bind; [apply stops_print|intros _]. apply IH.
Qed.

Lemma stops_docker_steps (h : Host) : stops_at_command h (docker_steps h).
Proof.
  unfold docker_steps.
  apply stops_bind; [apply stops_run|intros version].
  destruct (negb _); [stops|].
  apply stops_bind; [apply stops_print|intros _].
  apply stops_bind; [apply stops_run|intros ps]. cbv zeta.
  destruct (services_to_start _) as [|service others]; [stops|].
  apply stops_bind; [apply stops_print|intros _].
  apply stops_bind; [apply stops_run|intros up].
  destruct (negb _); [stops|].
  apply stops_bind; [apply stops_print|intros _].
  apply stops_bind; [apply stops_sleep|intros _].
  apply stops_bind; [apply stops_wait_for_health|intros [b|]]; stops.
Qed.

(** What [check_docker_containers] does with the outcome of its steps. *)
Lemma check_docker_containers_handler (h : Host) (p : Proc) :
  check_docker_containers h p
  = match docker_steps h p with
    | (Ok b, p') => (Ok b, p')
    | (Raise e, p') =>
        if isinstance_Exception e
        then (Ok false, mkProc (clock p') (events p' ++ docker_warning e) (loggers p'))
        else (Raise e, p')
    end.
Proof.
  unfold check_docker_containers, try_except, try_catching.
  destruct (docker_steps h p) as [[b|e] p']; [done|].
  destruct (isinstance_Exception e); [|done].
  unfold mbind, M_bind, bind, print, emit, docker_warning. cbn.
  by rewrite <- app_assoc.
Qed.

(** C9, as stated, fails: a [KeyboardInterrupt] raised inside
    [check_docker_containers] is not an instance of [Exception]; the handler
    lets it through to the caller, where [main] has its own clause for it. *)
Lemma KeyboardInterrupt_propagates :
  fst (check_docker_containers ctrl_c_host Proc0) = Raise KeyboardInterrupt
  /\ fst (main ctrl_c_host [] Proc0) = Raise (SystemExit 0)
  /\ last (stdout (snd (main ctrl_c_host [] Proc0)))
     = Some (Py.nl +:+ "Program interrupted by user. Goodbye!").
Proof. by vm_compute. Qed.

(** C9, amended. On every host and from every state,
    [check_docker_containers] ends by what happened to the commands that it
    ran.  When every command returned, it returns a boolean.  When a
    command raised an exception derived from [Exception], that exception
    is caught, reported in two lines and turned into [False].  When a
    command raised [KeyboardInterrupt] or [SystemExit], that exception gets
    out to the caller.  In both cases the command that raised is the last
    one that was run.  The waiting loop ends by its own test, so the result
    does not depend on the gas given to it. *)
Theorem check_docker_containers_returns (h : Host) (p : Proc) :
  (exists r p' evs,
     check_docker_containers h p = (r, p')
     /\ events p' = (events p ++ evs)%list
     /\ match command_raised h (clock p) evs with
        | None => exists b, r = Ok b
        | Some e =>
            if isinstance_Exception e
            then r = Ok false /\ exists evs', evs = (evs' ++ docker_warning e)%list
            else r = Raise e
        end
     /\ raised_last_only h (clock p) evs)
  /\ (forall gas q,
        60 - 10 <= gas ->
        wait_for_health h gas 60 10 q = wait_for_health h (60 - 10) 60 10 q).
Proof.
  split; [|intros gas q Hgas; apply wait_for_health_gas; lia].
  rewrite check_docker_containers_handler.
  destruct (stops_docker_steps h p) as (evs & Hev & _ & Hraise & Hlast).
  destruct (docker_steps h p) as [[b|e] p']; cbn [fst snd raised] in *.
  - exists (Ok b), p', evs. rewrite Hraise. repeat split; [done|by exists b|done].
  - destruct (isinstance_Exception e) eqn:He.
    + do 2 eexists. exists (evs ++ docker_warning e)%list.
      split; [reflexivity|]. cbn [events].
      rewrite Hev, <- app_assoc, command_raised_app, Hraise, He.
      repeat split; [by exists evs|]. by apply raised_last_only_quiet.
    + exists (Raise e), p', evs. by rewrite Hraise, He.
Qed.

(** What the theorem gives on three hosts: a missing [docker] command
    gives [False]; Ctrl-C and a shutdown during the health check get out. *)
Lemma check_docker_containers_on_three_hosts :
  (exists p', check_docker_containers no_docker_cli_host Proc0 = (Ok false, p'))
  /\ (exists p', check_docker_containers ctrl_c_host Proc0 = (Raise KeyboardInterrupt, p'))
  /\ (exists p', check_docker_containers sys_exit_host Proc0 = (Raise (SystemExit 143), p')).
Proof.
  destruct (check_docker_containers_returns no_docker_cli_host Proc0)
    as [(r1 & p1 & evs1 & Hrun1 & Hev1 & Hr1 & _) _].
  destruct (check_docker_containers_returns ctrl_c_host Proc0)
    as [(r2 & p2 & evs2 & Hrun2 & Hev2 & Hr2 & _) _].
  destruct (check_docker_containers_returns sys_exit_host Proc0)
    as [(r3 & p3 & evs3 & Hrun3 & Hev3 & Hr3 & _) _].
  rewrite Hrun1, Hrun2, Hrun3.
  assert (E1 : evs1 = events (check_docker_containers no_docker_cli_host Proc0).2)
    by (by rewrite Hrun1).
  assert (E2 : evs2 = events (check_docker_containers ctrl_c_host Proc0).2)
    by (by rewrite Hrun2).
  assert (E3 : evs3 = events (check_docker_containers sys_exit_host Proc0).2)
    by (by rewrite Hrun3).
  rewrite E1 in Hr1. rewrite E2 in Hr2. rewrite E3 in Hr3.
  vm_compute in Hr1, Hr2, Hr3.
  destruct Hr1 as [-> _]. subst r2 r3. by repeat split; eexists.
Defined.

(** ** Further properties of the code *)

Lemma display_menu_run (p : Proc) : _display_menu p = (Ok tt, menu_shown p).
Proof. reflexivity. Qed.

Lemma calls_menu_shown (p : Proc) : calls (menu_shown p) = calls p.
Proof. unfold menu_shown. by rewrite !calls_emit_Print. Qed.

Lemma read_Line (line : string) : readable line -> read (Some (Line line)) = Ok line.
Proof. unfold readable, read. by intros ->. Qed.

(** One round of the loop: the choice is read, its branch runs, and unless
    the loop is left one more line is read. *)
Lemma run_loop_cons (self : CLI) (key : keyboard) (rest : list keyboard) (p : Proc) :
  run_loop self (key :: rest) p
  = match read (Some key) with
    | Raise e => (Raise e, emit (Prompt choice_prompt) (menu_shown p))
    | Ok line =>
        match run_branch self (branch_of (Py.strip line))
                (emit (Prompt choice_prompt) (menu_shown p)) with
        | (Ok true, p2) => (Ok tt, p2)
        | (Ok false, p2) =>
            match read (head rest) with
            | Raise e => (Raise e, emit (Prompt enter_prompt) p2)
            | Ok _ => run_loop self (tail rest) (emit (Prompt enter_prompt) p2)
            end
        | (Raise e, p2) => (Raise e, p2)
        end
    end.
Proof.
  cbn [run_loop]. unfold mbind, M_bind, bind. rewrite display_menu_run.
  unfold input. fold choice_prompt enter_prompt.
  destruct (read (Some key)) as [line|e]; [|reflexivity].
  destruct (run_branch _ _ _) as [[[|]|e] p2]; try reflexivity.
  destruct rest as [|enter rest']; cbn [head tail]; [reflexivity|].
  by destruct (read (Some enter)).
Qed.

Lemma run_loop_nil (self : CLI) (p : Proc) :
  run_loop self [] p = (Raise EOFError, emit (Prompt choice_prompt) (menu_shown p)).
Proof. reflexivity. Qed.

Lemma input_raises_head (stdin : list keyboard) (e : exn) :
  read (head stdin) = Raise e -> input_raises stdin e.
Proof.
  destruct stdin as [|key rest]; cbn [head]; intros Hread.
  - by left.
  - right. exists key. split; [by left|done].
Qed.

Lemma input_raises_tail (stdin : list keyboard) (n : nat) (e : exn) :
  input_raises (drop n stdin) e -> input_raises stdin e.
Proof.
  intros [Hend|(key & Hin & Hread)]; [by left|].
  right. exists key. split; [|done].
  rewrite <- (take_drop n stdin). apply in_or_app. by right.
Qed.

(** What a branch does, by the choice. *)
Lemma run_branch_outcome (self : CLI) (choice : string) (p : Proc) :
  exists p',
    run_branch self (branch_of choice) p
    = (if String.eqb choice "5" then Raise missing_dissolve
       else if String.eqb choice "8" then Ok true
       else Ok false, p')
    /\ calls p' = calls p
    /\ clock p' = clock p.
Proof.
  unfold branch_of.
  repeat match goal with
  | |- context [String.eqb choice ?k] =>
      destruct (String.eqb choice k) eqn:?;
      [ match goal with E : String.eqb choice k = true |- _ =>
          apply String.eqb_eq in E as -> end |]
  end;
  (eexists; split; [reflexivity|]);
  cbn [_show_result];
  rewrite ?calls_emit_Print, ?calls_logged, ?clock_emit, ?clock_logged,
    ?calls_emit_Print, ?calls_logged, ?clock_emit, ?clock_logged; done.
Qed.

Lemma run_loop_quiet (self : CLI) (n : nat) :
  forall (stdin : list keyboard) (p : Proc),
    length stdin <= n ->
    exists r p',
      run_loop self stdin p = (r, p')
      /\ calls p' = calls p
      /\ clock p' = clock p
      /\ (r = Ok tt \/ r = Raise missing_dissolve
          \/ exists e, r = Raise e /\ input_raises stdin e).
Proof.
  induction n as [|n IH]; intros stdin p Hlen.
  - destruct stdin; [|cbn in Hlen; lia].
    rewrite run_loop_nil. do 2 eexists. split; [reflexivity|].
    rewrite calls_emit, app_nil_r, calls_menu_shown.
    repeat split. right. right. eexists. split; [reflexivity|]. by left.
  - destruct stdin as [|key rest].
    { rewrite run_loop_nil. do 2 eexists. split; [reflexivity|].
      rewrite calls_emit, app_nil_r, calls_menu_shown.
      repeat split. right. right. eexists. split; [reflexivity|]. by left. }
    rewrite run_loop_cons.
    destruct (read (Some key)) as [line|e] eqn:Hkey.
    2:{ do 2 eexists. split; [reflexivity|].
        rewrite calls_emit, app_nil_r, calls_menu_shown.
        repeat split. right. right. exists e. split; [done|].
        by apply input_raises_head. }
    destruct (run_branch_outcome self (Py.strip line)
                (emit (Prompt choice_prompt) (menu_shown p)))
      as (p2 & Hrun & Hcalls & Hclock).
    rewrite Hrun.
    rewrite calls_emit, app_nil_r, calls_menu_shown in Hcalls.
    rewrite !clock_emit in Hclock. change (clock (menu_shown p)) with (clock p) in Hclock.
    destruct (String.eqb _ "5"); [by eauto 10|].
    destruct (String.eqb _ "8"); [by eauto 10|].
    destruct (read (head rest)) as [enter|e] eqn:Henter.
    + destruct (IH (tail rest) (emit (Prompt enter_prompt) p2))
        as (r & p' & Hr & Hc & Hk & Hor).
      { destruct rest; cbn in *; lia. }
      exists r, p'. split; [done|].
      rewrite Hc, Hk, calls_emit, app_nil_r, clock_emit.
      repeat split; [done..|].
      destruct Hor as [->|[->|(e & -> & He)]]; auto.
      right. right. exists e. split; [done|].
      apply (input_raises_tail _ 2). by destruct rest.
    + do 2 eexists. split; [reflexivity|].
      rewrite calls_emit, app_nil_r, clock_emit.
      repeat split; [done..|]. right. right. exists e. split; [done|].
      apply (input_raises_tail _ 1), input_raises_head. exact Henter.
Qed.

Lemma CLI_run_unfold (self : CLI) (stdin : list keyboard) (p : Proc) :
  CLI_run self stdin p
  = run_loop self stdin
      (emit (Print (Py.mul "-" 50))
         (emit (Print "LLM-driven project management scheduling tool")
            (emit (Print "Welcome to Autoscheduler2") p))).
Proof. reflexivity. Qed.

(** X1. Whatever the terminal has, [CLI.run] makes no external call and
    does not sleep, and it ends in one of three ways: it returns, it raises
    the [AttributeError] of the missing method, or it raises what a call
    of [input()] raised ([EOFError] at the end of the input,
    [UnicodeDecodeError] on a line that is not text, or the exception that
    interrupted the call). *)
Theorem CLI_run_stays_inside (self : CLI) (stdin : list keyboard) (p : Proc) :
  exists r p',
    CLI_run self stdin p = (r, p')
    /\ calls p' = calls p
    /\ clock p' = clock p
    /\ (r = Ok tt \/ r = Raise missing_dissolve
        \/ exists e, r = Raise e /\ input_raises stdin e).
Proof.
  rewrite CLI_run_unfold.
  destruct (run_loop_quiet self (length stdin) stdin
              (emit (Print (Py.mul "-" 50))
                 (emit (Print "LLM-driven project management scheduling tool")
                    (emit (Print "Welcome to Autoscheduler2") p))))
    as (r & p' & Hrun & Hcalls & Hclock & Hor); [done|].
  exists r, p'. split; [done|].
  by rewrite Hcalls, Hclock, !calls_emit_Print.
Qed.

Lemma goes_on_outcome (self : CLI) (choice : string) (p : Proc) :
  goes_on choice ->
  exists p', run_branch self (branch_of (Py.strip choice)) p = (Ok false, p').
Proof.
  intros (_ & H5 & H8).
  destruct (run_branch_outcome self (Py.strip choice) p) as (p' & Hrun & _).
  apply String.eqb_neq in H5, H8. rewrite H5, H8 in Hrun. eauto.
Qed.

(** Rounds that go on lead to the loop on the rest of the input. *)
Lemma run_loop_rounds (self : CLI) (rounds : list (string * string)) :
  forall (rest : list keyboard) (p : Proc),
    Forall round_goes_on rounds ->
    exists p', run_loop self (typed rounds ++ rest) p = run_loop self rest p'.
Proof.
  induction rounds as [|[choice enter] rounds IH]; intros rest p Hgo.
  - by exists p.
  - apply Forall_cons in Hgo as [[Hgo Henter] Hrest]. cbn [fst snd] in Hgo, Henter.
    cbn [typed flat_map fst snd app]. rewrite run_loop_cons.
    rewrite read_Line by apply Hgo.
    destruct (goes_on_outcome self choice (emit (Prompt choice_prompt) (menu_shown p)) Hgo)
      as (p2 & Hrun).
    rewrite Hrun. cbn [head tail]. rewrite read_Line by done.
    apply IH, Hrest.
Qed.

Lemma CLI_run_after_rounds
    (self : CLI) (rounds : list (string * string)) (rest : list keyboard) (p : Proc) :
  Forall round_goes_on rounds ->
  exists p', CLI_run self (typed rounds ++ rest) p = run_loop self rest p'.
Proof. intros Hgo. rewrite CLI_run_unfold. by apply run_loop_rounds. Qed.

(** The loop ends where [input()] raises, at the menu or at "Press Enter
    to continue" after a choice that goes on. *)
Lemma run_loop_input_raises (self : CLI) (rest : list keyboard) (e : exn) (p : Proc) :
  read (head rest) = Raise e ->
  (exists p', run_loop self rest p = (Raise e, p'))
  /\ (forall choice,
        goes_on choice ->
        exists p', run_loop self (Line choice :: rest) p = (Raise e, p')).
Proof.
  intros Hread. split.
  - destruct rest as [|key rest'].
    + rewrite run_loop_nil. cbn in Hread. injection Hread as <-. by eexists.
    + rewrite run_loop_cons. cbn [head] in Hread. rewrite Hread. by eexists.
  - intros choice Hgo. rewrite run_loop_cons, read_Line by apply Hgo.
    edestruct (goes_on_outcome self choice) as (p2 & ->); [done|].
    rewrite Hread. by eexists.
Qed.

(** X2. After any number of rounds whose choice is neither "5" nor "8"
    (surrounding white space aside), [CLI.run] returns at a line that says
    "8", printing "Goodbye!" and reading nothing after it, and raises the
    [AttributeError] at a line that says "5".  Where [input()] raises, at
    the menu or at "Press Enter to continue", [CLI.run] raises the same:
    [EOFError] at the end of the input, [KeyboardInterrupt] when the call
    is interrupted by Ctrl-C, [UnicodeDecodeError] on bytes that are not
    text. *)
Theorem CLI_run_session
    (self : CLI) (rounds : list (string * string)) (p : Proc) :
  Forall round_goes_on rounds ->
  (forall last_line rest,
     readable last_line ->
     Py.strip last_line = "8" ->
     exists p',
       CLI_run self (typed rounds ++ Line last_line :: rest) p = (Ok tt, p')
       /\ last (stdout p') = Some (Py.nl +:+ "Goodbye!"))
  /\ (forall last_line rest,
        readable last_line ->
        Py.strip last_line = "5" ->
        exists p',
          CLI_run self (typed rounds ++ Line last_line :: rest) p
          = (Raise missing_dissolve, p'))
  /\ (forall rest e,
        read (head rest) = Raise e ->
        (exists p', CLI_run self (typed rounds ++ rest) p = (Raise e, p'))
        /\ (forall choice,
              goes_on choice ->
              exists p',
                CLI_run self (typed rounds ++ Line choice :: rest) p = (Raise e, p')))
  /\ read None = Raise EOFError
  /\ (forall e, read (Some (Interrupted e)) = Raise e)
  /\ (forall line msg,
        Py.decode_error line = Some msg ->
        read (Some (Line line)) = Raise (UnicodeDecodeError msg)).
Proof.
  intros Hgo. split; [|split; [|split]].
  - intros q rest Hread Hq.
    destruct (CLI_run_after_rounds self rounds (Line q :: rest) p Hgo) as (p1 & ->).
    rewrite run_loop_cons, read_Line, Hq by done.
    eexists. split; [reflexivity|].
    rewrite stdout_emit_Print. apply last_snoc.
  - intros q rest Hread Hq.
    destruct (CLI_run_after_rounds self rounds (Line q :: rest) p Hgo) as (p1 & ->).
    rewrite run_loop_cons, read_Line, Hq by done. by eexists.
  - intros rest e Hread. split.
    + destruct (CLI_run_after_rounds self rounds rest p Hgo) as (p1 & ->).
      by apply run_loop_input_raises.
    + intros choice Hc.
      destruct (CLI_run_after_rounds self rounds (Line choice :: rest) p Hgo) as (p1 & ->).
      by apply run_loop_input_raises.
  - split; [reflexivity|]. split; [reflexivity|].
    intros line msg Hmsg. unfold read. by rewrite Hmsg.
Qed.

Lemma check_docker_containers_Ok (h : Host) (p : Proc) :
  uninterrupted h ->
  exists b p', check_docker_containers h p = (Ok b, p').
Proof.
  intros Hun.
  unfold check_docker_containers, try_except, try_catching.
  destruct (docker_steps h p) as [[b|e] q] eqn:Hsteps; [by eauto|].
  destruct (docker_steps_raises h p q e Hsteps) as (t & argv & Hraise).
  caught Hun. rewrite Hcaught. by do 2 eexists.
Qed.

Ltac run_connected Hun :=
  match goal with
  | |- context [ (is_neo4j_connected ?h ?s ≫= _) ?q ] =>
      let E := fresh "E" in
      destruct (is_neo4j_connected_returns h s q Hun) as (? & ? & E & _);
      erewrite bind_run by exact E; clear E
  | |- context [ (is_chromadb_connected ?h ?s ≫= _) ?q ] =>
      let E := fresh "E" in
      destruct (is_chromadb_connected_returns h s q Hun) as (? & ? & E & _);
      erewrite bind_run by exact E; clear E
  end.

Lemma ScopeManager_init_returns (h : Host) (s : Schedule) (p : Proc) :
  uninterrupted h ->
  exists p',
    ScopeManager_init h s p
    = (Ok (mkScopeManager "autoscheduler.core.scope_manager" s), p').
Proof.
  intros Hun. unfold ScopeManager_init.
  do 3 (erewrite bind_run by reflexivity).
  do 2 run_connected Hun.
  match goal with |- context [if ?b then log _ _ _ else _] => destruct b end;
    (erewrite bind_run by reflexivity);
    do 2 run_connected Hun;
    match goal with |- context [if ?b then log _ _ _ else _] => destruct b end;
    do 2 (erewrite bind_run by reflexivity);
    by eexists.
Qed.

Lemma CLI_init_returns (h : Host) (p : Proc) :
  uninterrupted h ->
  exists s p',
    CLI_init h p
    = (Ok (mkCLI s (mkScopeManager "autoscheduler.core.scope_manager" s)), p').
Proof.
  intros Hun. unfold CLI_init.
  destruct (Schedule_init_returns h p Hun) as (s & p1 & E1 & _).
  erewrite bind_run by exact E1.
  destruct (ScopeManager_init_returns h s p1 Hun) as (p2 & E2).
  erewrite bind_run by exact E2.
  by do 2 eexists.
Qed.

(** X3. On a host whose calls are not interrupted, and after any number
    of rounds that go on, [main] returns when the user quits with "8";
    ends with [SystemExit(1)] after printing "An unexpected error
    occurred: ..." when the user picks "5" or when [input()] raises an
    instance of [Exception] at the menu ([EOFError] at the end of the input
    is one); and ends with [SystemExit(0)] after printing "Program
    interrupted by user. Goodbye!" when the user presses Ctrl-C at the
    menu. *)
Theorem main_exit_status (h : Host) (rounds : list (string * string)) (p : Proc) :
  uninterrupted h ->
  Forall round_goes_on rounds ->
  (forall last_line rest,
     readable last_line ->
     Py.strip last_line = "8" ->
     exists p', main h (typed rounds ++ Line last_line :: rest) p = (Ok tt, p'))
  /\ (forall last_line rest,
        readable last_line ->
        Py.strip last_line = "5" ->
        exists p',
          main h (typed rounds ++ Line last_line :: rest) p = (Raise (SystemExit 1), p')
          /\ last (stdout p')
             = Some ("An unexpected error occurred: " +:+ str_exn missing_dissolve))
  /\ (forall rest e,
        read (head rest) = Raise e ->
        isinstance_Exception e = true ->
        exists p',
          main h (typed rounds ++ rest) p = (Raise (SystemExit 1), p')
          /\ last (stdout p') = Some ("An unexpected error occurred: " +:+ str_exn e))
  /\ (exists p',
        main h (typed rounds) p = (Raise (SystemExit 1), p')
        /\ last (stdout p')
           = Some ("An unexpected error occurred: " +:+ str_exn EOFError))
  /\ (forall rest,
        exists p',
          main h (typed rounds ++ Interrupted KeyboardInterrupt :: rest) p
          = (Raise (SystemExit 0), p')
          /\ last (stdout p') = Some (Py.nl +:+ "Program interrupted by user. Goodbye!")).
Proof.
  intros Hun Hgo.
  assert (Hmain : forall stdin, exists cli q,
            main h stdin p
            = match CLI_run cli stdin q with
              | (Ok a, q') => (Ok a, q')
              | (Raise e, q') =>
                  if is_KeyboardInterrupt e || isinstance_Exception e
                  then (if is_KeyboardInterrupt e
                        then print (Py.nl +:+ "Program interrupted by user. Goodbye!")
                               ≫= (fun _ => sys_exit 0)
                        else print ("An unexpected error occurred: " +:+ str_exn e)
                               ≫= (fun _ => sys_exit 1)) q'
                  else (Raise e, q')
              end).
  { intros stdin. unfold main, try_catching, cli_main.
    destruct (check_docker_containers_Ok h p Hun) as (b & p1 & E1).
    erewrite bind_run by exact E1.
    destruct (CLI_init_returns h p1 Hun) as (s & p2 & E2).
    erewrite bind_run by exact E2.
    by do 2 eexists. }
  assert (Hraises : forall rest e,
            read (head rest) = Raise e ->
            isinstance_Exception e = true ->
            exists p',
              main h (typed rounds ++ rest) p = (Raise (SystemExit 1), p')
              /\ last (stdout p') = Some ("An unexpected error occurred: " +:+ str_exn e)).
  { intros rest e Hread He.
    destruct (Hmain (typed rounds ++ rest)%list) as (cli & q0 & ->).
    destruct (CLI_run_after_rounds cli rounds rest q0 Hgo) as (p1 & ->).
    destruct (run_loop_input_raises cli rest e p1 Hread) as [(p2 & ->) _].
    destruct e; try discriminate. cbn [is_KeyboardInterrupt isinstance_Exception orb].
    eexists. split; [reflexivity|].
    rewrite stdout_emit_Print. apply last_snoc. }
  split; [|split; [|split; [|split]]].
  - intros q rest Hread Hq.
    destruct (Hmain (typed rounds ++ Line q :: rest)%list) as (cli & q0 & ->).
    destruct (CLI_run_after_rounds cli rounds (Line q :: rest) q0 Hgo) as (p1 & ->).
    rewrite run_loop_cons, read_Line, Hq by done. by eexists.
  - intros q rest Hread Hq.
    destruct (Hmain (typed rounds ++ Line q :: rest)%list) as (cli & q0 & ->).
    destruct (CLI_run_after_rounds cli rounds (Line q :: rest) q0 Hgo) as (p1 & ->).
    rewrite run_loop_cons, read_Line, Hq by done.
    eexists. split; [reflexivity|].
    rewrite stdout_emit_Print. apply last_snoc.
  - exact Hraises.
  - destruct (Hraises [] EOFError) as (p' & Hrun & Hout); [reflexivity..|].
    rewrite app_nil_r in Hrun. by exists p'.
  - intros rest.
    destruct (Hmain (typed rounds ++ Interrupted KeyboardInterrupt :: rest)%list)
      as (cli & q0 & ->).
    destruct (CLI_run_after_rounds cli rounds (Interrupted KeyboardInterrupt :: rest) q0 Hgo)
      as (p1 & ->).
    rewrite run_loop_cons. cbn [read is_KeyboardInterrupt orb].
    eexists. split; [reflexivity|].
    rewrite stdout_emit_Print. apply last_snoc.
Qed.

Lemma contains_In (l : list string) (x : string) :
  Py.contains l x = true <-> In x l.
Proof.
  unfold Py.contains. rewrite existsb_exists. split.
  - intros (y & Hy & Heq). apply String.eqb_eq in Heq. by subst.
  - intros Hx. exists x. split; [done|]. apply String.eqb_refl.
Qed.

Lemma services_to_start_In (ps_stdout : string) (service : string) :
  In service (services_to_start ps_stdout)
  <-> In service ["neo4j"; "chromadb"] /\ ~ In service (running_services ps_stdout).
Proof.
  unfold services_to_start. fold (running_services ps_stdout).
  rewrite filter_In, negb_true_iff, <- not_true_iff_false, contains_In. tauto.
Qed.

(** X5. A service is started exactly when it is one of "neo4j" and
    "chromadb" and its name is not, character for character, a line of the
    stripped output of [docker-compose ps]; what is started is a sublist of
    ["neo4j"; "chromadb"], in that order. *)
Theorem services_to_start_missing (ps_stdout : string) (service : string) :
  (In service (services_to_start ps_stdout)
   <-> In service ["neo4j"; "chromadb"] /\ ~ In service (running_services ps_stdout))
  /\ sublist (services_to_start ps_stdout) ["neo4j"; "chromadb"].
Proof.
  split; [apply services_to_start_In|].
  unfold services_to_start. fold (running_services ps_stdout).
  cbn [List.filter]. destruct (negb _), (negb _); repeat constructor.
Qed.

Lemma slept_facts (n : nat) (p : Proc) :
  let q := mkProc (clock p + n) (events p ++ [Sleep n]) (loggers p) in
  calls q = calls p /\ stdout q = stdout p /\ sleeps q = (sleeps p ++ [n])%list.
Proof.
  unfold calls, stdout, sleeps. cbn [events]. rewrite !omap_app. cbn.
  by rewrite !app_nil_r.
Qed.

(** The loop waits no longer than up to [max_wait], in steps of 5, with
    one health check for each step. *)
Lemma wait_for_health_bound (h : Host) (gas : nat) :
  forall (max_wait elapsed : nat) (p p' : Proc) (r : result (option bool)),
    wait_for_health h gas max_wait elapsed p = (r, p') ->
    clock p <= clock p'
    /\ clock p' <= clock p + 5 * ((max_wait - elapsed + 4) / 5)
    /\ length (calls p') <= length (calls p) + (max_wait - elapsed + 4) / 5.
Proof.
  induction gas as [|gas IH]; intros max_wait elapsed p p' r.
  - cbn [wait_for_health]. destruct (negb _); intros [= <- <-]; lia.
  - destruct (Nat.ltb_spec elapsed max_wait) as [Hlt|Hge].
    + rewrite wait_for_health_unfold by done.
      assert (Hdiv : (max_wait - elapsed + 4) / 5
                     = S ((max_wait - (elapsed + 5) + 4) / 5)).
      { pose proof (Nat.div_mod_eq (max_wait - elapsed + 4) 5).
        pose proof (Nat.mod_upper_bound (max_wait - elapsed + 4) 5).
        pose proof (Nat.div_mod_eq (max_wait - (elapsed + 5) + 4) 5).
        pose proof (Nat.mod_upper_bound (max_wait - (elapsed + 5) + 4) 5).
        lia. }
      destruct (slept_facts 5 p) as (Hcalls & _).
      destruct (poll h (clock p + 5)) as [cp|e].
      * destruct (reports_healthy _).
        -- intros [= <- <-]. rewrite calls_emit_Print, calls_emit, length_app, Hcalls.
           cbn [clock emit length]. lia.
        -- intros Hrun. apply IH in Hrun as (H1 & H2 & H3).
           destruct (waited_facts max_wait elapsed p) as (Hc & _ & Hk).
           rewrite Hc in *. rewrite Hk, length_app in H3. cbn [length] in H3. lia.
      * intros [= <- <-]. rewrite calls_emit, length_app, Hcalls.
        cbn [clock emit length]. lia.
    + cbn [wait_for_health].
      assert (Hf : (elapsed <? max_wait)%nat = false) by (by apply Nat.ltb_ge).
      rewrite Hf. intros [= <- <-]. lia.
Qed.

Ltac measure_state :=
  unfold calls, sleeps, emit; cbn [events clock];
  rewrite ?omap_app, ?length_app; cbn.

Lemma check_docker_containers_bound (h : Host) (p p' : Proc) (r : result bool) :
  check_docker_containers h p = (r, p') ->
  clock p <= clock p'
  /\ clock p' <= clock p + 60
  /\ length (calls p') <= length (calls p) + 13.
Proof.
  unfold check_docker_containers, try_except, try_catching.
  run_steps. rewrite ?clock_emit.
  intros Hrun.
  repeat (case_match; simplify_eq; rewrite ?clock_emit in * );
    try match goal with
    | H : wait_for_health _ _ _ _ _ = _ |- _ =>
        apply wait_for_health_bound in H as (Hlow & Hhigh & Hcalls);
        change ((60 - 10 + 4) / 5) with 10 in *;
        revert Hlow Hhigh Hcalls
    end;
    measure_state; lia.
Qed.

(** X6. On every host, [check_docker_containers] sleeps 60 seconds at most
    and runs 13 commands at most. *)
Theorem check_docker_containers_bounded (h : Host) (p : Proc) :
  clock p <= clock (check_docker_containers h p).2
  /\ clock (check_docker_containers h p).2 <= clock p + 60
  /\ length (calls (check_docker_containers h p).2) <= length (calls p) + 13.
Proof.
  destruct (check_docker_containers h p) as [r p'] eqn:Hrun.
  by apply (check_docker_containers_bound h p p' r).
Qed.

(** X7. When [docker-compose --version] returns 0 and both "neo4j" and
    "chromadb" are lines of the output of [docker-compose ps],
    [check_docker_containers] returns [True] at once: it has run these two
    commands only, has not slept, and its last line says that the services
    are already running. *)
Theorem check_docker_containers_already_running
    (h : Host) (p : Proc) (r : CompletedProcess) :
  exits_0 (subprocess_run h (clock p) compose_version) = true ->
  subprocess_run h (clock p) compose_ps = Ok r ->
  In "neo4j" (running_services (cp_stdout r)) ->
  In "chromadb" (running_services (cp_stdout r)) ->
  exists p',
    check_docker_containers h p = (Ok true, p')
    /\ calls p'
       = (calls p ++ [("subprocess.run", compose_version);
                      ("subprocess.run", compose_ps)])%list
    /\ sleeps p' = sleeps p
    /\ clock p' = clock p
    /\ last (stdout p') = Some "All required Docker services are already running.".
Proof.
  intros Hv Hps Hneo Hchroma.
  assert (Hnone : services_to_start (cp_stdout r) = []).
  { destruct (services_to_start (cp_stdout r)) as [|s l] eqn:Hs; [done|].
    assert (Hin : In s (services_to_start (cp_stdout r))) by (rewrite Hs; by left).
    apply services_to_start_In in Hin as [[<-|[<-|[]]] Hnot]; by destruct Hnot. }
  unfold exits_0, compose_version, compose_ps in *.
  unfold check_docker_containers, try_except, try_catching.
  run_steps.
  destruct (subprocess_run h (clock p) ["docker-compose"; "--version"]) as [v|e];
    [|done].
  cbv beta iota. rewrite Hv. cbn [negb].
  rewrite !clock_emit, Hps. cbv beta iota. rewrite Hnone.
  eexists. split; [reflexivity|].
  rewrite stdout_emit_Print, !calls_emit, !sleeps_emit, !app_nil_r, <- app_assoc.
  repeat split. apply last_snoc.
Qed.

Lemma check_docker_containers_quick_or_started (h : Host) (p p' : Proc) (r : result bool) :
  check_docker_containers h p = (r, p') ->
  (sleeps p' = sleeps p /\ ~ In inspect_call (drop (length (calls p)) (calls p')))
  \/ (exits_0 (subprocess_run h (clock p) compose_version) = true
      /\ exists ps,
           subprocess_run h (clock p) compose_ps = Ok ps
           /\ services_to_start (cp_stdout ps) <> []
           /\ exits_0 (subprocess_run h (clock p)
                         (compose_up (services_to_start (cp_stdout ps)))) = true).
Proof.
  unfold check_docker_containers, try_except, try_catching.
  run_steps. rewrite ?clock_emit.
  intros Hrun.
  repeat (case_match; simplify_eq; rewrite ?clock_emit in * );
    first
      [ match goal with H : wait_for_health _ _ _ _ _ = _ |- _ => clear H end;
        right; unfold exits_0, compose_version, compose_ps, compose_up;
        repeat match goal with H : negb _ = false |- _ => apply negb_false_iff in H end;
        match goal with
        | H : subprocess_run h (clock p) ["docker-compose"; "--version"] = Ok _ |- _ =>
            rewrite H
        end;
        (split; [done|]); eexists; (split; [eassumption|]);
        match goal with H : services_to_start _ = _ :: _ |- _ => rewrite H end;
        (split; [done|]);
        match goal with
        | H : subprocess_run h (clock p) (_ ++ _) = Ok _ |- _ => rewrite H
        end;
        done
      | left; rewrite ?sleeps_emit, ?calls_emit, ?app_nil_r, <- ?app_assoc;
        (split; [done|]); rewrite drop_app_length; cbn [app];
        intros Hin; repeat destruct Hin as [Hin|Hin]; done ].
Qed.

(** X8. [check_docker_containers] sleeps and runs [docker inspect] only
    after a successful start-up: either it neither slept nor inspected, or
    [docker-compose --version] returned 0, some service was missing and
    [docker-compose up -d] for the missing ones returned 0. *)
Theorem check_docker_containers_sleeps_after_start (h : Host) (p : Proc) :
  (sleeps (check_docker_containers h p).2 = sleeps p
   /\ ~ In inspect_call (drop (length (calls p)) (calls (check_docker_containers h p).2)))
  \/ (exits_0 (subprocess_run h (clock p) compose_version) = true
      /\ exists ps,
           subprocess_run h (clock p) compose_ps = Ok ps
           /\ services_to_start (cp_stdout ps) <> []
           /\ exits_0 (subprocess_run h (clock p)
                         (compose_up (services_to_start (cp_stdout ps)))) = true).
Proof.
  destruct (check_docker_containers h p) as [r p'] eqn:Hrun.
  by apply (check_docker_containers_quick_or_started h p p' r).
Qed.

Lemma _initialize_neo4j_choice (h : Host) (logger : string) (p : Proc) :
  uninterrupted h ->
  exists p', _initialize_neo4j h logger p = (Ok (neo4j_choice h), p').
Proof.
  intros Hun. unfold neo4j_choice, neo4j_test_passes, test_is_1.
  unfold _initialize_neo4j. unfold_M. fold (configured_driver h).
  by_answers Hun; cbn; try (by eexists); answered.
Qed.

Lemma _get_or_create_collection_choice
    (h : Host) (logger : string) (c : option ChromaClient) (name : string) (p : Proc) :
  uninterrupted h ->
  exists p',
    _get_or_create_collection h logger c name p = (Ok (collection_choice h c name), p').
Proof.
  intros Hun. unfold _get_or_create_collection, collection_choice, collection_on.
  destruct c as [client|]; [|by eexists].
  unfold_M. cbn [collection_name collection_metadata].
  by_answers Hun; cbn; try (by eexists); answered.
Qed.

(** X9. On a host whose calls are not interrupted, [Schedule()] returns
    [schedule_on]: the configured driver when the connection test passes,
    the server client, else the local client, else none, an empty graph,
    and on the client the collections [autoscheduler_activities] and
    [autoscheduler_relationships], each one present exactly when its
    creation returned. *)
Theorem Schedule_init_value (h : Host) (p : Proc) :
  uninterrupted h ->
  exists p', Schedule_init h p = (Ok (schedule_on h), p').
Proof.
  intros Hun. unfold Schedule_init.
  do 2 (erewrite bind_run by reflexivity).
  match goal with |- context [ (_initialize_neo4j h ?l ≫= _) ?q ] =>
    destruct (_initialize_neo4j_choice h l q Hun) as (p1 & E1)
  end.
  erewrite bind_run by exact E1.
  destruct (_initialize_chromadb_choice h "autoscheduler.core.schedule" p1 Hun)
    as (p2 & E2).
  erewrite bind_run by exact E2.
  erewrite bind_run by reflexivity.
  match goal with |- context [ (_get_or_create_collection h ?l ?c ?n ≫= _) ?q ] =>
    destruct (_get_or_create_collection_choice h l c n q Hun) as (p3 & E3)
  end.
  erewrite bind_run by exact E3.
  match goal with |- context [ (_get_or_create_collection h ?l ?c ?n ≫= _) ?q ] =>
    destruct (_get_or_create_collection_choice h l c n q Hun) as (p4 & E4)
  end.
  erewrite bind_run by exact E4.
  erewrite bind_run by reflexivity.
  by eexists.
Qed.

Ltac new_calls :=
  cbn [snd];
  repeat (rewrite calls_emit || rewrite calls_logged);
  cbn beta iota; rewrite ?app_nil_r, <- ?app_assoc;
  rewrite ?drop_app_length; cbn [app].

Ltac rewrite_answers :=
  repeat match goal with
  | E : ?c = _ |- context [?c] => rewrite E
  end;
  cbn [is_Ok andb].

(** X10. A Neo4j session that was opened is closed, whatever the query
    does: [_initialize_neo4j] calls [session.__exit__] exactly when the
    driver was made and the session opened, and [is_neo4j_connected]
    exactly when the session opened. *)
Theorem sessions_are_closed (h : Host) (logger : string) (s : Schedule) (p : Proc) :
  (In ("session.__exit__", [uri (configured_driver h)])
      (drop (length (calls p)) (calls (_initialize_neo4j h logger p).2))
   <-> is_Ok (neo4j_driver h (configured_driver h))
       && is_Ok (neo4j_session h (configured_driver h)) = true)
  /\ (forall d,
        neo4j_db s = Some d ->
        In ("session.__exit__", [uri d])
          (drop (length (calls p)) (calls (is_neo4j_connected h s p).2))
        <-> is_Ok (neo4j_session h d) = true).
Proof.
  split.
  - unfold _initialize_neo4j. unfold_M. fold (configured_driver h).
    repeat case_match; simplify_eq; new_calls; rewrite_answers.
    all: split; [intros Hin; repeat destruct Hin as [Hin|Hin]; done|].
    all: intros ?; try done; cbn; tauto.
  - intros d Hd. unfold is_neo4j_connected. rewrite Hd. unfold_M.
    repeat case_match; simplify_eq; new_calls; rewrite_answers.
    all: split; [intros Hin; repeat destruct Hin as [Hin|Hin]; done|].
    all: intros ?; try done; cbn; tauto.
Qed.

Lemma is_neo4j_connected_value (h : Host) (s : Schedule) (p : Proc) :
  uninterrupted h ->
  exists p',
    is_neo4j_connected h s p = (Ok (neo4j_connected h s), p')
    /\ calls p' = (calls p ++ neo4j_check_calls h s)%list.
Proof.
  intros Hun. unfold is_neo4j_connected, neo4j_connected, neo4j_check_calls, session_works.
  destruct (neo4j_db s) as [d|].
  - unfold_M.
    by_answers Hun; cbn [is_Ok andb]; (eexists; split; [reflexivity|]);
      repeat (rewrite calls_emit || rewrite calls_logged); cbn beta iota;
      by rewrite <- ?app_assoc.
  - exists p. by rewrite app_nil_r.
Qed.

Lemma is_chromadb_connected_value (h : Host) (s : Schedule) (p : Proc) :
  uninterrupted h ->
  exists p',
    is_chromadb_connected h s p = (Ok (chromadb_connected h s), p')
    /\ calls p' = (calls p ++ chromadb_check_calls s)%list.
Proof.
  intros Hun. unfold is_chromadb_connected, chromadb_connected, chromadb_check_calls.
  destruct (chroma_client s) as [c|].
  - unfold_M.
    by_answers Hun; cbn [is_Ok]; (eexists; split; [reflexivity|]);
      by rewrite calls_emit.
  - exists p. by rewrite app_nil_r.
Qed.

(** X11. On a host whose calls are not interrupted, [is_neo4j_connected]
    is [True] exactly when there is a driver and its session opens, answers
    the query and closes; [is_chromadb_connected] exactly when there is a
    client and its heartbeat returns.  Without a driver or client no
    external call is made. *)
Theorem connection_checks_decide (h : Host) (s : Schedule) (p : Proc) :
  uninterrupted h ->
  (exists p',
     is_neo4j_connected h s p = (Ok (neo4j_connected h s), p')
     /\ calls p' = (calls p ++ neo4j_check_calls h s)%list)
  /\ (exists p',
        is_chromadb_connected h s p = (Ok (chromadb_connected h s), p')
        /\ calls p' = (calls p ++ chromadb_check_calls s)%list).
Proof.
  intros Hun. split.
  - by apply is_neo4j_connected_value.
  - by apply is_chromadb_connected_value.
Qed.

(** X12. [ScopeManager(schedule)] returns a manager of that very schedule
    and runs each connection check twice: once for [hasattr], once for the
    value. *)
Theorem ScopeManager_init_checks_twice (h : Host) (s : Schedule) (p : Proc) :
  uninterrupted h ->
  exists p',
    ScopeManager_init h s p
    = (Ok (mkScopeManager "autoscheduler.core.scope_manager" s), p')
    /\ calls p'
       = (calls p ++ neo4j_check_calls h s ++ neo4j_check_calls h s
            ++ chromadb_check_calls s ++ chromadb_check_calls s)%list.
Proof.
  intros Hun. unfold ScopeManager_init.
  do 3 (erewrite bind_run by reflexivity).
  match goal with |- context [ (is_neo4j_connected h s ≫= _) ?q ] =>
    destruct (is_neo4j_connected_value h s q Hun) as (q1 & E1 & C1);
    erewrite bind_run by exact E1
  end.
  match goal with |- context [ (is_neo4j_connected h s ≫= _) ?q ] =>
    destruct (is_neo4j_connected_value h s q Hun) as (q2 & E2 & C2);
    erewrite bind_run by exact E2
  end.
  destruct (neo4j_connected h s); (erewrite bind_run by reflexivity).
  all: match goal with
       | Hu : uninterrupted ?h0 |- context [ (is_chromadb_connected ?h0 ?s0 ≫= _) ?q ] =>
           destruct (is_chromadb_connected_value h0 s0 q Hu) as (q3 & E3 & C3);
           erewrite bind_run by exact E3
       end.
  all: match goal with
       | Hu : uninterrupted ?h0 |- context [ (is_chromadb_connected ?h0 ?s0 ≫= _) ?q ] =>
           destruct (is_chromadb_connected_value h0 s0 q Hu) as (q4 & E4 & C4);
           erewrite bind_run by exact E4
       end.
  all: match goal with |- context [if ?b then log _ _ _ else _] => destruct b end.
  all: do 2 (erewrite bind_run by reflexivity).
  all: eexists; split; [reflexivity|].
  all: rewrite ?calls_logged in *.
  all: rewrite C4, C3, C2, C1.
  all: by rewrite <- !app_assoc.
Qed.

Lemma keeps_ret {A} (a : A) : keeps_loggers (mret a).
Proof. by intros p. Qed.

Lemma keeps_raise {A} (e : exn) : keeps_loggers (@raise A e).
Proof. by intros p. Qed.

Lemma keeps_print (text : string) : keeps_loggers (print text).
Proof. by intros p. Qed.

Lemma keeps_log (lvl : nat) (l msg : string) : keeps_loggers (log lvl l msg).
Proof. intros p. cbn. unfold logged. by case_match. Qed.

Lemma keeps_external {A} (target : string) (args : list string) (r : result A) :
  keeps_loggers (external target args r).
Proof. by intros p. Qed.

Lemma keeps_bind {A B} (m : M A) (k : A -> M B) :
  keeps_loggers m -> (forall a, keeps_loggers (k a)) -> keeps_loggers (m ≫= k).
Proof.
  intros Hm Hk p. unfold mbind, M_bind, bind.
  specialize (Hm p). destruct (m p) as [[a|e] p1]; cbn [snd] in *; [|done].
  by rewrite Hk.
Qed.

Lemma keeps_try_catching {A} (caught : exn -> bool) (body : M A) (handler : exn -> M A) :
  keeps_loggers body -> (forall e, keeps_loggers (handler e)) ->
  keeps_loggers (try_catching caught body handler).
Proof.
  intros Hb Hh p. unfold try_catching.
  specialize (Hb p). destruct (body p) as [[a|e] p1]; cbn [snd] in *; [done|].
  destruct (caught e); [|done]. by rewrite Hh.
Qed.

Lemma keeps_leaving {A} (body : M A) (cleanup : M unit) :
  keeps_loggers body -> keeps_loggers cleanup -> keeps_loggers (leaving body cleanup).
Proof.
  intros Hb Hc p. unfold leaving.
  specialize (Hb p). destruct (body p) as [r p1]; cbn [snd] in *.
  specialize (Hc p1). destruct (cleanup p1) as [[a|e] p2]; cbn [snd] in *; congruence.
Qed.

Ltac keeps :=
  repeat first
    [ apply keeps_ret | apply keeps_raise | apply keeps_print | apply keeps_log
    | apply keeps_external
    | apply keeps_bind; [|intros ?]
    | apply keeps_try_catching; [|intros ?]
    | apply keeps_leaving
    | progress unfold getitem, int, AsyncOpenAI_new
    | case_match ].

Lemma keeps__initialize_neo4j (h : Host) (logger : string) :
  keeps_loggers (_initialize_neo4j h logger).
Proof.
  unfold _initialize_neo4j, try_except, with_session, GraphDatabase_driver,
    run_single, getitem. keeps.
Qed.

Lemma keeps__initialize_chromadb (h : Host) (logger : string) :
  keeps_loggers (_initialize_chromadb h logger).
Proof.
  unfold _initialize_chromadb, try_except, chromadb_HttpClient,
    chromadb_PersistentClient, heartbeat, int. keeps.
Qed.

Lemma keeps__get_or_create_collection
    (h : Host) (logger : string) (c : option ChromaClient) (name : string) :
  keeps_loggers (_get_or_create_collection h logger c name).
Proof. unfold _get_or_create_collection, try_except. keeps. Qed.

Lemma keeps_is_neo4j_connected (h : Host) (s : Schedule) :
  keeps_loggers (is_neo4j_connected h s).
Proof. unfold is_neo4j_connected, try_except, with_session, run_single. keeps. Qed.

Lemma keeps_is_chromadb_connected (h : Host) (s : Schedule) :
  keeps_loggers (is_chromadb_connected h s).
Proof. unfold is_chromadb_connected, try_except, heartbeat. keeps. Qed.

Lemma setup_logger_configured (name : string) (p : Proc) :
  loggers (setup_logger name p).2 = configured name (loggers p).
Proof.
  unfold setup_logger, configured. cbn [snd loggers].
  by destruct (loggers p !! name).
Qed.

Lemma configured_twice (name : string) (registry : gmap string LoggerState) :
  configured name (configured name registry) = configured name registry.
Proof.
  unfold configured. rewrite lookup_insert_eq, insert_insert_eq. cbn [handlers].
  do 2 f_equal.
  destruct (registry !! name) as [st|]; [|done].
  destruct (handlers st =? 0)%nat eqn:E; [done|]. by rewrite E.
Qed.

Lemma after_setup {A} (name : string) (k : string -> M A) (p : Proc) :
  (forall l, keeps_loggers (k l)) ->
  loggers ((setup_logger name ≫= k) p).2 = configured name (loggers p).
Proof.
  intros Hk. unfold mbind, M_bind, bind.
  pose proof (setup_logger_configured name p) as Hs.
  destruct (setup_logger name p) as [[l|e] p1] eqn:E; cbn [snd] in *.
  - by rewrite Hk.
  - done.
Qed.

(** X13. Each constructor sets its own logger to INFO, gives it a handler
    only when it has none, and leaves every other logger alone, however the
    construction ends; a second [Schedule()] changes nothing in the
    registry. *)
Theorem constructors_configure_loggers (h : Host) (s : Schedule) (p : Proc) :
  loggers (Schedule_init h p).2 = configured "autoscheduler.core.schedule" (loggers p)
  /\ loggers (ScopeManager_init h s p).2
     = configured "autoscheduler.core.scope_manager" (loggers p)
  /\ loggers (LLMClient_init h p).2 = configured "autoscheduler.llm.client" (loggers p)
  /\ loggers (Schedule_init h (Schedule_init h p).2).2 = loggers (Schedule_init h p).2.
Proof.
  assert (Hs : forall q, loggers (Schedule_init h q).2
                         = configured "autoscheduler.core.schedule" (loggers q)).
  { intros q. apply after_setup. intros l.
    keeps; first [ apply keeps__initialize_neo4j | apply keeps__initialize_chromadb
                 | apply keeps__get_or_create_collection | idtac ]. }
  split; [apply Hs|]. split; [|split].
  - apply after_setup. intros l.
    keeps; first [ apply keeps_is_neo4j_connected | apply keeps_is_chromadb_connected
                 | idtac ].
  - apply after_setup. intros l. unfold AsyncOpenAI_new. keeps.
  - by rewrite !Hs, configured_twice.
Qed.

Lemma logged_DEBUG_dropped
    (name msg : string) (registry : gmap string LoggerState) (q : Proc) :
  loggers q = configured name registry ->
  logged DEBUG name msg q = q.
Proof.
  intros Hq. unfold logged. rewrite Hq. unfold configured.
  by rewrite lookup_insert_eq.
Qed.

(** X14. On a manager fresh from its constructor, [_dispatch] and
    [_add_activity] add nothing to the process but their printed lines:
    their DEBUG records fall below the INFO level the constructor set. *)
Theorem ScopeManager_stubs_log_nothing (h : Host) (s : Schedule) (p : Proc) (x y : Py.value) :
  uninterrupted h ->
  exists sm p',
    ScopeManager_init h s p = (Ok sm, p')
    /\ _dispatch sm p'
       = (Ok false,
          mkProc (clock p')
            (events p'
               ++ [Print "Natural language prompt interface not implemented yet.";
                   Print "This will allow users to enter commands like:";
                   Print "- 'Add activities for excavation on floor 1'";
                   Print "- 'Delete all activities on the second floor'"])
            (loggers p'))
    /\ _add_activity sm x y p'
       = (Ok false,
          mkProc (clock p')
            (events p'
               ++ [Print "Add activity functionality not implemented yet.";
                   Print "This will allow adding activities with name, description, and duration."])
            (loggers p')).
Proof.
  intros Hun.
  destruct (ScopeManager_init_returns h s p Hun) as (p' & Hrun).
  assert (Hreg : loggers p' = configured "autoscheduler.core.scope_manager" (loggers p)).
  { change p' with (Ok (mkScopeManager "autoscheduler.core.scope_manager" s), p').2.
    rewrite <- Hrun. apply after_setup. intros l.
    keeps; first [ apply keeps_is_neo4j_connected | apply keeps_is_chromadb_connected
                 | idtac ]. }
  do 2 eexists. split; [exact Hrun|].
  unfold _dispatch, _add_activity. unfold_M. cbn [sm_logger].
  rewrite !(logged_DEBUG_dropped _ _ _ _ Hreg).
  unfold emit. cbn [clock events loggers]. by rewrite <- !app_assoc.
Qed.

Ltac unfold_llm :=
  unfold prompt, prompt_with_tools, parse_structured, logging_errors, first_message,
    slice_to;
  unfold_M.

(** X15. [prompt] sends one request, with the model given or, when that
    is [None] or empty, the default one.  It returns the whole text of the
    first choice; it raises [IndexError] when there is no choice and
    [TypeError] when the first message has no text, so it never returns
    [None]; an exception of the request is raised again as it is. *)
Theorem prompt_result
    (api : OpenAI) (self : LLMClient) (messages : list (string * string))
    (model : option string) (p : Proc) :
  (prompt api self messages model p).1
  = match chat_create api (chosen_model self model) messages None with
    | Raise e => Raise e
    | Ok completion =>
        match choices completion with
        | [] => Raise IndexError
        | message :: _ =>
            match content message with
            | Some text => Ok (Some text)
            | None => Raise not_subscriptable
            end
        end
    end
  /\ calls (prompt api self messages model p).2
     = (calls p ++ [("chat.completions.create", [chosen_model self model])])%list.
Proof.
  unfold_llm.
  split; repeat case_match; simplify_eq; cbn [fst snd]; try done;
    repeat (rewrite calls_emit || rewrite calls_logged); cbn beta iota;
    by rewrite ?app_nil_r.
Qed.

(** X16. [prompt_with_tools] returns one dictionary for each tool call of
    the first choice, in order, and the empty list when there is none; an
    exception of the request is raised again as it is. *)
Theorem prompt_with_tools_result
    (api : OpenAI) (self : LLMClient) (messages : list (string * string))
    (tools : list Tool) (model : option string) (p : Proc) :
  (prompt_with_tools api self messages tools model p).1
  = match chat_create api (chosen_model self model) messages (Some tools) with
    | Raise e => Raise e
    | Ok completion =>
        match choices completion with
        | [] => Raise IndexError
        | message :: _ => Ok (map tool_call_dict (default [] (tool_calls message)))
        end
    end.
Proof.
  unfold_llm.
  repeat case_match; simplify_eq; cbn [fst snd]; try done;
    repeat match goal with H : tool_calls _ = _ |- _ => rewrite H end; done.
Qed.

(** X17. [parse_structured] returns the parsed object of the first choice
    when there is one; only otherwise does it call [model_validate_json],
    on the text of that message, and return or raise what that does. *)
Theorem parse_structured_result
    (api : OpenAI) (self : LLMClient) (messages : list (string * string))
    (response_format : string) (model : option string) (p : Proc) :
  (parse_structured api self messages response_format model p).1
  = match chat_parse api (chosen_model self model) messages response_format with
    | Raise e => Raise e
    | Ok completion =>
        match choices completion with
        | [] => Raise IndexError
        | message :: _ =>
            match parsed message with
            | Some object => Ok object
            | None => model_validate_json api response_format (content message)
            end
        end
    end
  /\ calls (parse_structured api self messages response_format model p).2
     = (calls p
        ++ ("beta.chat.completions.parse", [chosen_model self model; response_format])
        :: (if falls_back api self messages response_format model
            then [("model_validate_json", [response_format])]
            else []))%list.
Proof.
  unfold falls_back. unfold_llm.
  split; repeat case_match; simplify_eq; cbn [fst snd]; try done;
    repeat (rewrite calls_emit || rewrite calls_logged); cbn beta iota;
    by rewrite ?app_nil_r, <- ?app_assoc.
Qed.

Lemma logged_ERROR_kept (name msg : string) (st : LoggerState) (q : Proc) :
  loggers q !! name = Some st ->
  level st <= ERROR ->
  logged ERROR name msg q = emit (Log name ERROR msg) q.
Proof.
  intros Hq Hst. unfold logged. rewrite Hq.
  apply Nat.leb_le in Hst. by rewrite Hst.
Qed.

Lemma loggers_logged (lvl : nat) (l msg : string) (p : Proc) :
  loggers (logged lvl l msg p) = loggers p.
Proof. unfold logged. by case_match. Qed.

(** X18. When the logger handles ERROR records and the request raises an
    instance of [Exception], each of [prompt], [prompt_with_tools] and
    [parse_structured] logs "Error in <method>: <message>" at ERROR as its
    last action and raises the same exception. *)
Theorem LLM_errors_logged_and_raised
    (api : OpenAI) (self : LLMClient) (messages : list (string * string))
    (tools : list Tool) (response_format : string) (model : option string)
    (p : Proc) (st : LoggerState) (cls msg : string) :
  loggers p !! llm_logger self = Some st ->
  level st <= ERROR ->
  chat_create api (chosen_model self model) messages None = Raise (Exc cls msg) ->
  chat_create api (chosen_model self model) messages (Some tools) = Raise (Exc cls msg) ->
  chat_parse api (chosen_model self model) messages response_format = Raise (Exc cls msg) ->
  (exists p',
     prompt api self messages model p = (Raise (Exc cls msg), p')
     /\ last (events p') = Some (Log (llm_logger self) ERROR ("Error in prompt: " +:+ msg)))
  /\ (exists p',
        prompt_with_tools api self messages tools model p = (Raise (Exc cls msg), p')
        /\ last (events p')
           = Some (Log (llm_logger self) ERROR ("Error in prompt_with_tools: " +:+ msg)))
  /\ (exists p',
        parse_structured api self messages response_format model p
        = (Raise (Exc cls msg), p')
        /\ last (events p')
           = Some (Log (llm_logger self) ERROR ("Error in parse_structured: " +:+ msg))).
Proof.
  intros Hreg Hst Hprompt Htools Hparse.
  unfold_llm. rewrite Hprompt, Htools, Hparse. cbv beta iota. cbn [isinstance_Exception].
  repeat split; (eexists; split; [reflexivity|]);
    (erewrite logged_ERROR_kept;
     [ apply last_snoc
     | rewrite ?loggers_logged; cbn [loggers emit]; rewrite ?loggers_logged; exact Hreg
     | exact Hst ]).
Qed.

(** X4. Whatever the choice, the method a branch of the menu calls is one
    of six names; [_dissolve_activity], [_separate_prompt], [_read_scope],
    [_remove_scope] and [_add_scope] are not among them: the menu cannot
    reach these five methods. *)
Theorem menu_reaches_six_methods (choice : string) :
  match branch_of choice with
  | Invoke _ method _ => In method menu_methods
  | Say _ | Leave _ => True
  end
  /\ ~ In "_dissolve_activity" menu_methods
  /\ ~ In "_separate_prompt" menu_methods
  /\ ~ In "_read_scope" menu_methods
  /\ ~ In "_remove_scope" menu_methods
  /\ ~ In "_add_scope" menu_methods.
Proof.
  split.
  - unfold branch_of. repeat case_match; simplify_eq; cbn; tauto.
  - repeat split; cbn; intros Hin; repeat destruct Hin as [Hin|Hin]; done.
Qed.

(** A session of two rounds, then "8". *)
Lemma CLI_run_session_two_rounds :
  (exists p',
     CLI_run offline_cli
       [Line " 1 "; Line ""; Line "nine"; Line "go on"; Line nbsp_8; Line "never read"] Proc0
     = (Ok tt, p')
     /\ last (stdout p') = Some (Py.nl +:+ "Goodbye!"))
  /\ (exists p',
        CLI_run offline_cli
          [Line " 1 "; Line ""; Line "nine"; Line "go on"; Line "7";
           Interrupted KeyboardInterrupt] Proc0
        = (Raise KeyboardInterrupt, p')).
Proof.
  destruct (CLI_run_session offline_cli [(" 1 ", ""); ("nine", "go on")] Proc0)
    as (Hquit & _ & Hraise & _).
  - repeat constructor; by vm_compute.
  - split.
    + apply (Hquit nbsp_8 [Line "never read"]); reflexivity.
    + apply (Hraise [Interrupted KeyboardInterrupt] KeyboardInterrupt); [reflexivity|].
      repeat split; by vm_compute.
Defined.

(** [main] on [bare_host]: quitting, and running out of input. *)
Lemma main_exit_status_on_bare_host :
  (exists p', main bare_host [Line "7"; Line ""; Line " 8"] Proc0 = (Ok tt, p'))
  /\ (exists p',
        main bare_host [Line "7"; Line ""] Proc0 = (Raise (SystemExit 1), p')
        /\ last (stdout p')
           = Some ("An unexpected error occurred: " +:+ str_exn EOFError))
  /\ (exists p',
        main bare_host [Line "7"; Line ""; Interrupted KeyboardInterrupt] Proc0
        = (Raise (SystemExit 0), p')
        /\ last (stdout p') = Some (Py.nl +:+ "Program interrupted by user. Goodbye!")).
Proof.
  destruct (main_exit_status bare_host [("7", "")] Proc0)
    as (Hquit & _ & _ & Heof & Hctrl_c).
  - constructor; intros; reflexivity.
  - repeat constructor; by vm_compute.
  - split; [apply (Hquit " 8" []); reflexivity|].
    split; [exact Heof | exact (Hctrl_c [])].
Defined.

(** On [healthy_host] both services are listed. *)
Lemma already_running_on_healthy_host :
  exists p',
    check_docker_containers healthy_host Proc0 = (Ok true, p')
    /\ calls p'
       = [("subprocess.run", compose_version); ("subprocess.run", compose_ps)]
    /\ sleeps p' = []
    /\ clock p' = 0
    /\ last (stdout p') = Some "All required Docker services are already running.".
Proof.
  apply (check_docker_containers_already_running healthy_host Proc0
           (mkCompleted 0 ("neo4j" +:+ Py.nl +:+ "chromadb" +:+ Py.nl) ""));
    [reflexivity | reflexivity | vm_compute; tauto | vm_compute; tauto].
Defined.

(** [Schedule()] on [healthy_host]. *)
Lemma Schedule_init_on_healthy_host :
  exists p',
    Schedule_init healthy_host Proc0
    = (Ok (mkSchedule "autoscheduler.core.schedule"
             (Some (mkDriver "bolt://localhost:7687" ("neo4j", "password")))
             (Some (HttpClient "localhost" 8000))
             DiGraph_new
             (Some (collection_on (HttpClient "localhost" 8000) "activities"))
             (Some (collection_on (HttpClient "localhost" 8000) "relationships"))), p').
Proof.
  apply (Schedule_init_value healthy_host Proc0).
  constructor; intros; reflexivity.
Defined.

(** Both checks on [healthy_host]. *)
Lemma connection_checks_on_healthy_host :
  (exists p',
     is_neo4j_connected healthy_host online_schedule Proc0 = (Ok true, p')
     /\ calls p'
        = [("driver.session", ["bolt://localhost:7687"]);
           ("session.run.single", ["RETURN 1"]);
           ("session.__exit__", ["bolt://localhost:7687"])])
  /\ (exists p',
        is_chromadb_connected healthy_host online_schedule Proc0 = (Ok true, p')
        /\ calls p' = [("client.heartbeat", [])]).
Proof.
  apply (connection_checks_decide healthy_host online_schedule Proc0).
  constructor; intros; reflexivity.
Defined.

(** The eight calls of [ScopeManager(schedule)] on [healthy_host]. *)
Lemma ScopeManager_init_on_healthy_host :
  exists p',
    ScopeManager_init healthy_host online_schedule Proc0
    = (Ok (mkScopeManager "autoscheduler.core.scope_manager" online_schedule), p')
    /\ calls p'
       = [("driver.session", ["bolt://localhost:7687"]);
          ("session.run.single", ["RETURN 1"]);
          ("session.__exit__", ["bolt://localhost:7687"]);
          ("driver.session", ["bolt://localhost:7687"]);
          ("session.run.single", ["RETURN 1"]);
          ("session.__exit__", ["bolt://localhost:7687"]);
          ("client.heartbeat", []); ("client.heartbeat", [])].
Proof.
  apply (ScopeManager_init_checks_twice healthy_host online_schedule Proc0).
  constructor; intros; reflexivity.
Defined.

(** The two placeholders after construction on [bare_host]. *)
Lemma ScopeManager_stubs_log_nothing_on_bare_host :
  exists sm p',
    ScopeManager_init bare_host (schedule offline_cli) Proc0 = (Ok sm, p')
    /\ _dispatch sm p'
       = (Ok false,
          mkProc (clock p')
            (events p'
               ++ [Print "Natural language prompt interface not implemented yet.";
                   Print "This will allow users to enter commands like:";
                   Print "- 'Add activities for excavation on floor 1'";
                   Print "- 'Delete all activities on the second floor'"])
            (loggers p'))
    /\ _add_activity sm (Py.StrV "pour slab") Py.NoneV p'
       = (Ok false,
          mkProc (clock p')
            (events p'
               ++ [Print "Add activity functionality not implemented yet.";
                   Print "This will allow adding activities with name, description, and duration."])
            (loggers p')).
Proof.
  apply (ScopeManager_stubs_log_nothing bare_host (schedule offline_cli) Proc0
           (Py.StrV "pour slab") Py.NoneV).
  constructor; intros; reflexivity.
Defined.

(** [prompt] on a service that cannot be reached. *)
Lemma LLM_errors_on_failing_service :
  exists p',
    prompt (failing (Exc "APIConnectionError" "Connection error.")) a_client
      [("user", "add excavation")] None
      (setup_logger "autoscheduler.llm.client" Proc0).2
    = (Raise (Exc "APIConnectionError" "Connection error."), p')
    /\ last (events p')
       = Some (Log "autoscheduler.llm.client" ERROR "Error in prompt: Connection error.").
Proof.
  destruct (LLM_errors_logged_and_raised
              (failing (Exc "APIConnectionError" "Connection error.")) a_client
              [("user", "add excavation")] [] "ActivitySchema" None
              (setup_logger "autoscheduler.llm.client" Proc0).2
              (mkLoggerState INFO 1) "APIConnectionError" "Connection error.")
    as (Hprompt & _); try reflexivity.
  - vm_compute. lia.
  - exact Hprompt.
Defined.

(** A reply without text, as a model gives when it only calls tools. *)
Example prompt_without_text :
  (prompt (answering (mkChatMessage None (Some []) None)) a_client
     [("user", "add excavation")] (Some "") Proc0).1
  = Raise not_subscriptable.
Proof. reflexivity. Qed.
